(** * Gamifisys POS+KDS backend: the workflow handlers of [main.py]

    A shallow embedding of the FastAPI handlers of [src/main.py] over the
    record shapes of [src/schemas.py].  Handlers are computations in a
    state-and-exception monad over the document store; an [HTTPException]
    and an unhandled Python exception are the two kinds of failure. *)

From Stdlib Require Import ZArith NArith List String Ascii Bool Lia.
From Stdlib Require Import SpecFloat.
Import ListNotations.
Open Scope string_scope.
Open Scope list_scope.
Open Scope Z_scope.

(** ** Python floats

    A Python [float] is an IEEE-754 binary64 number; [spec_float] with
    [prec = 53] and [emax = 1024] is its specification in the standard
    library (ties to even, no NaN payload). *)

Definition float := spec_float.
Definition prec : Z := 53.
Definition emax : Z := 1024.

Definition fadd : float -> float -> float := SFadd prec emax.
Definition fmul : float -> float -> float := SFmul prec emax.
Definition fdiv : float -> float -> float := SFdiv prec emax.

(** The float written [n / d] in decimal, e.g. [0.05] is [decimal 5 100]:
    the binary64 number nearest to the quotient. *)
Definition decimal (n d : positive) : float :=
  fdiv (S754_finite false n 0) (S754_finite false d 0).

Definition f0 : float := S754_zero false.
Definition f0_05 : float := Eval vm_compute in decimal 5 100.

(** [float(z)] for a Python [int]: the nearest binary64 number, and
    [OverflowError] ([None]) when that would be an infinity. *)
Definition float_of_Z (z : Z) : option float :=
  match binary_normalize prec emax z 0 false with
  | S754_infinity _ => None
  | x => Some x
  end.

(** [x >= 0] on floats, the check behind [confloat(ge=0)]: false on NaN. *)
Definition ge0 (x : float) : bool := SFleb f0 x.

(** Nearest integer to [num / den] for [den > 0], ties to the even one. *)
Definition round_half_even (num den : Z) : Z :=
  let q := num / den in
  match 2 * (num mod den) ?= den with
  | Lt => q
  | Gt => q + 1
  | Eq => if Z.even q then q else q + 1
  end.

(** The magnitude [m * 2^e] in hundredths, rounded half-even. *)
Definition hundredths (m : positive) (e : Z) : Z :=
  match e with
  | Zneg p => round_half_even (100 * Zpos m) (2 ^ Zpos p)
  | _ => 100 * Zpos m * 2 ^ e
  end.

(** [round(x, 2)]: a NaN or an infinity is returned as is; a finite [x] is
    rounded on its exact value to two decimals, ties to even, and the
    decimal obtained is read back as the nearest float, keeping the sign. *)
Definition py_round2 (x : float) : float :=
  match x with
  | S754_finite s m e =>
      match hundredths m e with
      | Zpos n => fdiv (S754_finite s n 0) (S754_finite false 100 0)
      | _ => S754_zero s
      end
  | _ => x
  end.

Definition is_finite (x : float) : bool :=
  match x with
  | S754_zero _ | S754_finite _ _ _ => true
  | _ => false
  end.

(** ** Object identifiers

    A [bson.ObjectId] holds the bytes that [bytes.fromhex] reads from a
    string of 24 characters: pairs of hexadecimal digits, with ASCII
    whitespace skipped between the pairs.  The identifiers of the store
    have 12 bytes and are the numbers below [16 ^ 24] that their bytes
    write; [str] gives their 24 lower-case digits.  A string with
    whitespace in it gives fewer bytes: the constructor lets it through,
    and what it makes is the identifier of no document, numbered here from
    [16 ^ 24] on. *)

Definition ObjectId := N.

Definition hex_value (c : ascii) : option N :=
  let n := N_of_ascii c in
  (if (48 <=? n) && (n <=? 57) then Some (n - 48)
   else if (97 <=? n) && (n <=? 102) then Some (n - 87)
   else if (65 <=? n) && (n <=? 70) then Some (n - 55)
   else None)%N.

(** ASCII whitespace: tab, line feed, vertical tab, form feed, carriage
    return and space. *)
Definition is_space (c : ascii) : bool :=
  let n := N_of_ascii c in
  ((9 <=? n) && (n <=? 13) || (n =? 32))%N.

(** [bytes.fromhex(s)]: [None] where it raises [ValueError]. *)
Fixpoint fromhex (s : string) : option (list N) :=
  match s with
  | EmptyString => Some []
  | String c s' =>
      if is_space c then fromhex s'
      else
        match hex_value c, s' with
        | Some hi, String c' s'' =>
            match hex_value c', fromhex s'' with
            | Some lo, Some b => Some ((16 * hi + lo)%N :: b)
            | _, _ => None
            end
        | _, _ => None
        end
  end.

(** The number that bytes write in base 256 after [acc]. *)
Definition base256 (b : list N) (acc : N) : N :=
  fold_left (fun a x => 256 * a + x)%N b acc.

Definition ObjectId_of_bytes (b : list N) : ObjectId :=
  if Nat.eqb (List.length b) 12 then base256 b 0%N
  else (16 ^ 24 + 256 ^ N.of_nat (List.length b) + base256 b 0)%N.

(** [ObjectId(s)] for a string [s]: [None] where it raises [InvalidId]. *)
Definition ObjectId_of_string (s : string) : option ObjectId :=
  if Nat.eqb (String.length s) 24
  then option_map ObjectId_of_bytes (fromhex s)
  else None.

(** The number that a string of hexadecimal digits writes after [acc]. *)
Fixpoint hex_parse (s : string) (acc : N) : option N :=
  match s with
  | EmptyString => Some acc
  | String c s' =>
      match hex_value c with
      | Some d => hex_parse s' (16 * acc + d)%N
      | None => None
      end
  end.

Definition hex_digit (d : N) : ascii :=
  ascii_of_N (if (d <? 10)%N then d + 48 else d + 87)%N.

Fixpoint hex_render (digits : nat) (n : N) (acc : string) : string :=
  match digits with
  | O => acc
  | S k => hex_render k (n / 16)%N (String (hex_digit (n mod 16)%N) acc)
  end.

Definition str_oid (k : ObjectId) : string := hex_render 24 k EmptyString.

(** ** Schemas ([schemas.py]) *)

Inductive Role := admin | cashier | chef | manager.
Inductive StationStatus := available | in_use | offline | maintenance.
Inductive SessionStatus := active | ended | paused.
Inductive OrderStatus := pending | preparing | ready | served | canceled.
Inductive PaymentMethod := cash | upi | card.
Inductive PaymentStatus := initiated | success | failed | refunded.

Definition StationStatus_eqb (a b : StationStatus) : bool :=
  match a, b with
  | available, available | in_use, in_use
  | offline, offline | maintenance, maintenance => true
  | _, _ => false
  end.

Definition SessionStatus_eqb (a b : SessionStatus) : bool :=
  match a, b with
  | active, active | ended, ended | paused, paused => true
  | _, _ => false
  end.

Definition PaymentStatus_eqb (a b : PaymentStatus) : bool :=
  match a, b with
  | initiated, initiated | success, success
  | failed, failed | refunded, refunded => true
  | _, _ => false
  end.

Module User.
Record t := mk {
  email : string;
  password_hash : string;
  name : string;
  role : Role;
  cafe_id : option string;
  is_active : bool
}.
End User.

(** [updated_at] is not a field of the schema: it is the key that
    [/stations/status] adds to a stored station. *)
Module Station.
Record t := mk {
  cafe_id : string;
  name : string;
  status : StationStatus;
  current_session_id : option string;
  updated_at : option string
}.
End Station.

Module Session.
Record t := mk {
  cafe_id : string;
  station_id : string;
  user_id : option string;
  customer_name : option string;
  status : SessionStatus;
  started_at : option string;
  ended_at : option string;
  duration_minutes : option Z;
  total_amount : option float
}.
End Session.

Module MenuItem.
Record t := mk {
  cafe_id : string;
  name : string;
  category : option string;
  price : float;
  sku : option string;
  is_active : bool
}.
End MenuItem.

Module OrderItem.
Record t := mk {
  item_id : string;
  name : string;
  qty : Z;
  unit_price : float;
  total_price : float
}.
End OrderItem.

(** [updated_at]: the key that [/orders/status] adds to a stored order. *)
Module Order.
Record t := mk {
  cafe_id : string;
  session_id : option string;
  station_id : option string;
  status : OrderStatus;
  items : list OrderItem.t;
  subtotal : float;
  tax : float;
  total : float;
  notes : option string;
  updated_at : option string
}.
End Order.

Module Payment.
Record t := mk {
  cafe_id : string;
  order_id : option string;
  session_id : option string;
  amount : float;
  method : PaymentMethod;
  status : PaymentStatus;
  idempotency_key : option string;
  reference : option string
}.
End Payment.

Module Settings.
Record t := mk {
  cafe_id : string;
  currency : string;
  tax_rate : float;
  service_charge_rate : float
}.
End Settings.

(** What a handler hands to [audit] as [payload]: the dump of a model or
    a one-key dictionary. *)
Inductive Payload :=
| PUser (u : User.t)
| PStation (s : Station.t)
| PSession (s : Session.t)
| PMenuItem (m : MenuItem.t)
| POrder (o : Order.t)
| PPayment (p : Payment.t)
| PSettings (s : Settings.t)
| PStationStatus (s : StationStatus)
| PSessionStatus (s : SessionStatus)
| POrderStatus (s : OrderStatus).

Module AuditLog.
Record t := mk {
  user_id : option string;
  cafe_id : option string;
  action : string;
  table : string;
  record_id : option string;
  payload : Payload
}.
End AuditLog.

(** *** Request DTOs *)

Module RegisterRequest.
Record t := mk { email : string; name : string; password : string; role : Role }.
End RegisterRequest.

Module StartSessionRequest.
Record t := mk { cafe_id : string; station_id : string; customer_name : option string }.
End StartSessionRequest.

Module EndSessionRequest.
Record t := mk { session_id : string }.
End EndSessionRequest.

(** A value of a JSON body as Python holds it.  A [str] is the sequence of
    its code points, all below 256 here; of a list or a dictionary no
    handler reads more than that it is one. *)
Inductive Value :=
| VNone
| VBool (b : bool)
| VInt (n : Z)
| VFloat (x : float)
| VStr (s : string)
| VList
| VDict.

(** One element of [CreateOrderRequest.items].  The schema types it as a
    bare [dict]: the keys [item_id] and [qty] may be missing and may hold
    any value.  The handler reads these two and nothing else: [price]
    stands for whatever further keys a client sends along. *)
Module Line.
Record t := mk { item_id : option Value; qty : option Value; price : option float }.
End Line.

Module CreateOrderRequest.
Record t := mk {
  cafe_id : string;
  session_id : option string;
  station_id : option string;
  items : list Line.t;
  notes : option string
}.
End CreateOrderRequest.

Module UpdateOrderStatusRequest.
Record t := mk { order_id : string; status : OrderStatus }.
End UpdateOrderStatusRequest.

Module CheckoutRequest.
Record t := mk {
  cafe_id : string;
  session_id : option string;
  order_id : option string;
  amount : float;
  method : PaymentMethod;
  idempotency_key : string
}.
End CheckoutRequest.

Module CreateMenuItemRequest.
Record t := mk {
  cafe_id : string;
  name : string;
  price : float;
  category : option string;
  sku : option string
}.
End CreateMenuItemRequest.

Module UpdateStationStatusRequest.
Record t := mk { station_id : string; status : StationStatus }.
End UpdateStationStatusRequest.

(** ** The document store

    A collection keeps its documents in insertion order, each under the
    identifier the store gave it. *)

Definition Coll (T : Type) := list (ObjectId * T).

Record Db := mkDb {
  user : Coll User.t;
  station : Coll Station.t;
  session : Coll Session.t;
  menuitem : Coll MenuItem.t;
  order : Coll Order.t;
  payment : Coll Payment.t;
  settings : Coll Settings.t;
  auditlog : Coll AuditLog.t
}.

Definition with_user c (d : Db) : Db :=
  mkDb c (station d) (session d) (menuitem d) (order d) (payment d) (settings d) (auditlog d).
Definition with_station c (d : Db) : Db :=
  mkDb (user d) c (session d) (menuitem d) (order d) (payment d) (settings d) (auditlog d).
Definition with_session c (d : Db) : Db :=
  mkDb (user d) (station d) c (menuitem d) (order d) (payment d) (settings d) (auditlog d).
Definition with_menuitem c (d : Db) : Db :=
  mkDb (user d) (station d) (session d) c (order d) (payment d) (settings d) (auditlog d).
Definition with_order c (d : Db) : Db :=
  mkDb (user d) (station d) (session d) (menuitem d) c (payment d) (settings d) (auditlog d).
Definition with_payment c (d : Db) : Db :=
  mkDb (user d) (station d) (session d) (menuitem d) (order d) c (settings d) (auditlog d).
Definition with_settings c (d : Db) : Db :=
  mkDb (user d) (station d) (session d) (menuitem d) (order d) (payment d) c (auditlog d).
Definition with_auditlog c (d : Db) : Db :=
  mkDb (user d) (station d) (session d) (menuitem d) (order d) (payment d) (settings d) c.

(** A collection of the database, as in [db.station] or [db["station"]]. *)
Record Collection (T : Type) := mkCollection {
  documents : Db -> Coll T;
  replace : Coll T -> Db -> Db
}.
Arguments documents {T} _ _.
Arguments replace {T} _ _ _.

Definition c_user := mkCollection _ user with_user.
Definition c_station := mkCollection _ station with_station.
Definition c_session := mkCollection _ session with_session.
Definition c_menuitem := mkCollection _ menuitem with_menuitem.
Definition c_order := mkCollection _ order with_order.
Definition c_payment := mkCollection _ payment with_payment.
Definition c_settings := mkCollection _ settings with_settings.
Definition c_auditlog := mkCollection _ auditlog with_auditlog.

(** The filter [{"_id": k}]. *)
Definition by_id {T} (k : ObjectId) (d : ObjectId * T) : bool := N.eqb (fst d) k.

(** [find_one]: the first document, in insertion order, that the filter
    matches. *)
Definition find_one {T} (q : ObjectId * T -> bool) (c : Coll T) : option (ObjectId * T) :=
  List.find q c.

(** [update_one(filter, {"$set": ...})]: the first matching document has
    the fields set, the others are left alone; no match, no change. *)
Fixpoint update_one {T} (q : ObjectId * T -> bool) (f : T -> T) (c : Coll T) : Coll T :=
  match c with
  | [] => []
  | d :: c' => if q d then (fst d, f (snd d)) :: c' else d :: update_one q f c'
  end.

(** Modelled from the spec: the identifier generator of the store, which is
    part of [database.py] and the driver.  "All identifiers are opaque,
    globally-unique strings assigned by the store on creation": the new
    identifier is one that the collection does not hold yet. *)
Definition new_oid {T} (c : Coll T) : ObjectId :=
  N.succ (fold_right N.max 0%N (map fst c)).

(** ** Handlers as computations

    [audit_faults] is the fate of the coming writes to the audit log, one
    entry per write: [true] when the store will raise.  An outage is
    modelled there and nowhere else: the audit write is the only store call
    whose failure the program handles. *)

Record World := mkWorld {
  db : Db;
  audit_faults : list bool
}.

Inductive Exn :=
| HTTPException (status_code : Z) (detail : string)
| Unhandled (exc : string).

Inductive Result (A : Type) :=
| Ok (a : A)
| Raise (e : Exn).
Arguments Ok {A} _.
Arguments Raise {A} _.

Definition M (A : Type) := World -> Result A * World.

Definition ret {A} (a : A) : M A := fun w => (Ok a, w).

Definition bind {A B} (m : M A) (k : A -> M B) : M B :=
  fun w =>
    match m w with
    | (Ok a, w') => k a w'
    | (Raise e, w') => (Raise e, w')
    end.

Definition raise {A} (e : Exn) : M A := fun w => (Raise e, w).

(** [try: m  except Exception: h] *)
Definition try_except {A} (m : M A) (h : Exn -> M A) : M A :=
  fun w =>
    match m w with
    | (Ok a, w') => (Ok a, w')
    | (Raise e, w') => h e w'
    end.

Definition gets {A} (f : Db -> A) : M A := fun w => (Ok (f (db w)), w).

Definition modify (f : Db -> Db) : M unit :=
  fun w => (Ok tt, mkWorld (f (db w)) (audit_faults w)).

Declare Scope handler_scope.
Delimit Scope handler_scope with handler.
Notation "x <- m ;; k" := (bind m (fun x => k))
  (at level 100, m at next level, right associativity) : handler_scope.
Notation "' p <- m ;; k" := (bind m (fun x => let 'p := x in k))
  (at level 100, p pattern, m at next level, right associativity) : handler_scope.
Notation "m ;; k" := (bind m (fun _ => k))
  (at level 100, right associativity) : handler_scope.
Open Scope handler_scope.

Definition db_find_one {T} (c : Collection T) (q : ObjectId * T -> bool)
  : M (option (ObjectId * T)) :=
  gets (fun d => find_one q (documents c d)).

Definition db_update_one {T} (c : Collection T) (q : ObjectId * T -> bool) (f : T -> T)
  : M unit :=
  modify (fun d => replace c (update_one q f (documents c d)) d).

(** Modelled from the spec: [create_document] of [database.py], which is
    not among the sources.  "[create(collection, record) -> id]": the
    record is appended to the collection under a generated identifier, and
    that identifier is returned as a string.  (The creation timestamp the
    store adds is left out: no handler below reads it.) *)
Definition create_document {T} (c : Collection T) (data : T) : M string :=
  fun w =>
    let k := new_oid (documents c (db w)) in
    (Ok (str_oid k),
     mkWorld (replace c (documents c (db w) ++ [(k, data)]) (db w)) (audit_faults w)).

(** The outcome of the coming audit write, taken from [audit_faults]. *)
Definition store_fault : M unit :=
  fun w =>
    match audit_faults w with
    | true :: rest => (Raise (Unhandled "Exception"), mkWorld (db w) rest)
    | false :: rest => (Ok tt, mkWorld (db w) rest)
    | [] => (Ok tt, w)
    end.

(** A pydantic model whose constrained fields fail validation raises
    [ValidationError], which no handler catches. *)
Definition validate (ok : bool) : M unit :=
  if ok then ret tt else raise (Unhandled "ValidationError").

(** Truth value of a Python string. *)
Definition truthy (s : string) : bool := negb (String.eqb s "").

Definition opt_str_eqb (a b : option string) : bool :=
  match a, b with
  | Some x, Some y => String.eqb x y
  | None, None => true
  | _, _ => false
  end.

(** ** Helpers ([main.py]) *)

Definition oid (id_str : string) : M ObjectId :=
  match ObjectId_of_string id_str with
  | Some k => ret k
  | None => raise (HTTPException 400 "Invalid ID")
  end.

Definition audit (action table : string) (record_id : option string) (payload : Payload)
  (user_id cafe_id : option string) : M unit :=
  try_except
    (store_fault ;;
     _ <- create_document c_auditlog
            (AuditLog.mk user_id cafe_id action table record_id payload) ;;
     ret tt)
    (fun _ => ret tt).

(** *** The [$set] documents of the handlers *)

Definition set_station_status (s : StationStatus) (updated_at : string) (st : Station.t) :=
  Station.mk (Station.cafe_id st) (Station.name st) s
    (Station.current_session_id st) (Some updated_at).

Definition set_station_session (s : StationStatus) (sid : option string) (st : Station.t) :=
  Station.mk (Station.cafe_id st) (Station.name st) s sid (Station.updated_at st).

Definition set_session_ended (ended_at : string) (s : Session.t) :=
  Session.mk (Session.cafe_id s) (Session.station_id s) (Session.user_id s)
    (Session.customer_name s) ended (Session.started_at s) (Some ended_at)
    (Session.duration_minutes s) (Session.total_amount s).

Definition set_order_status (s : OrderStatus) (updated_at : option string) (o : Order.t) :=
  Order.mk (Order.cafe_id o) (Order.session_id o) (Order.station_id o) s
    (Order.items o) (Order.subtotal o) (Order.tax o) (Order.total o) (Order.notes o)
    (match updated_at with Some t => Some t | None => Order.updated_at o end).

(** ** Auth *)

Definition register (req : RegisterRequest.t) : M string :=
  existing <- db_find_one c_user
    (fun d => String.eqb (User.email (snd d)) (RegisterRequest.email req)) ;;
  match existing with
  | Some _ => raise (HTTPException 400 "Email already registered")
  | None =>
      let user := User.mk (RegisterRequest.email req) (RegisterRequest.password req)
                    (RegisterRequest.name req) (RegisterRequest.role req) None true in
      uid <- create_document c_user user ;;
      audit "create" "user" (Some uid) (PUser user) None None ;;
      ret uid
  end.

(** ** Stations *)

Definition create_station (station : Station.t) : M string :=
  sid <- create_document c_station station ;;
  audit "create" "station" (Some sid) (PStation station) None (Some (Station.cafe_id station)) ;;
  ret sid.

Definition update_station_status (req : UpdateStationStatusRequest.t) (now : string)
  : M bool :=
  k <- oid (UpdateStationStatusRequest.station_id req) ;;
  st <- db_find_one c_station (by_id k) ;;
  match st with
  | None => raise (HTTPException 404 "Station not found")
  | Some (_, st) =>
      k' <- oid (UpdateStationStatusRequest.station_id req) ;;
      db_update_one c_station (by_id k')
        (set_station_status (UpdateStationStatusRequest.status req) now) ;;
      audit "update" "station" (Some (UpdateStationStatusRequest.station_id req))
        (PStationStatus (UpdateStationStatusRequest.status req)) None
        (Some (Station.cafe_id st)) ;;
      ret true
  end.

(** ** Sessions

    [now] is what [now_iso()] returns during the request. *)

Definition start_session (req : StartSessionRequest.t) (now : string) : M string :=
  k <- oid (StartSessionRequest.station_id req) ;;
  st <- db_find_one c_station (by_id k) ;;
  match st with
  | None => raise (HTTPException 404 "Station not found")
  | Some (_, st) =>
      if StationStatus_eqb (Station.status st) in_use
      then raise (HTTPException 409 "Station already in use")
      else
        let session :=
          Session.mk (StartSessionRequest.cafe_id req) (StartSessionRequest.station_id req)
            None (StartSessionRequest.customer_name req) active (Some now) None None
            (Some f0) in
        sid <- create_document c_session session ;;
        k' <- oid (StartSessionRequest.station_id req) ;;
        db_update_one c_station (by_id k') (set_station_session in_use (Some sid)) ;;
        audit "create" "session" (Some sid) (PSession session) None
          (Some (StartSessionRequest.cafe_id req)) ;;
        ret sid
  end.

Definition end_session (req : EndSessionRequest.t) (now : string) : M bool :=
  k <- oid (EndSessionRequest.session_id req) ;;
  sess <- db_find_one c_session (by_id k) ;;
  match sess with
  | None => raise (HTTPException 404 "Session not found")
  | Some (_, sess) =>
      if SessionStatus_eqb (Session.status sess) ended
      then ret true
      else
        k' <- oid (EndSessionRequest.session_id req) ;;
        db_update_one c_session (by_id k') (set_session_ended now) ;;
        ks <- oid (Session.station_id sess) ;;
        db_update_one c_station (by_id ks) (set_station_session available None) ;;
        audit "update" "session" (Some (EndSessionRequest.session_id req))
          (PSessionStatus ended) None (Some (Session.cafe_id sess)) ;;
        ret true
  end.

(** ** Menu *)

Definition create_menu_item (req : CreateMenuItemRequest.t) : M string :=
  validate (ge0 (CreateMenuItemRequest.price req)) ;;
  let mi := MenuItem.mk (CreateMenuItemRequest.cafe_id req) (CreateMenuItemRequest.name req)
              (CreateMenuItemRequest.category req) (CreateMenuItemRequest.price req)
              (CreateMenuItemRequest.sku req) true in
  mid <- create_document c_menuitem mi ;;
  audit "create" "menuitem" (Some mid) (PMenuItem mi) None (Some (MenuItem.cafe_id mi)) ;;
  ret mid.

(** ** Orders *)

(** The filter [{"cafe_id": cafe_id}] on the settings. *)
Definition of_cafe (cafe_id : string) (d : ObjectId * Settings.t) : bool :=
  String.eqb (Settings.cafe_id (snd d)) cafe_id.

(** [unit_price * qty] with [qty] an [int]: the integer is converted to a
    float first, which raises [OverflowError] when it is too large. *)
Definition mul_float_int (x : float) (n : Z) : M float :=
  match float_of_Z n with
  | Some y => ret (fmul x y)
  | None => raise (Unhandled "OverflowError")
  end.

(** *** [int]

    [int(x)] of a [str] reads a decimal literal: whitespace around it skipped,
    a sign, then digits with single underscores allowed between them, 4300
    digits at most. *)

Definition digit_value (c : ascii) : option Z :=
  let n := N_of_ascii c in
  if ((48 <=? n) && (n <=? 57))%N then Some (Z.of_N n - 48) else None.

(** Whitespace for [int]: the ASCII one, and of the code points from 128
    on, which count as Unicode has them, the next line and the no-break
    space. *)
Definition int_space (c : ascii) : bool :=
  let n := N_of_ascii c in
  (is_space c || (n =? 133) || (n =? 160))%N.

Fixpoint lstrip (s : string) : string :=
  match s with
  | String c s' => if int_space c then lstrip s' else s
  | EmptyString => s
  end.

Fixpoint all_space (s : string) : bool :=
  match s with
  | String c s' => int_space c && all_space s'
  | EmptyString => true
  end.

(** The digits of a literal after [acc]: the number read, how many digits
    it has, and what follows it.  [prev] tells that no digit may be missing
    here: at the start and after an underscore. *)
Fixpoint scan_digits (s : string) (acc : Z) (n : nat) (prev : bool)
  : option (Z * nat * string) :=
  match s with
  | String c s' =>
      match digit_value c with
      | Some d => scan_digits s' (10 * acc + d) (S n) false
      | None =>
          if Ascii.eqb c "_"
          then if prev then None else scan_digits s' acc n true
          else if prev then None else Some (acc, n, s)
      end
  | EmptyString => if prev then None else Some (acc, n, s)
  end.

Definition int_of_string (s : string) : option Z :=
  let s := lstrip s in
  let '(negative, s) :=
    match s with
    | String "-" s' => (true, s')
    | String "+" s' => (false, s')
    | _ => (false, s)
    end in
  match scan_digits s 0 0 true with
  | Some (v, n, rest) =>
      if (n <=? 4300)%nat && all_space rest
      then Some (if negative then - v else v)
      else None
  | None => None
  end.

(** [int(v)]: a float is truncated towards zero. *)
Definition int_of (v : Value) : Result Z :=
  match v with
  | VInt n => Ok n
  | VBool b => Ok (if b then 1 else 0)
  | VFloat (S754_finite s m e) => Ok (cond_Zopp s (Z.shiftl (Zpos m) e))
  | VFloat (S754_zero _) => Ok 0
  | VFloat (S754_infinity _) => Raise (Unhandled "OverflowError")
  | VFloat S754_nan => Raise (Unhandled "ValueError")
  | VStr s =>
      match int_of_string s with
      | Some n => Ok n
      | None => Raise (Unhandled "ValueError")
      end
  | VNone | VList | VDict => Raise (Unhandled "TypeError")
  end.

Definition int (v : Value) : M Z := fun w => (int_of v, w).

(** [db.menuitem.find_one({"_id": oid(v)})] for whatever [it["item_id"]]
    holds.  [ObjectId(None)] is a newly generated identifier, which no
    document has; on anything else that is no string [ObjectId] raises
    [TypeError], which [oid] turns into its 400. *)
Definition find_item (v : Value) : M (option (ObjectId * MenuItem.t)) :=
  match v with
  | VStr s => k <- oid s ;; db_find_one c_menuitem (by_id k)
  | VNone => ret None
  | _ => raise (HTTPException 400 "Invalid ID")
  end.

(** [f"{v}"] for an [item_id] that got past [oid]: a string or [None]. *)
Definition str_item_id (v : Value) : string :=
  match v with
  | VStr s => s
  | _ => "None"
  end.

(** The loop of [create_order] over [req.items], with its two accumulators. *)
Fixpoint price_lines (lines : list Line.t) (items : list OrderItem.t) (subtotal : float)
  : M (list OrderItem.t * float) :=
  match lines with
  | [] => ret (items, subtotal)
  | it :: rest =>
      match Line.item_id it with
      | None => raise (Unhandled "KeyError")
      | Some v =>
          item_doc <- find_item v ;;
          match item_doc with
          | None =>
              raise (HTTPException 400 ("Invalid menu item: " ++ str_item_id v)%string)
          | Some (k', mi) =>
              if negb (MenuItem.is_active mi)
              then raise (HTTPException 400 ("Invalid menu item: " ++ str_item_id v)%string)
              else
                qty <- int (match Line.qty it with Some q => q | None => VInt 1 end) ;;
                if qty <=? 0
                then raise (HTTPException 400 "Invalid quantity")
                else
                  let unit_price := MenuItem.price mi in
                  line_total <- mul_float_int unit_price qty ;;
                  let subtotal := fadd subtotal line_total in
                  validate ((0 <? qty) && ge0 unit_price && ge0 line_total) ;;
                  price_lines rest
                    (items ++ [OrderItem.mk (str_oid k') (MenuItem.name mi) qty
                                 unit_price line_total])
                    subtotal
          end
      end
  end.

Definition create_order (req : CreateOrderRequest.t) : M (string * float) :=
  match CreateOrderRequest.items req with
  | [] => raise (HTTPException 400 "Order must have items")
  | lines =>
      '(items, subtotal) <- price_lines lines [] f0 ;;
      settings <- db_find_one c_settings (of_cafe (CreateOrderRequest.cafe_id req)) ;;
      let tax_rate := match settings with
                      | Some (_, s) => Settings.tax_rate s
                      | None => f0
                      end in
      let tax := py_round2 (fmul subtotal tax_rate) in
      let total := py_round2 (fadd subtotal tax) in
      validate (ge0 subtotal && ge0 tax && ge0 total) ;;
      let order := Order.mk (CreateOrderRequest.cafe_id req)
                     (CreateOrderRequest.session_id req) (CreateOrderRequest.station_id req)
                     pending items subtotal tax total (CreateOrderRequest.notes req) None in
      oid_new <- create_document c_order order ;;
      audit "create" "order" (Some oid_new) (POrder order) None
        (Some (CreateOrderRequest.cafe_id req)) ;;
      ret (oid_new, total)
  end.

Definition update_order_status (req : UpdateOrderStatusRequest.t) (now : string) : M bool :=
  k <- oid (UpdateOrderStatusRequest.order_id req) ;;
  o <- db_find_one c_order (by_id k) ;;
  match o with
  | None => raise (HTTPException 404 "Order not found")
  | Some (_, o) =>
      k' <- oid (UpdateOrderStatusRequest.order_id req) ;;
      db_update_one c_order (by_id k')
        (set_order_status (UpdateOrderStatusRequest.status req) (Some now)) ;;
      audit "update" "order" (Some (UpdateOrderStatusRequest.order_id req))
        (POrderStatus (UpdateOrderStatusRequest.status req)) None (Some (Order.cafe_id o)) ;;
      ret true
  end.

(** ** Payments / Checkout *)

(** The filter [{"idempotency_key": key, "status": "success"}]. *)
Definition paid_with (key : string) (d : ObjectId * Payment.t) : bool :=
  opt_str_eqb (Payment.idempotency_key (snd d)) (Some key)
  && PaymentStatus_eqb (Payment.status (snd d)) success.

(** [if req.session_id: ...], the closing of the session. *)
Definition close_session (session_id : option string) (now : string) : M unit :=
  match session_id with
  | None => ret tt
  | Some sid =>
      if truthy sid then
        k <- oid sid ;;
        sess <- db_find_one c_session (by_id k) ;;
        match sess with
        | None => ret tt
        | Some (_, sess) =>
            if negb (SessionStatus_eqb (Session.status sess) ended) then
              k' <- oid sid ;;
              db_update_one c_session (by_id k') (set_session_ended now) ;;
              ks <- oid (Session.station_id sess) ;;
              db_update_one c_station (by_id ks) (set_station_session available None) ;;
              audit "update" "session" (Some sid) (PSessionStatus ended) None
                (Some (Session.cafe_id sess))
            else ret tt
        end
      else ret tt
  end.

(** [if req.order_id: ...], the serving of the order. *)
Definition serve_order (order_id : option string) : M unit :=
  match order_id with
  | None => ret tt
  | Some o =>
      if truthy o then
        k <- oid o ;;
        db_update_one c_order (by_id k) (set_order_status served None) ;;
        audit "update" "order" (Some o) (POrderStatus served) None None
      else ret tt
  end.

Definition checkout (req : CheckoutRequest.t) (now : string) : M (string * PaymentStatus) :=
  existing <- db_find_one c_payment (paid_with (CheckoutRequest.idempotency_key req)) ;;
  match existing with
  | Some (k, _) => ret (str_oid k, success)
  | None =>
      validate (ge0 (CheckoutRequest.amount req)) ;;
      let payment :=
        Payment.mk (CheckoutRequest.cafe_id req) (CheckoutRequest.order_id req)
          (CheckoutRequest.session_id req) (CheckoutRequest.amount req)
          (CheckoutRequest.method req) success
          (Some (CheckoutRequest.idempotency_key req)) None in
      pid <- create_document c_payment payment ;;
      close_session (CheckoutRequest.session_id req) now ;;
      serve_order (CheckoutRequest.order_id req) ;;
      audit "create" "payment" (Some pid) (PPayment payment) None
        (Some (CheckoutRequest.cafe_id req)) ;;
      ret (pid, success)
  end.

(** ** Settings *)

(** The dictionary [/settings] answers with: the settings and ["_id"]. *)
Record SettingsResponse := mkSettingsResponse {
  _id : string;
  fields : Settings.t
}.

(** [keeps_id] tells whether [create_document] leaves the generated ["_id"]
    in the dictionary it is given, which [database.py] decides: the answer
    to the creating call carries the identifier when it does and the empty
    string when it does not. *)
Definition get_settings (keeps_id : bool) (cafe_id : string) : M SettingsResponse :=
  s <- db_find_one c_settings (of_cafe cafe_id) ;;
  match s with
  | Some (k, s) => ret (mkSettingsResponse (str_oid k) s)
  | None =>
      let s := Settings.mk cafe_id "INR" f0_05 f0 in
      new_id <- create_document c_settings s ;;
      ret (mkSettingsResponse (if keeps_id then new_id else "") s)
  end.

Definition update_settings (s : Settings.t) : M bool :=
  existing <- db_find_one c_settings (of_cafe (Settings.cafe_id s)) ;;
  sid <- match existing with
         | Some (k, _) =>
             db_update_one c_settings (by_id k) (fun _ => s) ;;
             ret (str_oid k)
         | None => create_document c_settings s
         end ;;
  audit "update" "settings" (Some sid) (PSettings s) None (Some (Settings.cafe_id s)) ;;
  ret true.

(** ** Login, lists and the dashboard *)

Module LoginRequest.
Record t := mk { email : string; password : string }.
End LoginRequest.

(** The dictionary [/auth/login] answers with. *)
Module LoginResponse.
Record t := mk { user_id : string; name : string; role : Role }.
End LoginResponse.

(** The filter [{"email": ..., "password_hash": ..., "is_active": True}]. *)
Definition credentials (email password : string) (d : ObjectId * User.t) : bool :=
  String.eqb (User.email (snd d)) email
  && String.eqb (User.password_hash (snd d)) password
  && User.is_active (snd d).

Definition login (req : LoginRequest.t) : M LoginResponse.t :=
  user <- db_find_one c_user
    (credentials (LoginRequest.email req) (LoginRequest.password req)) ;;
  match user with
  | None => raise (HTTPException 401 "Invalid credentials")
  | Some (k, u) => ret (LoginResponse.mk (str_oid k) (User.name u) (User.role u))
  end.

(** [q = {"cafe_id": cafe_id} if cafe_id else {}], on the documents of a
    collection whose cafe is read by [cafe_of]. *)
Definition cafe_query {T} (cafe_of : T -> string) (cafe_id : option string)
  (d : ObjectId * T) : bool :=
  match cafe_id with
  | Some c => if truthy c then String.eqb (cafe_of (snd d)) c else true
  | None => true
  end.

(** [list(db.c.find(q))] with every ["_id"] turned into its string. *)
Definition listing {T} (q : ObjectId * T -> bool) (c : Coll T) : list (string * T) :=
  map (fun d => (str_oid (fst d), snd d)) (filter q c).

Definition fetch_stations (cafe_id : option string) : M (list (string * Station.t)) :=
  gets (fun d => listing (cafe_query Station.cafe_id cafe_id) (station d)).

Definition fetch_menu (cafe_id : option string) : M (list (string * MenuItem.t)) :=
  gets (fun d => listing (cafe_query MenuItem.cafe_id cafe_id) (menuitem d)).

(** The dictionary [/dashboard/stats] answers with. *)
Module Stats.
Record t := mk { orders : nat; sessions : nat; payments : nat; revenue : float }.
End Stats.

(** The loop [revenue += float(p.get("amount", 0))] from [0.0]. *)
Definition sum_amounts (ps : Coll Payment.t) : float :=
  fold_left fadd (map (fun d => Payment.amount (snd d)) ps) f0.

Definition fetch_dashboard_stats (cafe_id : option string) : M Stats.t :=
  gets (fun d =>
    Stats.mk
      (List.length (filter (cafe_query Order.cafe_id cafe_id) (order d)))
      (List.length (filter (cafe_query Session.cafe_id cafe_id) (session d)))
      (List.length (filter (cafe_query Payment.cafe_id cafe_id) (payment d)))
      (py_round2 (sum_amounts (filter (cafe_query Payment.cafe_id cafe_id) (payment d))))).

(** ** The service as a whole

    One call of an endpoint, with what the clock and the store contribute
    to it, and the store it leaves.  The endpoints left out, [/],
    [/test_database], [/sessions] and [/orders/pending], only read. *)

Inductive Call :=
| POST_auth_register (req : RegisterRequest.t)
| POST_auth_login (req : LoginRequest.t)
| GET_stations (cafe_id : option string)
| POST_stations (station : Station.t)
| POST_stations_status (req : UpdateStationStatusRequest.t) (now : string)
| POST_sessions_start (req : StartSessionRequest.t) (now : string)
| POST_sessions_end (req : EndSessionRequest.t) (now : string)
| GET_menu (cafe_id : option string)
| POST_menu (req : CreateMenuItemRequest.t)
| POST_orders (req : CreateOrderRequest.t)
| POST_orders_status (req : UpdateOrderStatusRequest.t) (now : string)
| POST_checkout (req : CheckoutRequest.t) (now : string)
| GET_settings (keeps_id : bool) (cafe_id : string)
| POST_settings (s : Settings.t)
| GET_dashboard_stats (cafe_id : option string).

Definition handle (c : Call) (w : World) : World :=
  match c with
  | POST_auth_register req => snd (register req w)
  | POST_auth_login req => snd (login req w)
  | GET_stations cafe_id => snd (fetch_stations cafe_id w)
  | POST_stations station => snd (create_station station w)
  | POST_stations_status req now => snd (update_station_status req now w)
  | POST_sessions_start req now => snd (start_session req now w)
  | POST_sessions_end req now => snd (end_session req now w)
  | GET_menu cafe_id => snd (fetch_menu cafe_id w)
  | POST_menu req => snd (create_menu_item req w)
  | POST_orders req => snd (create_order req w)
  | POST_orders_status req now => snd (update_order_status req now w)
  | POST_checkout req now => snd (checkout req now w)
  | GET_settings keeps_id cafe_id => snd (get_settings keeps_id cafe_id w)
  | POST_settings s => snd (update_settings s w)
  | GET_dashboard_stats cafe_id => snd (fetch_dashboard_stats cafe_id w)
  end.

Definition empty_db : Db := mkDb [] [] [] [] [] [] [] [].

(** The worlds the service gets into from an empty store. *)
Inductive reachable : World -> Prop :=
| reachable_empty faults : reachable (mkWorld empty_db faults)
| reachable_handle c w : reachable w -> reachable (handle c w).

(** * Vocabulary of the statements *)

(** ** Sessions, checkout, settings and the audit log *)

(** A computation that leaves a part [f] of the store as it found it,
    whatever its outcome. *)
Definition preserves {A X} (f : Db -> X) (m : M A) : Prop :=
  forall w, f (db (snd (m w))) = f (db w).

(** What a successful [start_session] on station [k] leaves behind: a new
    active session, appended under the identifier returned, and the station
    in use by it. *)
Definition started (req : StartSessionRequest.t) (now : string) (w : World)
  (k : ObjectId) (st : Station.t) : Prop :=
  let new := new_oid (session (db w)) in
  exists w' s,
    start_session req now w = (Ok (str_oid new), w')
    /\ session (db w') = session (db w) ++ [(new, s)]
    /\ Session.status s = active
    /\ Session.started_at s = Some now
    /\ Session.ended_at s = None
    /\ Session.station_id s = StartSessionRequest.station_id req
    /\ Session.cafe_id s = StartSessionRequest.cafe_id req
    /\ Session.customer_name s = StartSessionRequest.customer_name req
    /\ station (db w')
       = update_one (by_id k) (set_station_session in_use (Some (str_oid new)))
           (station (db w))
    /\ find_one (by_id k) (station (db w'))
       = Some (k, Station.mk (Station.cafe_id st) (Station.name st) in_use
                    (Some (str_oid new)) (Station.updated_at st))
    /\ (user (db w'), menuitem (db w'), order (db w'), payment (db w'), settings (db w'))
       = (user (db w), menuitem (db w), order (db w), payment (db w), settings (db w)).

(** Whether the session part of [checkout] runs through on a store: the
    session id, when one is given, is a well-formed identifier, and so is
    the station id of the session it then has to end. *)
Definition closable (d : Db) (session_id : option string) : bool :=
  match session_id with
  | None => true
  | Some s =>
      if truthy s then
        match ObjectId_of_string s with
        | None => false
        | Some k =>
            match find_one (by_id k) (session d) with
            | None => true
            | Some (_, sess) =>
                SessionStatus_eqb (Session.status sess) ended
                || match ObjectId_of_string (Session.station_id sess) with
                   | Some _ => true
                   | None => false
                   end
            end
        end
      else true
  end.

(** The payment that [checkout] records for a request. *)
Definition payment_of (req : CheckoutRequest.t) : Payment.t :=
  Payment.mk (CheckoutRequest.cafe_id req) (CheckoutRequest.order_id req)
    (CheckoutRequest.session_id req) (CheckoutRequest.amount req)
    (CheckoutRequest.method req) success
    (Some (CheckoutRequest.idempotency_key req)) None.

(** The settings in an answer of [/settings], if it is one. *)
Definition fields_of (r : Result SettingsResponse) : option Settings.t :=
  match r with
  | Ok s => Some (fields s)
  | Raise _ => None
  end.

(** Everything in the store but the audit log. *)
Definition data (d : Db) :=
  (user d, station d, session d, menuitem d, order d, payment d, settings d).

(** Two worlds that differ at most in the audit log and in the fate of the
    audit writes to come. *)
Definition same_data (w1 w2 : World) : Prop := data (db w1) = data (db w2).

(** A computation that neither answers nor writes differently, the audit
    log apart, when started from two such worlds. *)
Definition audit_blind {A} (m : M A) : Prop :=
  forall w1 w2, same_data w1 w2 ->
    fst (m w1) = fst (m w2) /\ same_data (snd (m w1)) (snd (m w2)).

(** A collection other than the audit log. *)
Definition tracked {T} (c : Collection T) : Prop :=
  (forall d1 d2, data d1 = data d2 -> documents c d1 = documents c d2)
  /\ (forall d1 d2 x, data d1 = data d2 -> data (replace c x d1) = data (replace c x d2)).

(** A handler whose answer and whose writes, the audit log apart, are the
    same whichever audit writes fail. *)
Definition unaffected_by_audit_faults {A} (h : M A) : Prop :=
  forall (d : Db) (faults1 faults2 : list bool),
    fst (h (mkWorld d faults1)) = fst (h (mkWorld d faults2))
    /\ data (db (snd (h (mkWorld d faults1)))) = data (db (snd (h (mkWorld d faults2)))).

(** ** Orders, in the words of the specification *)

(** The menu item a line refers to: [item_id] has to be a string that
    [ObjectId] lets through, and an item has to be stored under it. *)
Definition menu_item_of (d : Db) (it : Line.t) : option (ObjectId * MenuItem.t) :=
  match Line.item_id it with
  | Some (VStr s) =>
      match ObjectId_of_string s with
      | Some k => find_one (by_id k) (menuitem d)
      | None => None
      end
  | _ => None
  end.

(** The quantity of a line as the handler takes it, [int(it.get("qty", 1))]:
    1 when the line gives none, a float truncated. *)
Definition quantity (it : Line.t) : Result Z :=
  int_of (match Line.qty it with Some v => v | None => VInt 1 end).

(** A line that references an existing, active menu item with a quantity
    above 0. *)
Definition line_valid (d : Db) (it : Line.t) : bool :=
  match menu_item_of d it, quantity it with
  | Some (_, mi), Ok q => MenuItem.is_active mi && (0 <? q)
  | _, _ => false
  end.

(** The snapshot of a line: id and name of the stored item, the quantity,
    the stored price as [unit_price], and [total_price = unit_price * qty].
    There is none when the item is missing, when the quantity is none, or
    when it is too large for a float. *)
Definition line_item (d : Db) (it : Line.t) : option OrderItem.t :=
  match menu_item_of d it, quantity it with
  | Some (k, mi), Ok n =>
      match float_of_Z n with
      | Some q =>
          Some (OrderItem.mk (str_oid k) (MenuItem.name mi) n
                  (MenuItem.price mi) (fmul (MenuItem.price mi) q))
      | None => None
      end
  | _, _ => None
  end.

(** The constraints of [OrderItem] on the two amounts of a snapshot. *)
Definition item_amounts_ok (oi : OrderItem.t) : bool :=
  ge0 (OrderItem.unit_price oi) && ge0 (OrderItem.total_price oi).

(** A line that is priced without any error. *)
Definition goes_through (d : Db) (it : Line.t) : Prop :=
  line_valid d it = true
  /\ exists oi, line_item d it = Some oi /\ item_amounts_ok oi = true.

(** What a line that is not valid stops the loop with.  A 400: "Invalid ID"
    for an [item_id] that is neither a string [ObjectId] lets through nor
    [None]; the [item_id] after "Invalid menu item: " when no item is
    stored under it or the item is inactive; "Invalid quantity" for a
    quantity of 0 or less.  Or an error that nothing handles: [KeyError]
    without an [item_id], and what [int] raises on the quantity. *)
Definition line_error (d : Db) (it : Line.t) : option Exn :=
  match Line.item_id it with
  | None => Some (Unhandled "KeyError")
  | Some (VStr s) =>
      match ObjectId_of_string s with
      | None => Some (HTTPException 400 "Invalid ID")
      | Some k =>
          match find_one (by_id k) (menuitem d) with
          | None => Some (HTTPException 400 ("Invalid menu item: " ++ s))
          | Some (_, mi) =>
              if MenuItem.is_active mi then
                match quantity it with
                | Ok q =>
                    if (q <=? 0)%Z then Some (HTTPException 400 "Invalid quantity")
                    else None
                | Raise e => Some e
                end
              else Some (HTTPException 400 ("Invalid menu item: " ++ s))
          end
      end
  | Some VNone => Some (HTTPException 400 "Invalid menu item: None")
  | Some _ => Some (HTTPException 400 "Invalid ID")
  end%string.

(** A line that is answered with a 400, and its detail. *)
Definition rejected (d : Db) (it : Line.t) (detail : string) : Prop :=
  line_error d it = Some (HTTPException 400 detail).

(** The sum of the line totals, taken from 0.0 in the order of the lines. *)
Definition sum_prices (items : list OrderItem.t) : float :=
  fold_left fadd (map OrderItem.total_price items) f0.

(** The tax rate [create_order] works with: that of the stored settings of
    the cafe, and 0.0 when the cafe has none. *)
Definition tax_rate_of (d : Db) (cafe_id : string) : float :=
  match find_one (of_cafe cafe_id) (settings d) with
  | Some (_, s) => Settings.tax_rate s
  | None => f0
  end.

(** The order for a request, given the snapshots of its lines:
    [tax = round(subtotal * tax_rate, 2)] and
    [total = round(subtotal + tax, 2)]. *)
Definition priced_order (d : Db) (req : CreateOrderRequest.t) (items : list OrderItem.t)
  : Order.t :=
  let subtotal := sum_prices items in
  let tax := py_round2 (fmul subtotal (tax_rate_of d (CreateOrderRequest.cafe_id req))) in
  let total := py_round2 (fadd subtotal tax) in
  Order.mk (CreateOrderRequest.cafe_id req) (CreateOrderRequest.session_id req)
    (CreateOrderRequest.station_id req) pending items subtotal tax total
    (CreateOrderRequest.notes req) None.

(** The constraints of [Order] on its three amounts. *)
Definition order_amounts_ok (o : Order.t) : bool :=
  ge0 (Order.subtotal o) && ge0 (Order.tax o) && ge0 (Order.total o).

(** A float that is neither negative nor the negative zero (a NaN passes). *)
Definition unsigned (x : float) : bool :=
  match x with
  | S754_zero true | S754_finite true _ _ | S754_infinity true => false
  | _ => true
  end.

(** A line as a well-behaved client sends it: a string for [item_id] and,
    if anything, an integer for [qty]. *)
Definition line (item_id : string) (qty : option Z) (price : option float) : Line.t :=
  Line.mk (Some (VStr item_id)) (option_map VInt qty) price.

(** A line without whatever the client sent besides [item_id] and [qty]. *)
Definition bare (it : Line.t) : Line.t := Line.mk (Line.item_id it) (Line.qty it) None.

(** A request with other lines. *)
Definition with_items (lines : list Line.t) (req : CreateOrderRequest.t)
  : CreateOrderRequest.t :=
  CreateOrderRequest.mk (CreateOrderRequest.cafe_id req) (CreateOrderRequest.session_id req)
    (CreateOrderRequest.station_id req) lines (CreateOrderRequest.notes req).

(** [oi] is the snapshot of the line [it], priced without error. *)
Definition snapshot (d : Db) (it : Line.t) (oi : OrderItem.t) : Prop :=
  line_valid d it = true /\ line_item d it = Some oi /\ item_amounts_ok oi = true.

(** The pricing of one line: the unit price is the stored price of the
    menu item the line refers to, and [total_price = unit_price * qty]. *)
Definition prices_line (d : Db) (it : Line.t) (oi : OrderItem.t) : Prop :=
  exists k mi n q,
    menu_item_of d it = Some (k, mi)
    /\ quantity it = Ok n
    /\ float_of_Z n = Some q
    /\ OrderItem.item_id oi = str_oid k
    /\ OrderItem.name oi = MenuItem.name mi
    /\ OrderItem.qty oi = n
    /\ OrderItem.unit_price oi = MenuItem.price mi
    /\ OrderItem.total_price oi = fmul (OrderItem.unit_price oi) q.

(** The three amounts of an order: the subtotal is the sum of the line
    totals, [tax = round(subtotal * tax_rate, 2)] and
    [total = round(subtotal + tax, 2)]. *)
Definition order_totals (d : Db) (req : CreateOrderRequest.t) (o : Order.t) : Prop :=
  Order.subtotal o = fold_left fadd (map OrderItem.total_price (Order.items o)) f0
  /\ Order.tax o
     = py_round2 (fmul (Order.subtotal o) (tax_rate_of d (CreateOrderRequest.cafe_id req)))
  /\ Order.total o = py_round2 (fadd (Order.subtotal o) (Order.tax o)).

(** [n] is an integer nearest to [num / den], and the even one of the two
    when [num / den] lies halfway between two integers. *)
Definition nearest_even (num den n : Z) : Prop :=
  2 * Z.abs (n * den - num) <= den
  /\ (2 * Z.abs (n * den - num) = den -> Z.even n = true).

(** [y] is [x] rounded to two decimals, half to even.  For a finite [x]
    the hundredths [n] of [y] are the integer nearest to [100 |x|], the
    even one of two, and [y] is the float nearest to [n / 100], with the
    sign of [x]; a zero, an infinity and a NaN are kept. *)
Definition rounds_to_cents (x y : float) : Prop :=
  match x with
  | S754_finite s m e =>
      exists n,
        (if e <? 0 then nearest_even (100 * Zpos m) (2 ^ (- e)) n
         else n = 100 * Zpos m * 2 ^ e)
        /\ y = match n with
               | Zpos p => fdiv (S754_finite s p 0) (S754_finite false 100 0)
               | _ => S754_zero s
               end
  | _ => y = x
  end.

(** ** The store over time *)

(** The world after a list of calls, the first of the list first. *)
Definition run (cs : list Call) (w : World) : World :=
  fold_left (fun w c => handle c w) cs w.

(** [c'] holds the documents of [c] in their places and under their
    identifiers, each one changed at most as [r] allows, and after them
    any others. *)
Definition extends_by {T} (r : T -> T -> Prop) (c c' : Coll T) : Prop :=
  exists c1 l,
    c' = c1 ++ l
    /\ Forall2 (fun d d' => fst d' = fst d /\ r (snd d) (snd d')) c c1.

(** A station keeps its cafe and its name. *)
Definition station_kept (st st' : Station.t) : Prop :=
  Station.cafe_id st' = Station.cafe_id st /\ Station.name st' = Station.name st.

(** A session stays as it is, or it was not ended and now is: status and
    end timestamp apart, nothing of it changes. *)
Definition session_kept (s s' : Session.t) : Prop :=
  s' = s \/ (Session.status s <> ended /\ exists t, s' = set_session_ended t s).

(** An order changes in its status and in [updated_at] at most. *)
Definition order_kept (o o' : Order.t) : Prop :=
  exists status updated_at,
    o' = Order.mk (Order.cafe_id o) (Order.session_id o) (Order.station_id o) status
           (Order.items o) (Order.subtotal o) (Order.tax o) (Order.total o)
           (Order.notes o) updated_at.

(** What a later store has in common with an earlier one. *)
Definition history (d d' : Db) : Prop :=
  extends_by eq (user d) (user d')
  /\ extends_by station_kept (station d) (station d')
  /\ extends_by session_kept (session d) (session d')
  /\ extends_by eq (menuitem d) (menuitem d')
  /\ extends_by order_kept (order d) (order d')
  /\ extends_by eq (payment d) (payment d')
  /\ extends_by (fun _ _ => True) (settings d) (settings d')
  /\ extends_by eq (auditlog d) (auditlog d').

(** A computation started in [w] leaves a store that [R] relates to the one
    it found. *)
Definition evolves (R : Db -> Db -> Prop) {A} (m : M A) (w : World) : Prop :=
  R (db w) (db (snd (m w))).

(** A relation between an earlier and a later store that can be checked
    write by write: it holds when nothing is written, it composes, and a
    new entry of the audit log does not break it. *)
Definition stepwise (R : Db -> Db -> Prop) : Prop :=
  (forall d, R d d)
  /\ (forall a b c, R a b -> R b c -> R a c)
  /\ (forall d x, R d (with_auditlog (auditlog d ++ [x]) d)).

(** [I] is not lost between an earlier and a later store. *)
Definition invariant (I : Db -> Prop) (d d' : Db) : Prop := I d -> I d'.

(** ** What holds of every store the service gets into *)

(** No two users have the same email, and every user is active. *)
Definition users_ok (d : Db) : Prop :=
  NoDup (map (fun x => User.email (snd x)) (user d))
  /\ Forall (fun x => User.is_active (snd x) = true) (user d).

(** Every payment is a success under an idempotency key, for an amount of
    0 or more, and no two payments have the same key. *)
Definition payments_ok (d : Db) : Prop :=
  NoDup (map (fun x => Payment.idempotency_key (snd x)) (payment d))
  /\ Forall (fun x => Payment.status (snd x) = success
                      /\ Payment.idempotency_key (snd x) <> None
                      /\ ge0 (Payment.amount (snd x)) = true) (payment d).

(** No two settings records have the same identifier or the same cafe. *)
Definition settings_ok (d : Db) : Prop :=
  NoDup (map fst (settings d))
  /\ NoDup (map (fun x => Settings.cafe_id (snd x)) (settings d)).

(** A line as [create_order] stores it: a quantity above 0, amounts of 0 or
    more, and [total_price = unit_price * qty]. *)
Definition item_ok (oi : OrderItem.t) : Prop :=
  0 < OrderItem.qty oi
  /\ item_amounts_ok oi = true
  /\ exists q, float_of_Z (OrderItem.qty oi) = Some q
               /\ OrderItem.total_price oi = fmul (OrderItem.unit_price oi) q.

(** An order as [create_order] stores it, whatever its status: at least one
    line, every line as above, the subtotal the sum of the line totals,
    [total = round(subtotal + tax, 2)], and amounts of 0 or more. *)
Definition order_ok (o : Order.t) : Prop :=
  Order.items o <> []
  /\ Forall item_ok (Order.items o)
  /\ Order.subtotal o = sum_prices (Order.items o)
  /\ Order.total o = py_round2 (fadd (Order.subtotal o) (Order.tax o))
  /\ order_amounts_ok o = true.

Definition orders_ok (d : Db) : Prop := Forall (fun x => order_ok (snd x)) (order d).

(** A session as [start_session] stores it and [end_session] or [checkout]
    ends it: its station id is well-formed and that of a stored station, it
    is active without an end or ended with one, and nothing has been
    entered for staff, duration or amount. *)
Definition session_ok (d : Db) (s : Session.t) : Prop :=
  (exists k, ObjectId_of_string (Session.station_id s) = Some k
             /\ find_one (by_id k) (station d) <> None)
  /\ Session.started_at s <> None
  /\ (Session.status s = active /\ Session.ended_at s = None
      \/ Session.status s = ended /\ Session.ended_at s <> None)
  /\ Session.user_id s = None
  /\ Session.duration_minutes s = None
  /\ Session.total_amount s = Some f0.

Definition sessions_ok (d : Db) : Prop := Forall (fun x => session_ok d (snd x)) (session d).

(** ** The audit trail *)

(** The audit store takes the coming write. *)
Definition audit_up (w : World) : Prop :=
  match audit_faults w with
  | true :: _ => False
  | _ => True
  end.

(** Between [w] and [w1] the audit log has got one entry, [e], at its end. *)
Definition logged (w w1 : World) (e : AuditLog.t) : Prop :=
  auditlog (db w1) = auditlog (db w) ++ [(new_oid (auditlog (db w)), e)].

(** * A sample store

    Four stations, one in each status; an active session on the second
    one and an ended session; three menu items, the last one inactive; a
    pending order; a successful payment; the settings of ["cafe1"]. *)

Definition f100 : float := Eval vm_compute in decimal 100 1.
Definition f50 : float := Eval vm_compute in decimal 50 1.

Definition ex_station (s : StationStatus) (sid : option string) : Station.t :=
  Station.mk "cafe1" "PS5" s sid None.

Definition ex_session (station_id : string) (s : SessionStatus) : Session.t :=
  Session.mk "cafe1" station_id None (Some "Walk-in") s (Some "2024-01-01T10:00:00+00:00")
    None None (Some f0).

Definition ex_order : Order.t :=
  Order.mk "cafe1" None None pending
    [OrderItem.mk (str_oid 1%N) "Espresso" 1 f100 f100] f100 f0 f100 None None.

Definition ex_payment : Payment.t :=
  Payment.mk "cafe1" None None f100 cash success (Some "key-1") None.

Definition ex_db : Db :=
  mkDb []
    [(1%N, ex_station available None); (2%N, ex_station in_use (Some (str_oid 1%N)));
     (3%N, ex_station offline None); (4%N, ex_station maintenance None)]
    [(1%N, ex_session (str_oid 2%N) active); (2%N, ex_session (str_oid 1%N) ended)]
    [(1%N, MenuItem.mk "cafe1" "Espresso" None f100 None true);
     (2%N, MenuItem.mk "cafe1" "Mocha" None f50 None true);
     (3%N, MenuItem.mk "cafe1" "Chai" None f50 None false)]
    [(1%N, ex_order)]
    [(1%N, ex_payment)]
    [(1%N, Settings.mk "cafe1" "INR" f0_05 f0)]
    [].

Definition ex_world : World := mkWorld ex_db [].

(** Two Espressos, with a price of the client's own, and one Mocha. *)
Definition ex_order_request : CreateOrderRequest.t :=
  CreateOrderRequest.mk "cafe1" None None
    [line (str_oid 1%N) (Some 2) (Some f50); line (str_oid 2%N) None None] None.

Definition f200 : float := Eval vm_compute in decimal 200 1.
Definition f250 : float := Eval vm_compute in decimal 250 1.
Definition f12_5 : float := Eval vm_compute in decimal 125 10.
Definition f262_5 : float := Eval vm_compute in decimal 2625 10.

Definition ex_order_items : list OrderItem.t :=
  [OrderItem.mk (str_oid 1%N) "Espresso" 2 f100 f200;
   OrderItem.mk (str_oid 2%N) "Mocha" 1 f50 f50].

(** One Espresso and one Chai, which is not active. *)
Definition ex_rejected_request : CreateOrderRequest.t :=
  CreateOrderRequest.mk "cafe1" None None
    [line (str_oid 1%N) (Some 1) None; line (str_oid 3%N) (Some 1) None] None.

(** The same lines, ordered at a cafe that has no settings. *)
Definition ex_walk_in_request : CreateOrderRequest.t :=
  CreateOrderRequest.mk "cafe2" None None (CreateOrderRequest.items ex_order_request) None.

(** A string of 24 characters that [bytes.fromhex] reads as 8 bytes:
    [ObjectId] takes it, and no document has what it makes. *)
Definition ex_spaced_id : string := "00 00 00 00 00 00 00 00 ".

Definition ex_register : RegisterRequest.t :=
  RegisterRequest.mk "ana@example.com" "Ana" "s3cret" cashier.

(** The sample store after Ana has registered and a second, deactivated
    user has been left behind. *)
Definition ex_world_users : World :=
  mkWorld
    (with_user
       [(1%N, User.mk "ana@example.com" "s3cret" "Ana" cashier None true);
        (2%N, User.mk "bo@example.com" "hunter2" "Bo" chef None false)]
       ex_db)
    [].

(** Calls made one after another on the sample store: the session on
    station 2 is checked out together with order 1, the station is taken
    out of service, an item is added to the menu, the order is reopened,
    the tax is set to zero, and Ana registers. *)
Definition ex_calls : list Call :=
  [POST_checkout
     (CheckoutRequest.mk "cafe1" (Some (str_oid 1%N)) (Some (str_oid 1%N)) f100 upi "key-2")
     "2024-01-01T11:00:00+00:00";
   POST_stations_status (UpdateStationStatusRequest.mk (str_oid 2%N) maintenance)
     "2024-01-01T11:05:00+00:00";
   POST_menu (CreateMenuItemRequest.mk "cafe1" "Latte" f50 None None);
   POST_orders_status (UpdateOrderStatusRequest.mk (str_oid 1%N) pending)
     "2024-01-01T11:10:00+00:00";
   POST_settings (Settings.mk "cafe1" "INR" f0 f0);
   POST_auth_register ex_register].

(** * Properties *)

(** ** The model on a few values *)

(** [round(2.675, 2)] is [2.67]: the float 2.675 lies below the tie. *)
Example py_round2_below_tie : py_round2 (decimal 2675 1000) = decimal 267 100.
Proof. vm_compute. reflexivity. Qed.

(** [0.125] and [0.375] are ties: they round to the even hundredth. *)
Example py_round2_ties :
  py_round2 (decimal 125 1000) = decimal 12 100
  /\ py_round2 (decimal 375 1000) = decimal 38 100.
Proof. split; vm_compute; reflexivity. Qed.

Example py_round2_keeps :
  py_round2 f12_5 = f12_5
  /\ py_round2 (S754_infinity false) = S754_infinity false
  /\ py_round2 S754_nan = S754_nan
  /\ py_round2 (S754_finite true 1 (-1074)) = S754_zero true.
Proof. repeat split. Qed.

(** [0.1 + 0.2] is not [0.3]. *)
Example fadd_inexact : fadd (decimal 1 10) (decimal 2 10) <> decimal 3 10.
Proof. vm_compute. discriminate. Qed.

Example float_of_Z_range :
  float_of_Z (2 ^ 1024) = None
  /\ float_of_Z (2 ^ 1024 - 2 ^ 970 - 1) = Some (S754_finite false 9007199254740991 971)
  /\ float_of_Z 2 = Some (decimal 2 1)
  /\ float_of_Z 0 = Some f0.
Proof. repeat split. Qed.

Example ObjectId_strings :
  ObjectId_of_string (str_oid 255%N) = Some 255%N
  /\ str_oid 255%N = "0000000000000000000000ff"
  /\ ObjectId_of_string "65F0A1B2C3D4E5F601234567"
     = ObjectId_of_string "65f0a1b2c3d4e5f601234567"
  /\ ObjectId_of_string "65f0a1b2c3d4e5f60123456" = None
  /\ ObjectId_of_string "65f0a1b2c3d4e5f60123456g" = None
  /\ ObjectId_of_string "" = None.
Proof. repeat split. Qed.

(** Whitespace between the pairs of digits is skipped: a string of 24
    characters with fewer than 24 digits is let through and is the
    identifier of no document, whereas whitespace inside a pair is
    refused. *)
Example ObjectId_whitespace :
  fromhex "00 00 00 00 00 00 00 00 " = Some [0; 0; 0; 0; 0; 0; 0; 0]%N
  /\ (exists k, ObjectId_of_string "00 00 00 00 00 00 00 00 " = Some k /\ (16 ^ 24 <= k)%N)
  /\ ObjectId_of_string "000000000000000000000000" = Some 0%N
  /\ ObjectId_of_string "00 00 00 00 00 00 00 00 " <> Some 0%N
  /\ ObjectId_of_string "0000 0000 0000 0000 0000"
     <> ObjectId_of_string "00 00 00 00 00 00 00 00 "
  /\ ObjectId_of_string "0 000000000000000000000 " = None
  /\ start_session (StartSessionRequest.mk "cafe1" "00 00 00 00 00 00 00 00 " None) "t"
       ex_world
     = (Raise (HTTPException 404 "Station not found"), ex_world).
Proof.
  split; [reflexivity|]. split; [eexists; split; [reflexivity|discriminate]|].
  split; [reflexivity|]. split; [discriminate|]. split; [discriminate|].
  split; reflexivity.
Qed.

(** The example of the specification: two items at 100 and one at 50 with
    a tax rate of 0.05 give the subtotal 250, the tax 12.5 and the total
    262.5. *)
Example priced_order_example :
  let o := priced_order (db ex_world) ex_order_request ex_order_items in
  Order.subtotal o = f250 /\ Order.tax o = f12_5 /\ Order.total o = f262_5.
Proof. repeat split. Qed.

(** [int] on what a JSON body can hold: a float is truncated towards zero,
    a string is read as a decimal literal. *)
Example int_of_values :
  int_of (VFloat (decimal 5 10)) = Ok 0
  /\ int_of (VFloat (decimal 29 10)) = Ok 2
  /\ int_of (VFloat (S754_finite true 29 (-4))) = Ok (-1)
  /\ int_of (VFloat (S754_infinity false)) = Raise (Unhandled "OverflowError")
  /\ int_of (VFloat S754_nan) = Raise (Unhandled "ValueError")
  /\ int_of (VBool true) = Ok 1
  /\ int_of (VStr " 1_0 ") = Ok 10
  /\ int_of (VStr "-7") = Ok (-7)
  /\ int_of (VStr "1__0") = Raise (Unhandled "ValueError")
  /\ int_of (VStr "- 1") = Raise (Unhandled "ValueError")
  /\ int_of (VStr "2.0") = Raise (Unhandled "ValueError")
  /\ int_of VNone = Raise (Unhandled "TypeError").
Proof. repeat split. Qed.

(** Lines as a client may send them, each ordered alone on the sample
    store: a quantity of 0.5 is taken as 0 and one of 2.9 as 2; a quantity
    that [int] does not take, a missing [item_id] and one that is no
    string stop the request each in its own way; an [item_id] with
    whitespace that [ObjectId] takes is looked up, and named in the
    answer. *)
Example create_order_loose_lines :
  let answer it :=
    fst (create_order (CreateOrderRequest.mk "cafe1" None None [it] None) ex_world) in
  let espresso := Some (VStr (str_oid 1%N)) in
  answer (Line.mk espresso (Some (VFloat (decimal 5 10))) None)
  = Raise (HTTPException 400 "Invalid quantity")
  /\ answer (Line.mk espresso (Some (VFloat (decimal 29 10))) None)
     = Ok (str_oid 2%N, decimal 210 1)
  /\ answer (Line.mk espresso (Some (VStr "two")) None) = Raise (Unhandled "ValueError")
  /\ answer (Line.mk espresso (Some VNone) None) = Raise (Unhandled "TypeError")
  /\ answer (Line.mk None (Some (VInt 1)) None) = Raise (Unhandled "KeyError")
  /\ answer (Line.mk (Some (VInt 1)) None None) = Raise (HTTPException 400 "Invalid ID")
  /\ answer (Line.mk (Some VNone) None None)
     = Raise (HTTPException 400 "Invalid menu item: None")
  /\ answer (Line.mk (Some (VStr ex_spaced_id)) None None)
     = Raise (HTTPException 400 "Invalid menu item: 00 00 00 00 00 00 00 00 ").
Proof. cbv zeta. repeat split; vm_compute; reflexivity. Qed.

(** A session started while the audit write fails: the same answer, and no
    entry in the audit log. *)
Example start_session_audit_down :
  let req := StartSessionRequest.mk "cafe1" (str_oid 1%N) (Some "Walk-in") in
  let up := start_session req "t" (mkWorld ex_db [false]) in
  let down := start_session req "t" (mkWorld ex_db [true]) in
  fst up = Ok (str_oid 3%N) /\ fst down = Ok (str_oid 3%N)
  /\ List.length (auditlog (db (snd up))) = 1%nat
  /\ List.length (auditlog (db (snd down))) = 0%nat
  /\ session (db (snd up)) = session (db (snd down)).
Proof. repeat split. Qed.

(** ** Object identifiers *)

Lemma hex_value_digit d : (d < 16)%N -> hex_value (hex_digit d) = Some d.
Proof.
  intros H. destruct d as [|p]; [reflexivity|].
  do 4 (destruct p as [p|p|]; try reflexivity; try lia).
Qed.

Lemma hex_render_length n : forall k acc,
  String.length (hex_render n k acc) = (n + String.length acc)%nat.
Proof.
  induction n as [|n IH]; intros k acc; simpl; [reflexivity|].
  rewrite IH. simpl. lia.
Qed.

Lemma hex_parse_render n : forall k acc a,
  hex_parse (hex_render n k acc) a
  = hex_parse acc (a * 16 ^ N.of_nat n + k mod 16 ^ N.of_nat n)%N.
Proof.
  induction n as [|n IH]; intros k acc a.
  - simpl hex_render. change (16 ^ N.of_nat 0)%N with 1%N.
    rewrite N.mod_1_r. f_equal. lia.
  - cbn [hex_render]. rewrite IH. cbn [hex_parse].
    rewrite hex_value_digit by (apply N.mod_lt; discriminate).
    f_equal. rewrite Nat2N.inj_succ, N.pow_succ_r'.
    rewrite (N.Div0.mod_mul_r k 16 (16 ^ N.of_nat n)). lia.
Qed.

Lemma hex_value_no_space c d : hex_value c = Some d -> is_space c = false.
Proof.
  unfold hex_value, is_space. cbv zeta.
  destruct (48 <=? N_of_ascii c)%N eqn:A, (N_of_ascii c <=? 57)%N eqn:B,
    (97 <=? N_of_ascii c)%N eqn:C, (N_of_ascii c <=? 102)%N eqn:D,
    (65 <=? N_of_ascii c)%N eqn:E, (N_of_ascii c <=? 70)%N eqn:F;
    cbn [andb]; try discriminate; intros _;
    destruct (9 <=? N_of_ascii c)%N eqn:G, (N_of_ascii c <=? 13)%N eqn:H,
      (N_of_ascii c =? 32)%N eqn:I; cbn [andb orb]; try reflexivity;
    repeat match goal with
    | X : (_ <=? _)%N = true |- _ => apply N.leb_le in X
    | X : (_ <=? _)%N = false |- _ => apply N.leb_gt in X
    | X : (_ =? _)%N = true |- _ => apply N.eqb_eq in X
    | X : (_ =? _)%N = false |- _ => apply N.eqb_neq in X
    end; lia.
Qed.

(** On an even number of hexadecimal digits [bytes.fromhex] reads half as
    many bytes, which write the number the digits write. *)
Lemma fromhex_digits n : forall s a v,
  String.length s = (2 * n)%nat ->
  hex_parse s a = Some v ->
  exists b, fromhex s = Some b /\ List.length b = n /\ base256 b a = v.
Proof.
  induction n as [|n IH]; intros s a v Hl Hp.
  - destruct s; [|discriminate]. injection Hp as <-. now exists [].
  - destruct s as [|c [|c' s]]; [discriminate|cbn in Hl; lia|].
    cbn [hex_parse] in Hp.
    destruct (hex_value c) as [hi|] eqn:Hc; [|discriminate].
    destruct (hex_value c') as [lo|] eqn:Hc'; [|discriminate].
    assert (Hl' : String.length s = (2 * n)%nat) by (cbn in Hl; lia).
    replace (16 * (16 * a + hi) + lo)%N with (256 * a + (16 * hi + lo))%N in Hp by lia.
    destruct (IH s _ v Hl' Hp) as (b & Hb & Hn & Hv).
    exists ((16 * hi + lo)%N :: b). cbn [fromhex].
    rewrite (hex_value_no_space c hi Hc), Hc, Hc', Hb.
    split; [reflexivity|]. split; [cbn; now rewrite Hn|exact Hv].
Qed.

(** The string of an identifier reads back as that identifier. *)
Lemma ObjectId_of_string_str_oid k :
  (k < 16 ^ 24)%N -> ObjectId_of_string (str_oid k) = Some k.
Proof.
  intros H. unfold ObjectId_of_string, str_oid.
  rewrite hex_render_length. cbn [String.length Nat.add Nat.eqb].
  assert (Hp : hex_parse (hex_render 24 k EmptyString) 0 = Some k).
  { rewrite hex_parse_render. cbn [hex_parse]. f_equal.
    change (N.of_nat 24) with 24%N. rewrite N.mod_small by exact H. reflexivity. }
  destruct (fromhex_digits 12 _ 0%N k (hex_render_length 24 k EmptyString) Hp)
    as (b & -> & Hn & Hv).
  cbn [option_map]. unfold ObjectId_of_bytes. now rewrite Hn, Hv.
Qed.

(** An identifier read from a string with whitespace in it is none of the
    12-byte identifiers. *)
(** ** The store *)

Lemma by_id_fst {T} (k : ObjectId) (d : ObjectId * T) (x : T) :
  by_id k (fst d, x) = by_id k d.
Proof. reflexivity. Qed.

Lemma find_one_by_id {T} (k k' : ObjectId) (x : T) (c : Coll T) :
  find_one (by_id k) c = Some (k', x) -> k' = k.
Proof.
  intros H. apply find_some in H. destruct H as [_ H].
  unfold by_id in H. simpl in H. now apply N.eqb_eq in H.
Qed.

Lemma find_one_In {T} (q : ObjectId * T -> bool) (c : Coll T) (d : ObjectId * T) :
  find_one q c = Some d -> In d c /\ q d = true.
Proof. apply find_some. Qed.

(** After [update_one] on [{"_id": k}], looking [k] up gives the updated
    document. *)
Lemma find_one_update_one {T} (k : ObjectId) (f : T -> T) (c : Coll T) :
  find_one (by_id k) (update_one (by_id k) f c)
  = option_map (fun d => (fst d, f (snd d))) (find_one (by_id k) c).
Proof.
  induction c as [|d c IH]; simpl; [reflexivity|].
  destruct (by_id k d) eqn:E; simpl.
  - rewrite by_id_fst, E. reflexivity.
  - rewrite E. exact IH.
Qed.

Lemma update_one_none {T} (q : ObjectId * T -> bool) (f : T -> T) (c : Coll T) :
  find_one q c = None -> update_one q f c = c.
Proof.
  induction c as [|d c IH]; simpl; [reflexivity|].
  destruct (q d); [discriminate|]. intros H. now rewrite IH.
Qed.

Lemma update_one_length {T} (q : ObjectId * T -> bool) (f : T -> T) (c : Coll T) :
  List.length (update_one q f c) = List.length c.
Proof.
  induction c as [|d c IH]; simpl; [reflexivity|].
  destruct (q d); simpl; congruence.
Qed.

Lemma find_one_app_new {T} (q : ObjectId * T -> bool) (c : Coll T) (d : ObjectId * T) :
  find_one q c = None -> q d = true -> find_one q (c ++ [d]) = Some d.
Proof.
  induction c as [|x c IH]; simpl; intros Hn Hq.
  - now rewrite Hq.
  - destruct (q x); [discriminate|]. now apply IH.
Qed.

Lemma filter_none {T} (q : ObjectId * T -> bool) (c : Coll T) :
  find_one q c = None -> filter q c = [].
Proof.
  induction c as [|x c IH]; simpl; [reflexivity|].
  destruct (q x); [discriminate|]. exact IH.
Qed.

(** The generated identifier is not one of the collection. *)
Lemma new_oid_fresh {T} (c : Coll T) (x : T) : ~ In (new_oid c, x) c.
Proof.
  assert (B : forall d, In d c -> (fst d <= fold_right N.max 0 (map fst c))%N).
  { induction c as [|d c IH]; simpl; [tauto|].
    intros d' [<-|H]; [lia|]. specialize (IH d' H). lia. }
  intros H. apply B in H. unfold new_oid in H. simpl in H. lia.
Qed.

(** ** Enumerations *)

Lemma StationStatus_eqb_eq a b : StationStatus_eqb a b = true <-> a = b.
Proof. destruct a, b; simpl; split; congruence. Qed.

Lemma SessionStatus_eqb_eq a b : SessionStatus_eqb a b = true <-> a = b.
Proof. destruct a, b; simpl; split; congruence. Qed.

Lemma PaymentStatus_eqb_eq a b : PaymentStatus_eqb a b = true <-> a = b.
Proof. destruct a, b; simpl; split; congruence. Qed.

Lemma opt_str_eqb_eq a b : opt_str_eqb a b = true <-> a = b.
Proof.
  destruct a as [x|], b as [y|]; simpl; try (split; congruence).
  rewrite String.eqb_eq. split; congruence.
Qed.

(** ** The audit recorder *)

(** [audit] never raises, and the audit log and the fault schedule are all
    it touches. *)
Lemma audit_spec action table record_id payload user_id cafe_id w :
  exists log faults,
    audit action table record_id payload user_id cafe_id w
    = (Ok tt, mkWorld (with_auditlog log (db w)) faults).
Proof.
  unfold audit, try_except, bind, store_fault, create_document, ret.
  destruct w as [d fl]. simpl.
  destruct fl as [|[|] fl]; simpl.
  - eexists; eexists; reflexivity.
  - exists (auditlog d), fl. now destruct d.
  - eexists; eexists; reflexivity.
Qed.

(** ** Frames: what a computation leaves alone *)

Lemma preserves_ret {A X} (f : Db -> X) (a : A) : preserves f (ret a).
Proof. intros w. reflexivity. Qed.

Lemma preserves_raise {A X} (f : Db -> X) (e : Exn) : preserves f (@raise A e).
Proof. intros w. reflexivity. Qed.

Lemma preserves_bind {A B X} (f : Db -> X) (m : M A) (k : A -> M B) :
  preserves f m -> (forall a, preserves f (k a)) -> preserves f (bind m k).
Proof.
  intros Hm Hk w. unfold bind. specialize (Hm w).
  destruct (m w) as [[a|e] w1]; simpl in *; [|exact Hm].
  now rewrite Hk.
Qed.

Lemma preserves_gets {A X} (f : Db -> X) (g : Db -> A) : preserves f (gets g).
Proof. intros w. reflexivity. Qed.

Lemma preserves_oid {X} (f : Db -> X) s : preserves f (oid s).
Proof. intros w. unfold oid. now destruct (ObjectId_of_string s). Qed.

Lemma preserves_validate {X} (f : Db -> X) b : preserves f (validate b).
Proof. intros w. now destruct b. Qed.

Lemma preserves_update {T X} (f : Db -> X) (c : Collection T) q g :
  (forall x d, f (replace c x d) = f d) -> preserves f (db_update_one c q g).
Proof. intros H w. simpl. apply H. Qed.

Lemma preserves_create {T X} (f : Db -> X) (c : Collection T) x :
  (forall y d, f (replace c y d) = f d) -> preserves f (create_document c x).
Proof. intros H w. simpl. apply H. Qed.

Lemma preserves_audit {X} (f : Db -> X) a t r p u c :
  (forall x d, f (with_auditlog x d) = f d) -> preserves f (audit a t r p u c).
Proof.
  intros H w. destruct (audit_spec a t r p u c w) as (log & fl & E).
  rewrite E. simpl. apply H.
Qed.

Ltac frame :=
  repeat match goal with
    | |- preserves _ (match ?x with _ => _ end) => destruct x
    | |- preserves _ (bind _ _) => apply preserves_bind; [|intros]
    | |- preserves _ (ret _) => apply preserves_ret
    | |- preserves _ (raise _) => apply preserves_raise
    | |- preserves _ (oid _) => apply preserves_oid
    | |- preserves _ (validate _) => apply preserves_validate
    | |- preserves _ (audit _ _ _ _ _ _) => apply preserves_audit; reflexivity
    | |- preserves _ (db_find_one _ _) => apply preserves_gets
    | |- preserves _ (db_update_one _ _ _) => apply preserves_update; reflexivity
    | |- preserves _ (create_document _ _) => apply preserves_create; reflexivity
    | |- preserves _ (close_session _ _) => unfold close_session
    | |- preserves _ (serve_order _) => unfold serve_order
    end.

(** ** Sessions *)

Lemma start_session_free req now w k d :
  ObjectId_of_string (StartSessionRequest.station_id req) = Some k ->
  find_one (by_id k) (station (db w)) = Some d ->
  Station.status (snd d) <> in_use ->
  started req now w k (snd d).
Proof.
  intros Hk Hf Hs. destruct d as [k' st]. simpl in *.
  assert (k' = k) by (eapply find_one_by_id; eauto). subst k'.
  assert (Hb : StationStatus_eqb (Station.status st) in_use = false).
  { destruct (StationStatus_eqb (Station.status st) in_use) eqn:E; [|reflexivity].
    apply StationStatus_eqb_eq in E. contradiction. }
  unfold started, start_session, bind, oid, db_find_one, gets, ret.
  rewrite Hk. simpl. rewrite Hf, Hb. simpl.
  match goal with
  | |- context [audit ?a ?t ?r ?p ?u ?c ?w0] =>
      destruct (audit_spec a t r p u c w0) as (log & fl & E); rewrite E
  end.
  simpl. eexists. eexists. split; [reflexivity|]. simpl.
  repeat split.
  rewrite find_one_update_one, Hf. reflexivity.
Qed.

Lemma oid_invalid s w :
  ObjectId_of_string s = None -> oid s w = (Raise (HTTPException 400 "Invalid ID"), w).
Proof. intros H. unfold oid. now rewrite H. Qed.

Lemma oid_valid s k w : ObjectId_of_string s = Some k -> oid s w = (Ok k, w).
Proof. intros H. unfold oid. now rewrite H. Qed.

(** C3 (amended).  [start_session] fails with 400 "Invalid ID" when
    [ObjectId] refuses the station id, which is then not a string of 24
    characters that [bytes.fromhex] reads (pairs of hexadecimal digits,
    ASCII whitespace skipped between the pairs); with NotFound (404) when
    [ObjectId] takes it and no station has it; and with Conflict (409) when
    the station's status is in-use; none of these changes the store.  On an
    available station it succeeds: it appends a session with status active
    and the start timestamp, and the station becomes in-use with
    [current_session_id] the id of that session, which is the id returned. *)
Theorem start_session_outcomes (req : StartSessionRequest.t) (now : string) (w : World) :
  let sid := StartSessionRequest.station_id req in
  (ObjectId_of_string sid = None ->
   start_session req now w = (Raise (HTTPException 400 "Invalid ID"), w))
  /\ (forall k, ObjectId_of_string sid = Some k ->
        find_one (by_id k) (station (db w)) = None ->
        start_session req now w = (Raise (HTTPException 404 "Station not found"), w))
  /\ (forall k d, ObjectId_of_string sid = Some k ->
        find_one (by_id k) (station (db w)) = Some d ->
        Station.status (snd d) = in_use ->
        start_session req now w = (Raise (HTTPException 409 "Station already in use"), w))
  /\ (forall k d, ObjectId_of_string sid = Some k ->
        find_one (by_id k) (station (db w)) = Some d ->
        Station.status (snd d) = available ->
        started req now w k (snd d)).
Proof.
  cbv zeta. repeat split.
  - intros H. unfold start_session, bind. now rewrite (oid_invalid _ _ H).
  - intros k Hk Hf. unfold start_session, bind, db_find_one, gets.
    rewrite (oid_valid _ _ _ Hk). simpl. now rewrite Hf.
  - intros k [k' st] Hk Hf Hs. unfold start_session, bind, db_find_one, gets.
    rewrite (oid_valid _ _ _ Hk). simpl in *. rewrite Hf, Hs. reflexivity.
  - intros k d Hk Hf Hs. apply start_session_free; trivial.
    rewrite Hs. discriminate.
Qed.

Lemma start_session_outcomes_witness :
  start_session (StartSessionRequest.mk "cafe1" "station-7" None) "t" ex_world
  = (Raise (HTTPException 400 "Invalid ID"), ex_world)
  /\ start_session (StartSessionRequest.mk "cafe1" (str_oid 9%N) None) "t" ex_world
     = (Raise (HTTPException 404 "Station not found"), ex_world)
  /\ start_session (StartSessionRequest.mk "cafe1" ex_spaced_id None) "t" ex_world
     = (Raise (HTTPException 404 "Station not found"), ex_world)
  /\ start_session (StartSessionRequest.mk "cafe1" (str_oid 2%N) None) "t" ex_world
     = (Raise (HTTPException 409 "Station already in use"), ex_world)
  /\ started (StartSessionRequest.mk "cafe1" (str_oid 1%N) None) "t" ex_world 1%N
       (ex_station available None).
Proof.
  split; [|split; [|split; [|split]]].
  - apply (start_session_outcomes (StartSessionRequest.mk "cafe1" "station-7" None)).
    reflexivity.
  - apply (proj1 (proj2 (start_session_outcomes _ "t" ex_world)) 9%N); reflexivity.
  - eapply (proj1 (proj2 (start_session_outcomes
                            (StartSessionRequest.mk "cafe1" ex_spaced_id None) "t" ex_world)));
      reflexivity.
  - apply (proj1 (proj2 (proj2 (start_session_outcomes _ "t" ex_world))) 2%N
             (2%N, ex_station in_use (Some (str_oid 1%N)))); reflexivity.
  - apply (proj2 (proj2 (proj2 (start_session_outcomes _ "t" ex_world))) 1%N
             (1%N, ex_station available None)); reflexivity.
Defined.

(** C3, as stated, fails: the id ["station-7"] matches no station, and
    [start_session] answers 400, not 404: [ObjectId] refuses the id. *)
Lemma start_session_malformed_id :
  let req := StartSessionRequest.mk "cafe1" "station-7" None in
  (forall d, In d (station (db ex_world)) ->
     str_oid (fst d) <> StartSessionRequest.station_id req)
  /\ fst (start_session req "t" ex_world) = Raise (HTTPException 400 "Invalid ID")
  /\ fst (start_session req "t" ex_world) <> Raise (HTTPException 404 "Station not found").
Proof.
  cbv zeta. split; [|split].
  - intros d H. simpl in H.
    destruct H as [<-|[<-|[<-|[<-|[]]]]]; vm_compute; discriminate.
  - reflexivity.
  - vm_compute. discriminate.
Qed.

(** C10.  Only the status in-use blocks [start_session]: on an existing
    station whose status is offline or maintenance it succeeds, appends an
    active session and puts the station in use by that session. *)
Theorem start_session_offline_or_maintenance
  (req : StartSessionRequest.t) (now : string) (w : World) (k : ObjectId)
  (d : ObjectId * Station.t) :
  ObjectId_of_string (StartSessionRequest.station_id req) = Some k ->
  find_one (by_id k) (station (db w)) = Some d ->
  Station.status (snd d) = offline \/ Station.status (snd d) = maintenance ->
  started req now w k (snd d).
Proof.
  intros Hk Hf Hs. apply start_session_free; trivial.
  destruct Hs as [-> | ->]; discriminate.
Qed.

Lemma start_session_offline_or_maintenance_witness :
  started (StartSessionRequest.mk "cafe1" (str_oid 3%N) None) "t" ex_world 3%N
    (ex_station offline None)
  /\ started (StartSessionRequest.mk "cafe1" (str_oid 4%N) None) "t" ex_world 4%N
       (ex_station maintenance None).
Proof.
  split.
  - apply (start_session_offline_or_maintenance _ "t" ex_world 3%N
             (3%N, ex_station offline None)); [reflexivity|reflexivity|now left].
  - apply (start_session_offline_or_maintenance _ "t" ex_world 4%N
             (4%N, ex_station maintenance None)); [reflexivity|reflexivity|now right].
Defined.

Lemma end_session_ended req now w k d :
  ObjectId_of_string (EndSessionRequest.session_id req) = Some k ->
  find_one (by_id k) (session (db w)) = Some d ->
  Session.status (snd d) = ended ->
  end_session req now w = (Ok true, w).
Proof.
  intros Hk Hf Hs. destruct d as [k' s]. simpl in Hs.
  unfold end_session, bind, db_find_one, gets.
  rewrite (oid_valid _ _ _ Hk). simpl. now rewrite Hf, Hs.
Qed.

(** Whatever its outcome, [end_session] on a stored session leaves it ended. *)
Lemma end_session_leaves_ended req now w k d :
  ObjectId_of_string (EndSessionRequest.session_id req) = Some k ->
  find_one (by_id k) (session (db w)) = Some d ->
  exists d', find_one (by_id k) (session (db (snd (end_session req now w)))) = Some d'
             /\ Session.status (snd d') = ended.
Proof.
  intros Hk Hf. destruct d as [k' s].
  destruct (SessionStatus_eqb (Session.status s) ended) eqn:Hs.
  - apply SessionStatus_eqb_eq in Hs.
    rewrite (end_session_ended req now w k (k', s)); trivial.
    exists (k', s). now split.
  - exists (k', set_session_ended now s). split; [|reflexivity].
    unfold end_session, bind, db_find_one, gets.
    rewrite (oid_valid _ _ _ Hk). simpl. rewrite Hf, Hs.
    rewrite (oid_valid _ _ _ Hk). simpl.
    unfold oid. destruct (ObjectId_of_string (Session.station_id s)) as [ks|]; simpl.
    + match goal with
      | |- context [audit ?a ?t ?r ?p ?u ?c ?w0] =>
          destruct (audit_spec a t r p u c w0) as (log & fl & E); rewrite E
      end.
      simpl. now rewrite find_one_update_one, Hf.
    + now rewrite find_one_update_one, Hf.
Qed.

(** C4 (amended).  [end_session] on a session that is already ended answers
    success and changes nothing in the store, the station the session
    refers to included; hence a second [end_session] after a first one
    changes nothing more, and answers success when the first one did.  On
    an id that [ObjectId] takes and that no session has it fails with
    NotFound (404); on an id that [ObjectId] refuses, one that is not a
    string of 24 characters that [bytes.fromhex] reads (pairs of
    hexadecimal digits, ASCII whitespace skipped between the pairs), it
    fails with 400 "Invalid ID". *)
Theorem end_session_idempotent (req : EndSessionRequest.t) (now now' : string) (w : World) :
  let sid := EndSessionRequest.session_id req in
  (forall k d, ObjectId_of_string sid = Some k ->
     find_one (by_id k) (session (db w)) = Some d ->
     Session.status (snd d) = ended ->
     end_session req now w = (Ok true, w))
  /\ (let w1 := snd (end_session req now w) in
      snd (end_session req now' w1) = w1
      /\ (forall r, fst (end_session req now w) = Ok r ->
            fst (end_session req now' w1) = Ok true))
  /\ (forall k, ObjectId_of_string sid = Some k ->
        find_one (by_id k) (session (db w)) = None ->
        end_session req now w = (Raise (HTTPException 404 "Session not found"), w))
  /\ (ObjectId_of_string sid = None ->
      end_session req now w = (Raise (HTTPException 400 "Invalid ID"), w)).
Proof.
  cbv zeta.
  assert (H404 : forall w0 n k, ObjectId_of_string (EndSessionRequest.session_id req) = Some k ->
            find_one (by_id k) (session (db w0)) = None ->
            end_session req n w0 = (Raise (HTTPException 404 "Session not found"), w0)).
  { intros w0 n k Hk Hf. unfold end_session, bind, db_find_one, gets.
    rewrite (oid_valid _ _ _ Hk). simpl. now rewrite Hf. }
  assert (H400 : forall w0 n, ObjectId_of_string (EndSessionRequest.session_id req) = None ->
            end_session req n w0 = (Raise (HTTPException 400 "Invalid ID"), w0)).
  { intros w0 n Hk. unfold end_session, bind. now rewrite (oid_invalid _ _ Hk). }
  split; [|split; [|split]].
  - intros k d. apply end_session_ended.
  - destruct (ObjectId_of_string (EndSessionRequest.session_id req)) as [k|] eqn:Hk.
    + destruct (find_one (by_id k) (session (db w))) as [d|] eqn:Hf.
      * destruct (end_session_leaves_ended req now w k d Hk Hf) as (d' & Hf' & Hs').
        rewrite (end_session_ended req now' _ k d' Hk Hf' Hs'). now split.
      * rewrite (H404 w now k eq_refl Hf). simpl. rewrite (H404 w now' k eq_refl Hf).
        split; [reflexivity|discriminate].
    + rewrite (H400 w now eq_refl). simpl. rewrite (H400 w now' eq_refl).
      split; [reflexivity|discriminate].
  - intros k. apply H404.
  - apply H400.
Qed.

Lemma end_session_idempotent_witness :
  end_session (EndSessionRequest.mk (str_oid 2%N)) "t" ex_world = (Ok true, ex_world)
  /\ fst (end_session (EndSessionRequest.mk (str_oid 1%N)) "t1" ex_world) = Ok true
  /\ fst (end_session (EndSessionRequest.mk (str_oid 1%N)) "t2"
            (snd (end_session (EndSessionRequest.mk (str_oid 1%N)) "t1" ex_world)))
     = Ok true
  /\ end_session (EndSessionRequest.mk (str_oid 9%N)) "t" ex_world
     = (Raise (HTTPException 404 "Session not found"), ex_world)
  /\ end_session (EndSessionRequest.mk ex_spaced_id) "t" ex_world
     = (Raise (HTTPException 404 "Session not found"), ex_world)
  /\ end_session (EndSessionRequest.mk "session-7") "t" ex_world
     = (Raise (HTTPException 400 "Invalid ID"), ex_world).
Proof.
  split; [|split; [|split; [|split; [|split]]]].
  - apply (proj1 (end_session_idempotent (EndSessionRequest.mk (str_oid 2%N)) "t" "t" ex_world)
             2%N (2%N, ex_session (str_oid 1%N) ended)); reflexivity.
  - reflexivity.
  - apply (proj2 (proj1 (proj2
             (end_session_idempotent (EndSessionRequest.mk (str_oid 1%N)) "t1" "t2" ex_world)))
             true).
    reflexivity.
  - apply (proj1 (proj2 (proj2
             (end_session_idempotent (EndSessionRequest.mk (str_oid 9%N)) "t" "t" ex_world)))
             9%N); reflexivity.
  - eapply (proj1 (proj2 (proj2
              (end_session_idempotent (EndSessionRequest.mk ex_spaced_id) "t" "t" ex_world))));
      reflexivity.
  - apply (proj2 (proj2 (proj2
             (end_session_idempotent (EndSessionRequest.mk "session-7") "t" "t" ex_world))));
      reflexivity.
Defined.

(** C4, as stated, fails in its last clause: no session has the id
    ["session-7"], and [end_session] answers 400, not 404: [ObjectId]
    refuses the id. *)
Lemma end_session_malformed_id :
  let req := EndSessionRequest.mk "session-7" in
  (forall d, In d (session (db ex_world)) ->
     str_oid (fst d) <> EndSessionRequest.session_id req)
  /\ fst (end_session req "t" ex_world) = Raise (HTTPException 400 "Invalid ID")
  /\ fst (end_session req "t" ex_world) <> Raise (HTTPException 404 "Session not found").
Proof.
  cbv zeta. split; [|split].
  - intros d H. simpl in H. destruct H as [<-|[<-|[]]]; vm_compute; discriminate.
  - reflexivity.
  - vm_compute. discriminate.
Qed.

(** ** Checkout *)

Lemma bind_ok {A B} (m : M A) (k : A -> M B) w a w' :
  m w = (Ok a, w') -> bind m k w = k a w'.
Proof. intros E. unfold bind. now rewrite E. Qed.

Lemma bind_raise {A B} (m : M A) (k : A -> M B) w e w' :
  m w = (Raise e, w') -> bind m k w = (Raise e, w').
Proof. intros E. unfold bind. now rewrite E. Qed.

Lemma truthy_parsed s k : ObjectId_of_string s = Some k -> truthy s = true.
Proof. destruct s; [discriminate|reflexivity]. Qed.

Lemma paid_with_spec key d :
  paid_with key d = true
  <-> Payment.idempotency_key (snd d) = Some key /\ Payment.status (snd d) = success.
Proof.
  unfold paid_with. rewrite andb_true_iff, opt_str_eqb_eq, PaymentStatus_eqb_eq.
  reflexivity.
Qed.

Lemma checkout_replayed req now w d :
  find_one (paid_with (CheckoutRequest.idempotency_key req)) (payment (db w)) = Some d ->
  checkout req now w = (Ok (str_oid (fst d), success), w).
Proof.
  intros H. unfold checkout, bind, db_find_one, gets. simpl. rewrite H.
  now destruct d.
Qed.

(** A request that is no replay: the payment is appended, then come the
    session, the order and the audit entry. *)
Lemma checkout_fresh req now w :
  find_one (paid_with (CheckoutRequest.idempotency_key req)) (payment (db w)) = None ->
  ge0 (CheckoutRequest.amount req) = true ->
  let pid := new_oid (payment (db w)) in
  checkout req now w
  = bind (close_session (CheckoutRequest.session_id req) now)
      (fun _ =>
         bind (serve_order (CheckoutRequest.order_id req))
           (fun _ =>
              bind (audit "create" "payment" (Some (str_oid pid)) (PPayment (payment_of req))
                      None (Some (CheckoutRequest.cafe_id req)))
                (fun _ => ret (str_oid pid, success))))
      (mkWorld (with_payment (payment (db w) ++ [(pid, payment_of req)]) (db w))
         (audit_faults w)).
Proof.
  intros Hf Hv. unfold checkout at 1, bind at 1, db_find_one, gets. simpl.
  rewrite Hf. unfold bind at 1. rewrite Hv. simpl.
  unfold bind at 1. reflexivity.
Qed.

Lemma checkout_fresh_result req now w r :
  find_one (paid_with (CheckoutRequest.idempotency_key req)) (payment (db w)) = None ->
  fst (checkout req now w) = Ok r ->
  r = (str_oid (new_oid (payment (db w))), success)
  /\ payment (db (snd (checkout req now w)))
     = payment (db w) ++ [(new_oid (payment (db w)), payment_of req)].
Proof.
  intros Hf Hr.
  destruct (ge0 (CheckoutRequest.amount req)) eqn:Hv.
  - rewrite (checkout_fresh req now w Hf Hv) in *. cbv zeta in *.
    match goal with
    | |- context [bind ?m ?k ?w0] => assert (P : preserves payment (bind m k)) by frame;
        specialize (P w0); rewrite P
    end.
    split; [|reflexivity].
    revert Hr. unfold bind.
    destruct (close_session _ _ _) as [[u|e] w1]; [|discriminate].
    destruct (serve_order _ _) as [[u'|e] w2]; [|discriminate].
    destruct (audit _ _ _ _ _ _ _) as [[u''|e] w3]; [|discriminate].
    simpl. congruence.
  - exfalso. revert Hr. unfold checkout, bind, db_find_one, gets. simpl.
    rewrite Hf. rewrite Hv. simpl. discriminate.
Qed.

(** C1.  A checkout whose idempotency key is that of a stored payment with
    status success answers with the id of such a payment and leaves the
    store untouched, so no payment is created.  After a checkout that
    succeeded, a second checkout with the same key, whatever its amount,
    method, order and session, answers the same payment id and changes
    nothing; if no successful payment had the key before, the first call
    added one payment and it is the only one of that key. *)
Theorem checkout_idempotent (req req' : CheckoutRequest.t) (now now' : string) (w : World) :
  let key := CheckoutRequest.idempotency_key req in
  ((exists d, In d (payment (db w))
              /\ Payment.idempotency_key (snd d) = Some key
              /\ Payment.status (snd d) = success) ->
   exists d, In d (payment (db w))
             /\ Payment.idempotency_key (snd d) = Some key
             /\ Payment.status (snd d) = success
             /\ checkout req now w = (Ok (str_oid (fst d), success), w))
  /\ (forall r,
        CheckoutRequest.idempotency_key req' = key ->
        fst (checkout req now w) = Ok r ->
        let w1 := snd (checkout req now w) in
        checkout req' now' w1 = (Ok r, w1)
        /\ (find_one (paid_with key) (payment (db w)) = None ->
            exists d, payment (db w1) = payment (db w) ++ [d]
                      /\ filter (paid_with key) (payment (db w1)) = [d]
                      /\ (str_oid (fst d), success) = r)).
Proof.
  cbv zeta. split.
  - intros (d & Hin & Hk & Hs).
    destruct (find_one (paid_with (CheckoutRequest.idempotency_key req)) (payment (db w)))
      as [d'|] eqn:Hf.
    + destruct (find_one_In _ _ _ Hf) as [Hin' Hq]. apply paid_with_spec in Hq.
      exists d'. repeat split; try tauto. now apply checkout_replayed.
    + exfalso. pose proof (find_none _ _ Hf d Hin) as Hq.
      assert (paid_with (CheckoutRequest.idempotency_key req) d = true)
        by (apply paid_with_spec; tauto).
      congruence.
  - intros r Hkey Hr.
    destruct (find_one (paid_with (CheckoutRequest.idempotency_key req)) (payment (db w)))
      as [d|] eqn:Hf.
    + rewrite (checkout_replayed req now w d Hf) in *. simpl in *.
      split; [|discriminate].
      injection Hr as <-. apply checkout_replayed. now rewrite Hkey.
    + destruct (checkout_fresh_result req now w r Hf Hr) as [-> Hp].
      set (d := (new_oid (payment (db w)), payment_of req)) in *.
      assert (Hq : paid_with (CheckoutRequest.idempotency_key req) d = true)
        by (apply paid_with_spec; now split).
      split.
      * rewrite (checkout_replayed req' now' _ d); [reflexivity|].
        rewrite Hkey, Hp. now apply find_one_app_new.
      * intros _. exists d. rewrite Hp. repeat split.
        rewrite filter_app, (filter_none _ _ Hf). simpl. now rewrite Hq.
Qed.

Lemma checkout_idempotent_witness :
  let replay := CheckoutRequest.mk "cafe1" None None f50 upi "key-1" in
  let first := CheckoutRequest.mk "cafe1" None None f50 upi "key-2" in
  let second := CheckoutRequest.mk "cafe2" (Some (str_oid 1%N)) (Some (str_oid 1%N)) f100 card
                  "key-2" in
  (exists d, In d (payment (db ex_world))
             /\ Payment.idempotency_key (snd d) = Some "key-1"
             /\ Payment.status (snd d) = success
             /\ checkout replay "t" ex_world = (Ok (str_oid (fst d), success), ex_world))
  /\ checkout second "t2" (snd (checkout first "t1" ex_world))
     = (Ok (str_oid 2%N, success), snd (checkout first "t1" ex_world)).
Proof.
  cbv zeta. split.
  - apply (proj1 (checkout_idempotent
                    (CheckoutRequest.mk "cafe1" None None f50 upi "key-1")
                    (CheckoutRequest.mk "cafe1" None None f50 upi "key-1") "t" "t" ex_world)).
    exists (1%N, ex_payment). simpl. auto.
  - apply (proj2 (checkout_idempotent
                    (CheckoutRequest.mk "cafe1" None None f50 upi "key-2")
                    (CheckoutRequest.mk "cafe2" (Some (str_oid 1%N)) (Some (str_oid 1%N)) f100
                       card "key-2")
                    "t1" "t2" ex_world) (str_oid 2%N, success)); reflexivity.
Defined.

Lemma close_session_closes s k d ks now w :
  ObjectId_of_string s = Some k ->
  find_one (by_id k) (session (db w)) = Some d ->
  Session.status (snd d) <> ended ->
  ObjectId_of_string (Session.station_id (snd d)) = Some ks ->
  exists log fl,
    close_session (Some s) now w
    = (Ok tt,
       mkWorld
         (with_auditlog log
            (with_station
               (update_one (by_id ks) (set_station_session available None) (station (db w)))
               (with_session
                  (update_one (by_id k) (set_session_ended now) (session (db w))) (db w))))
         fl).
Proof.
  intros Hk Hf Hs Hks. destruct d as [k' sess]. simpl in *.
  assert (Hb : SessionStatus_eqb (Session.status sess) ended = false).
  { destruct (SessionStatus_eqb (Session.status sess) ended) eqn:E; [|reflexivity].
    apply SessionStatus_eqb_eq in E. contradiction. }
  unfold close_session. rewrite (truthy_parsed _ _ Hk).
  unfold bind, db_find_one, gets, oid. rewrite Hk. simpl. rewrite Hf, Hb. simpl.
  rewrite Hks. simpl.
  match goal with
  | |- context [audit ?a ?t ?r ?p ?u ?c ?w0] =>
      destruct (audit_spec a t r p u c w0) as (log & fl & E); rewrite E
  end.
  exists log, fl. reflexivity.
Qed.

Lemma closable_session d x :
  closable (with_payment x d) = closable d.
Proof. reflexivity. Qed.

Lemma close_session_closable sid now w :
  closable (db w) sid = true -> fst (close_session sid now w) = Ok tt.
Proof.
  unfold closable, close_session. destruct sid as [s|]; [|reflexivity].
  destruct (truthy s); [|reflexivity].
  unfold bind, db_find_one, gets, oid.
  destruct (ObjectId_of_string s) as [k|]; [|discriminate]. simpl.
  destruct (find_one (by_id k) (session (db w))) as [[k' sess]|]; [|reflexivity].
  destruct (SessionStatus_eqb (Session.status sess) ended); [reflexivity|]. simpl.
  destruct (ObjectId_of_string (Session.station_id sess)); [|discriminate]. simpl.
  intros _.
  match goal with
  | |- context [audit ?a ?t ?r ?p ?u ?c ?w0] =>
      destruct (audit_spec a t r p u c w0) as (log & fl & E); rewrite E
  end.
  reflexivity.
Qed.

Lemma serve_order_serves o ko w :
  ObjectId_of_string o = Some ko ->
  exists log fl,
    serve_order (Some o) w
    = (Ok tt,
       mkWorld
         (with_auditlog log
            (with_order
               (update_one (by_id ko) (set_order_status served None) (order (db w))) (db w)))
         fl).
Proof.
  intros Hk. unfold serve_order. rewrite (truthy_parsed _ _ Hk).
  unfold bind, oid. rewrite Hk. simpl.
  match goal with
  | |- context [audit ?a ?t ?r ?p ?u ?c ?w0] =>
      destruct (audit_spec a t r p u c w0) as (log & fl & E); rewrite E
  end.
  exists log, fl. reflexivity.
Qed.

Lemma find_one_updated {T} (k : ObjectId) (f : T -> T) (c : Coll T) d :
  find_one (by_id k) c = Some d ->
  find_one (by_id k) (update_one (by_id k) f c) = Some (k, f (snd d)).
Proof.
  intros H. rewrite find_one_update_one, H. simpl.
  destruct d as [k' x]. now rewrite (find_one_by_id _ _ _ _ H).
Qed.

(** C6 (amended).  For a checkout that is no replay (with an amount >= 0,
    as the request schema demands): when [session_id] is a string that
    [ObjectId] takes, the id of a stored session that is not ended and
    whose station id [ObjectId] takes as well, that session gets the status
    ended and the end timestamp, its other fields kept, and its station the
    status available and no [current_session_id], its other fields kept;
    when [order_id] is a string that [ObjectId] takes and the session part
    runs through ([closable]), the checkout succeeds and that order gets
    the status served whatever its status was, its other fields kept; when
    [session_id] is non-empty and [ObjectId] refuses it (it is not a string
    of 24 characters that [bytes.fromhex] reads), the checkout fails with
    400 "Invalid ID" having recorded the payment and nothing else. *)
Theorem checkout_side_effects (req : CheckoutRequest.t) (now : string) (w : World) :
  find_one (paid_with (CheckoutRequest.idempotency_key req)) (payment (db w)) = None ->
  ge0 (CheckoutRequest.amount req) = true ->
  let w1 := snd (checkout req now w) in
  (forall s k d ks,
     CheckoutRequest.session_id req = Some s ->
     ObjectId_of_string s = Some k ->
     find_one (by_id k) (session (db w)) = Some d ->
     Session.status (snd d) <> ended ->
     ObjectId_of_string (Session.station_id (snd d)) = Some ks ->
     find_one (by_id k) (session (db w1))
     = Some (k, Session.mk (Session.cafe_id (snd d)) (Session.station_id (snd d))
                  (Session.user_id (snd d)) (Session.customer_name (snd d)) ended
                  (Session.started_at (snd d)) (Some now)
                  (Session.duration_minutes (snd d)) (Session.total_amount (snd d)))
     /\ session (db w1)
        = update_one (by_id k)
            (fun x => Session.mk (Session.cafe_id x) (Session.station_id x)
                        (Session.user_id x) (Session.customer_name x) ended
                        (Session.started_at x) (Some now)
                        (Session.duration_minutes x) (Session.total_amount x))
            (session (db w))
     /\ (forall st, find_one (by_id ks) (station (db w)) = Some st ->
           find_one (by_id ks) (station (db w1))
           = Some (ks, Station.mk (Station.cafe_id (snd st)) (Station.name (snd st))
                         available None (Station.updated_at (snd st))))
     /\ station (db w1)
        = update_one (by_id ks)
            (fun x => Station.mk (Station.cafe_id x) (Station.name x) available None
                        (Station.updated_at x))
            (station (db w)))
  /\ (forall o ko,
        CheckoutRequest.order_id req = Some o ->
        ObjectId_of_string o = Some ko ->
        closable (db w) (CheckoutRequest.session_id req) = true ->
        fst (checkout req now w) = Ok (str_oid (new_oid (payment (db w))), success)
        /\ order (db w1)
           = update_one (by_id ko)
               (fun x => Order.mk (Order.cafe_id x) (Order.session_id x) (Order.station_id x)
                           served (Order.items x) (Order.subtotal x) (Order.tax x)
                           (Order.total x) (Order.notes x) (Order.updated_at x))
               (order (db w))
        /\ (forall d, find_one (by_id ko) (order (db w)) = Some d ->
              find_one (by_id ko) (order (db w1))
              = Some (ko, Order.mk (Order.cafe_id (snd d)) (Order.session_id (snd d))
                            (Order.station_id (snd d)) served (Order.items (snd d))
                            (Order.subtotal (snd d)) (Order.tax (snd d))
                            (Order.total (snd d)) (Order.notes (snd d))
                            (Order.updated_at (snd d)))))
  /\ (forall s,
        CheckoutRequest.session_id req = Some s ->
        truthy s = true ->
        ObjectId_of_string s = None ->
        checkout req now w
        = (Raise (HTTPException 400 "Invalid ID"),
           mkWorld (with_payment (payment (db w)
                                  ++ [(new_oid (payment (db w)), payment_of req)]) (db w))
             (audit_faults w))).
Proof.
  intros Hf Hv. cbv zeta. rewrite (checkout_fresh req now w Hf Hv). cbv zeta.
  set (wa := mkWorld _ (audit_faults w)).
  split; [|split].
  - intros s k d ks Hs Hk Hfs Hst Hks. rewrite Hs.
    destruct (close_session_closes s k d ks now wa Hk Hfs Hst Hks) as (log & fl & E).
    rewrite (bind_ok _ _ _ _ _ E).
    match goal with
    | |- context [bind ?m ?c ?w0] =>
        assert (P1 : preserves session (bind m c)) by frame;
        assert (P2 : preserves station (bind m c)) by frame;
        rewrite (P1 w0), (P2 w0)
    end.
    cbn [db session station with_auditlog with_station with_session].
    split; [exact (find_one_updated k (set_session_ended now) _ d Hfs)|].
    split; [reflexivity|]. split; [|reflexivity].
    intros st Hfst. exact (find_one_updated ks (set_station_session available None) _ st Hfst).
  - intros o ko Ho Hk Hc. rewrite Ho.
    pose proof (close_session_closable (CheckoutRequest.session_id req) now wa Hc) as E1.
    assert (P : preserves order (close_session (CheckoutRequest.session_id req) now))
      by frame.
    specialize (P wa).
    destruct (close_session (CheckoutRequest.session_id req) now wa) as [r1 w2] eqn:E.
    simpl in E1, P. subst r1. rewrite (bind_ok _ _ _ _ _ E).
    destruct (serve_order_serves o ko w2 Hk) as (log & fl & E2).
    rewrite (bind_ok _ _ _ _ _ E2).
    match goal with
    | |- context [bind (audit ?a ?t ?r ?p ?u ?c) _ ?w0] =>
        destruct (audit_spec a t r p u c w0) as (log' & fl' & E3);
        rewrite (bind_ok _ _ _ _ _ E3)
    end.
    simpl. rewrite P. simpl. split; [reflexivity|]. split; [reflexivity|].
    intros d Hd. exact (find_one_updated ko (set_order_status served None) _ d Hd).
  - intros s Hs Ht Hk. rewrite Hs.
    apply bind_raise. unfold close_session. rewrite Ht.
    apply bind_raise. now apply oid_invalid.
Qed.

Lemma checkout_side_effects_witness :
  let req := CheckoutRequest.mk "cafe1" (Some (str_oid 1%N)) (Some (str_oid 1%N)) f100 cash
               "key-2" in
  let bad := CheckoutRequest.mk "cafe1" (Some "session-7") (Some (str_oid 1%N)) f100 cash
               "key-2" in
  let w1 := snd (checkout req "t" ex_world) in
  find_one (by_id 1%N) (session (db w1))
  = Some (1%N, Session.mk "cafe1" (str_oid 2%N) None (Some "Walk-in") ended
                 (Some "2024-01-01T10:00:00+00:00") (Some "t") None (Some f0))
  /\ find_one (by_id 2%N) (station (db w1))
     = Some (2%N, Station.mk "cafe1" "PS5" available None None)
  /\ fst (checkout req "t" ex_world) = Ok (str_oid 2%N, success)
  /\ find_one (by_id 1%N) (order (db w1))
     = Some (1%N, Order.mk "cafe1" None None served
                    [OrderItem.mk (str_oid 1%N) "Espresso" 1 f100 f100] f100 f0 f100
                    None None)
  /\ fst (checkout bad "t" ex_world) = Raise (HTTPException 400 "Invalid ID").
Proof.
  cbv zeta.
  pose proof (checkout_side_effects
                (CheckoutRequest.mk "cafe1" (Some (str_oid 1%N)) (Some (str_oid 1%N)) f100 cash
                   "key-2") "t" ex_world eq_refl eq_refl) as H.
  pose proof (checkout_side_effects
                (CheckoutRequest.mk "cafe1" (Some "session-7") (Some (str_oid 1%N)) f100 cash
                   "key-2") "t" ex_world eq_refl eq_refl) as H'.
  cbv zeta in H, H'. destruct H as (H1 & H2 & _). destruct H' as (_ & _ & H3).
  destruct (H1 (str_oid 1%N) 1%N (1%N, ex_session (str_oid 2%N) active) 2%N
              eq_refl eq_refl eq_refl) as (Hs & _ & Hst & _);
    [discriminate|reflexivity|].
  destruct (H2 (str_oid 1%N) 1%N eq_refl eq_refl eq_refl) as (Hr & _ & Ho).
  split; [exact Hs|].
  split; [exact (Hst (2%N, ex_station in_use (Some (str_oid 1%N))) eq_refl)|].
  split; [exact Hr|].
  split; [exact (Ho (1%N, ex_order) eq_refl)|].
  rewrite (H3 "session-7" eq_refl eq_refl eq_refl). reflexivity.
Defined.

(** C6, as stated, fails: this checkout is no replay and names the pending
    order 1, yet its session id, which [ObjectId] refuses, stops it with
    400 once the payment is recorded, and the order stays pending. *)
Lemma checkout_malformed_session_id :
  let req := CheckoutRequest.mk "cafe1" (Some "session-7") (Some (str_oid 1%N)) f100 cash
               "key-2" in
  let w1 := snd (checkout req "t" ex_world) in
  find_one (paid_with "key-2") (payment (db ex_world)) = None
  /\ fst (checkout req "t" ex_world) = Raise (HTTPException 400 "Invalid ID")
  /\ find_one (by_id 1%N) (order (db w1)) = Some (1%N, ex_order)
  /\ Order.status ex_order = pending
  /\ Order.status ex_order <> served
  /\ payment (db w1) = payment (db ex_world) ++ [(2%N, payment_of req)].
Proof.
  cbv zeta. repeat split. discriminate.
Qed.

(** ** Settings *)

(** C7.  [get_settings] answers with the stored record of the cafe when
    there is one, and changes nothing.  When there is none it appends a
    record with currency "INR", tax rate 0.05 and service charge rate 0.0
    and answers with these values; a second call for the same cafe then
    answers with the same values and creates nothing. *)
Theorem get_settings_defaults (keeps_id keeps_id' : bool) (cafe_id : string) (w : World) :
  let defaults := Settings.mk cafe_id "INR" (decimal 5 100) (S754_zero false) in
  (forall d, find_one (of_cafe cafe_id) (settings (db w)) = Some d ->
     get_settings keeps_id cafe_id w = (Ok (mkSettingsResponse (str_oid (fst d)) (snd d)), w))
  /\ (find_one (of_cafe cafe_id) (settings (db w)) = None ->
      let new := new_oid (settings (db w)) in
      let w1 := mkWorld (with_settings (settings (db w) ++ [(new, defaults)]) (db w))
                  (audit_faults w) in
      (exists id1, get_settings keeps_id cafe_id w = (Ok (mkSettingsResponse id1 defaults), w1))
      /\ get_settings keeps_id' cafe_id w1
         = (Ok (mkSettingsResponse (str_oid new) defaults), w1)).
Proof.
  cbv zeta. split.
  - intros [k s] Hf. unfold get_settings, bind, db_find_one, gets. simpl. now rewrite Hf.
  - intros Hf. split.
    + eexists. unfold get_settings, bind, db_find_one, gets. simpl. rewrite Hf.
      reflexivity.
    + unfold get_settings, bind, db_find_one, gets. simpl.
      rewrite (find_one_app_new _ _ _ Hf); [reflexivity|].
      unfold of_cafe. simpl. apply String.eqb_refl.
Qed.

Lemma get_settings_defaults_witness :
  get_settings true "cafe1" ex_world
  = (Ok (mkSettingsResponse (str_oid 1%N) (Settings.mk "cafe1" "INR" f0_05 f0)), ex_world)
  /\ fields_of (fst (get_settings false "cafe2" ex_world))
     = Some (Settings.mk "cafe2" "INR" f0_05 f0)
  /\ fields_of (fst (get_settings false "cafe2" (snd (get_settings false "cafe2" ex_world))))
     = Some (Settings.mk "cafe2" "INR" f0_05 f0)
  /\ snd (get_settings false "cafe2" (snd (get_settings false "cafe2" ex_world)))
     = snd (get_settings false "cafe2" ex_world).
Proof.
  pose proof (get_settings_defaults true true "cafe1" ex_world) as H1.
  pose proof (get_settings_defaults false false "cafe2" ex_world) as H2.
  cbv zeta in H1, H2. destruct H1 as [H1 _]. destruct H2 as [_ H2].
  specialize (H1 (1%N, Settings.mk "cafe1" "INR" f0_05 f0) eq_refl).
  destruct (H2 eq_refl) as [[id1 Ha] Hb].
  split; [exact H1|].
  rewrite Ha. cbn [fst snd]. rewrite Hb. repeat split.
Defined.

(** ** Audit failures *)

Lemma tracked_user : tracked c_user.
Proof. split; unfold data; simpl; intros; congruence. Qed.
Lemma tracked_station : tracked c_station.
Proof. split; unfold data; simpl; intros; congruence. Qed.
Lemma tracked_session : tracked c_session.
Proof. split; unfold data; simpl; intros; congruence. Qed.
Lemma tracked_menuitem : tracked c_menuitem.
Proof. split; unfold data; simpl; intros; congruence. Qed.
Lemma tracked_order : tracked c_order.
Proof. split; unfold data; simpl; intros; congruence. Qed.
Lemma tracked_payment : tracked c_payment.
Proof. split; unfold data; simpl; intros; congruence. Qed.
Lemma tracked_settings : tracked c_settings.
Proof. split; unfold data; simpl; intros; congruence. Qed.

Create HintDb tracked.
#[local] Hint Resolve tracked_user tracked_station tracked_session tracked_menuitem
  tracked_order tracked_payment tracked_settings : tracked.

Lemma blind_ret {A} (a : A) : audit_blind (ret a).
Proof. intros w1 w2 H. now split. Qed.

Lemma blind_raise {A} (e : Exn) : audit_blind (@raise A e).
Proof. intros w1 w2 H. now split. Qed.

Lemma blind_bind {A B} (m : M A) (k : A -> M B) :
  audit_blind m -> (forall a, audit_blind (k a)) -> audit_blind (bind m k).
Proof.
  intros Hm Hk w1 w2 H. unfold bind. destruct (Hm w1 w2 H) as [Hr Hs].
  destruct (m w1) as [[a|e] w1'], (m w2) as [[a'|e'] w2']; simpl in *; try discriminate.
  - injection Hr as <-. now apply Hk.
  - split; [congruence|assumption].
Qed.

Lemma blind_oid s : audit_blind (oid s).
Proof. unfold oid. destruct (ObjectId_of_string s); [apply blind_ret|apply blind_raise]. Qed.

Lemma blind_validate b : audit_blind (validate b).
Proof. destruct b; [apply blind_ret|apply blind_raise]. Qed.

Lemma blind_find {T} (c : Collection T) q : tracked c -> audit_blind (db_find_one c q).
Proof.
  intros [Hd _] w1 w2 H. unfold db_find_one, gets. simpl.
  rewrite (Hd _ _ H). now split.
Qed.

Lemma blind_update {T} (c : Collection T) q f : tracked c -> audit_blind (db_update_one c q f).
Proof.
  intros [Hd Hr] w1 w2 H. unfold db_update_one, modify, same_data. simpl.
  rewrite (Hd _ _ H). split; [reflexivity|]. now apply Hr.
Qed.

Lemma blind_create {T} (c : Collection T) x : tracked c -> audit_blind (create_document c x).
Proof.
  intros [Hd Hr] w1 w2 H. unfold create_document, same_data. simpl.
  rewrite (Hd _ _ H). split; [reflexivity|]. now apply Hr.
Qed.

(** The audit write itself: it answers [None] whatever happens to it. *)
Lemma blind_audit a t r p u c : audit_blind (audit a t r p u c).
Proof.
  intros w1 w2 H.
  destruct (audit_spec a t r p u c w1) as (l1 & f1 & E1).
  destruct (audit_spec a t r p u c w2) as (l2 & f2 & E2).
  rewrite E1, E2. split; [reflexivity|]. exact H.
Qed.

Lemma blind_mul_float_int x n : audit_blind (mul_float_int x n).
Proof.
  unfold mul_float_int. destruct (float_of_Z n); [apply blind_ret|apply blind_raise].
Qed.

Lemma blind_int v : audit_blind (int v).
Proof. intros w1 w2 H. now split. Qed.

Lemma blind_find_item v : audit_blind (find_item v).
Proof.
  destruct v; try apply blind_raise; [apply blind_ret|].
  unfold find_item. apply blind_bind; [apply blind_oid|intros k].
  apply blind_find. exact tracked_menuitem.
Qed.

Ltac blind :=
  repeat match goal with
    | |- audit_blind (match ?x with _ => _ end) => destruct x
    | |- audit_blind (bind (find_item _) _) => apply blind_bind; [apply blind_find_item|intros]
    | |- audit_blind (bind (int _) _) => apply blind_bind; [apply blind_int|intros]
    | |- audit_blind (bind _ _) => apply blind_bind; [|intros]
    | |- audit_blind (ret _) => apply blind_ret
    | |- audit_blind (raise _) => apply blind_raise
    | |- audit_blind (oid _) => apply blind_oid
    | |- audit_blind (validate _) => apply blind_validate
    | |- audit_blind (audit _ _ _ _ _ _) => apply blind_audit
    | |- audit_blind (mul_float_int _ _) => apply blind_mul_float_int
    | |- audit_blind (db_find_one _ _) => apply blind_find; auto with tracked
    | |- audit_blind (db_update_one _ _ _) => apply blind_update; auto with tracked
    | |- audit_blind (create_document _ _) => apply blind_create; auto with tracked
    | |- audit_blind (close_session _ _) => unfold close_session
    | |- audit_blind (serve_order _) => unfold serve_order
    end.

Lemma blind_price_lines lines : forall items subtotal,
  audit_blind (price_lines lines items subtotal).
Proof.
  induction lines as [|it rest IH]; intros items subtotal; simpl; blind.
  apply IH.
Qed.

Lemma blind_unaffected {A} (h : M A) : audit_blind h -> unaffected_by_audit_faults h.
Proof. intros H d f1 f2. apply (H (mkWorld d f1) (mkWorld d f2)). reflexivity. Qed.

(** C9.  The audit write never raises to its caller, and it touches
    nothing but the audit log.  Every handler that records an audit entry
    gives the same answer and leaves the same store, the audit log apart,
    whichever of its audit writes fail. *)
Theorem audit_failures_discarded :
  (forall a t r p u c w,
     fst (audit a t r p u c w) = Ok tt
     /\ data (db (snd (audit a t r p u c w))) = data (db w))
  /\ (forall req, unaffected_by_audit_faults (register req))
  /\ (forall st, unaffected_by_audit_faults (create_station st))
  /\ (forall req now, unaffected_by_audit_faults (update_station_status req now))
  /\ (forall req now, unaffected_by_audit_faults (start_session req now))
  /\ (forall req now, unaffected_by_audit_faults (end_session req now))
  /\ (forall req, unaffected_by_audit_faults (create_menu_item req))
  /\ (forall req, unaffected_by_audit_faults (create_order req))
  /\ (forall req now, unaffected_by_audit_faults (update_order_status req now))
  /\ (forall req now, unaffected_by_audit_faults (checkout req now))
  /\ (forall s, unaffected_by_audit_faults (update_settings s)).
Proof.
  split.
  { intros a t r p u c w. destruct (audit_spec a t r p u c w) as (l & f & E).
    rewrite E. now split. }
  repeat match goal with |- _ /\ _ => split end; intros; apply blind_unaffected.
  - unfold register. blind.
  - unfold create_station. blind.
  - unfold update_station_status. blind.
  - unfold start_session. blind.
  - unfold end_session. blind.
  - unfold create_menu_item. blind.
  - unfold create_order.
    destruct (CreateOrderRequest.items req) as [|it rest]; [apply blind_raise|].
    apply blind_bind; [apply blind_price_lines|intros [items subtotal]].
    blind.
  - unfold update_order_status. blind.
  - unfold checkout. blind.
  - unfold update_settings. blind.
Qed.

(** ** Orders *)

(** [int] raises nothing that is handled. *)
Lemma int_of_unhandled v e : int_of v = Raise e -> exists exc, e = Unhandled exc.
Proof.
  destruct v as [|b|n|[s|s| |s m e']|s| |]; cbn; try discriminate;
    try (intros H; injection H as <-; eauto).
  destruct (int_of_string s); [discriminate|]. intros H. injection H as <-. eauto.
Qed.

(** One turn of the loop of [create_order]. *)
Lemma price_lines_head it rest items subtotal w :
  price_lines (it :: rest) items subtotal w
  = match line_error (db w) it with
    | Some e => (Raise e, w)
    | None =>
        match line_item (db w) it with
        | Some oi =>
            if item_amounts_ok oi
            then price_lines rest (items ++ [oi]) (fadd subtotal (OrderItem.total_price oi)) w
            else (Raise (Unhandled "ValidationError"), w)
        | None => (Raise (Unhandled "OverflowError"), w)
        end
    end.
Proof.
  unfold line_error, line_item, menu_item_of, quantity, item_amounts_ok.
  cbn [price_lines].
  destruct (Line.item_id it) as [[|b|n|x|s| |]|]; try reflexivity.
  unfold find_item. unfold bind at 1 2. unfold oid.
  destruct (ObjectId_of_string s) as [k|]; [|reflexivity].
  cbn [ret]. unfold db_find_one, gets. cbn [documents c_menuitem str_item_id].
  destruct (find_one (by_id k) (menuitem (db w))) as [[k' mi]|]; [|reflexivity].
  destruct (MenuItem.is_active mi); [|reflexivity]. cbn [negb].
  unfold bind at 1, int.
  destruct (int_of match Line.qty it with Some v => v | None => VInt 1 end) as [q|e];
    [|reflexivity].
  destruct (q <=? 0) eqn:Hq; [reflexivity|].
  assert (H : (0 <? q) = true) by (apply Z.ltb_lt; now apply Z.leb_gt).
  rewrite H. unfold bind at 1, mul_float_int.
  destruct (float_of_Z q) as [y|]; [|reflexivity].
  cbn [ret OrderItem.unit_price OrderItem.total_price andb]. unfold bind at 1.
  destruct (ge0 (MenuItem.price mi) && ge0 (fmul (MenuItem.price mi) y)); reflexivity.
Qed.

(** A line is valid when nothing stops the loop before its price is
    multiplied. *)
Lemma line_valid_error d it : line_valid d it = true <-> line_error d it = None.
Proof.
  unfold line_valid, line_error, menu_item_of.
  destruct (Line.item_id it) as [[|b|n|x|s| |]|]; try (split; discriminate).
  destruct (ObjectId_of_string s) as [k|]; [|split; discriminate].
  destruct (find_one (by_id k) (menuitem d)) as [[k' mi]|]; [|split; discriminate].
  destruct (quantity it) as [q|e], (MenuItem.is_active mi); cbn [andb];
    try (split; discriminate).
  destruct (q <=? 0) eqn:Hq.
  - apply Z.leb_le in Hq. split; [|discriminate]. intros H. apply Z.ltb_lt in H. lia.
  - apply Z.leb_gt in Hq. split; [reflexivity|]. intros _. now apply Z.ltb_lt.
Qed.

Lemma line_error_http d it code detail :
  line_error d it = Some (HTTPException code detail) -> code = 400.
Proof.
  unfold line_error.
  destruct (Line.item_id it) as [[|b|n|x|s| |]|]; try discriminate;
    try (intros H; now injection H as <- _).
  destruct (ObjectId_of_string s) as [k|]; [|intros H; now injection H as <- _].
  destruct (find_one (by_id k) (menuitem d)) as [[k' mi]|];
    [|intros H; now injection H as <- _].
  destruct (MenuItem.is_active mi); [|intros H; now injection H as <- _].
  destruct (quantity it) as [q|e] eqn:Hq.
  - destruct (q <=? 0); [|discriminate]. intros H. now injection H as <- _.
  - intros H. injection H as ->. destruct (int_of_unhandled _ _ Hq). discriminate.
Qed.

Lemma goes_through_snapshot d it : goes_through d it <-> exists oi, snapshot d it oi.
Proof.
  unfold goes_through, snapshot. split.
  - intros (Hv & oi & Hi & Ha). now exists oi.
  - intros (oi & Hv & Hi & Ha). split; [assumption|now exists oi].
Qed.

(** All lines go through: the loop returns their snapshots, in order, and
    the running sum of their totals. *)
Lemma price_lines_accepts lines : forall new items subtotal w,
  Forall2 (snapshot (db w)) lines new ->
  price_lines lines items subtotal w
  = (Ok (items ++ new, fold_left fadd (map OrderItem.total_price new) subtotal), w).
Proof.
  induction lines as [|it rest IH]; intros new items subtotal w H; inversion H; subst.
  - simpl. now rewrite app_nil_r.
  - match goal with Hs : snapshot _ _ _ |- _ => destruct Hs as (Hv & Hi & Ha) end.
    apply line_valid_error in Hv.
    rewrite price_lines_head, Hv, Hi, Ha. rewrite (IH l'); [|assumption].
    simpl. now rewrite <- app_assoc.
Qed.

(** The loop writes nothing, and what it returns are snapshots. *)
Lemma price_lines_inv lines : forall items subtotal w r w',
  price_lines lines items subtotal w = (r, w') ->
  w' = w
  /\ forall items' subtotal', r = Ok (items', subtotal') ->
       exists new, Forall2 (snapshot (db w)) lines new
                   /\ items' = items ++ new
                   /\ subtotal' = fold_left fadd (map OrderItem.total_price new) subtotal.
Proof.
  induction lines as [|it rest IH]; intros items subtotal w r w' H.
  - simpl in H. injection H as <- <-. split; [reflexivity|].
    intros items' subtotal' E. injection E as <- <-.
    exists []. split; [constructor|]. now rewrite app_nil_r.
  - rewrite price_lines_head in H.
    destruct (line_error (db w) it) as [e|] eqn:Hv;
      [injection H as <- <-; split; [reflexivity|discriminate]|].
    apply line_valid_error in Hv.
    destruct (line_item (db w) it) as [oi|] eqn:Hi;
      [|injection H as <- <-; split; [reflexivity|discriminate]].
    destruct (item_amounts_ok oi) eqn:Ha;
      [|injection H as <- <-; split; [reflexivity|discriminate]].
    destruct (IH _ _ _ _ _ H) as [-> Hr]. split; [reflexivity|].
    intros items' subtotal' E. destruct (Hr _ _ E) as (new & HF & -> & ->).
    exists (oi :: new). split; [constructor; [now repeat split|assumption]|].
    simpl. now rewrite <- app_assoc.
Qed.

(** The first line that is not valid, every line before it going through,
    decides the answer: the error of that line. *)
Lemma price_lines_rejects pre : forall it post items subtotal w e,
  Forall (goes_through (db w)) pre ->
  line_error (db w) it = Some e ->
  price_lines (pre ++ it :: post) items subtotal w = (Raise e, w).
Proof.
  induction pre as [|x pre IH]; intros it post items subtotal w e Hp Hv; simpl app.
  - now rewrite price_lines_head, Hv.
  - inversion Hp as [|? ? Hx Hp']; subst.
    destruct Hx as (Hxv & oi & Hi & Ha). apply line_valid_error in Hxv.
    rewrite price_lines_head, Hxv, Hi, Ha. now apply IH.
Qed.

(** The loop answers with an [HTTPException] only for a line that is
    answered so, and then with 400. *)
Lemma price_lines_http lines : forall items subtotal w code detail,
  fst (price_lines lines items subtotal w) = Raise (HTTPException code detail) ->
  exists it, In it lines /\ code = 400 /\ rejected (db w) it detail.
Proof.
  induction lines as [|it rest IH]; intros items subtotal w code detail H.
  - discriminate.
  - rewrite price_lines_head in H.
    destruct (line_error (db w) it) as [e|] eqn:Hv.
    + simpl in H. injection H as ->. exists it. split; [now left|].
      pose proof (line_error_http _ _ _ _ Hv) as ->. now split.
    + destruct (line_item (db w) it) as [oi|]; [|discriminate].
      destruct (item_amounts_ok oi); [|discriminate].
      destruct (IH _ _ _ _ _ H) as (x & Hin & Hx). exists x. split; [now right|exact Hx].
Qed.

Lemma bind_find_one {T B} (c : Collection T) q (k : option (ObjectId * T) -> M B) w :
  bind (db_find_one c q) k w = k (find_one q (documents c (db w))) w.
Proof. reflexivity. Qed.

Lemma bind_validate {B} b (k : unit -> M B) w :
  bind (validate b) k w = if b then k tt w else (Raise (Unhandled "ValidationError"), w).
Proof. now destruct b. Qed.

Lemma bind_create {T B} (c : Collection T) x (k : string -> M B) w :
  bind (create_document c x) k w
  = k (str_oid (new_oid (documents c (db w))))
      (mkWorld (replace c (documents c (db w) ++ [(new_oid (documents c (db w)), x)]) (db w))
         (audit_faults w)).
Proof. reflexivity. Qed.

(** What [create_order] does once the loop has returned. *)
Lemma create_order_priced req w new :
  CreateOrderRequest.items req <> [] ->
  Forall2 (snapshot (db w)) (CreateOrderRequest.items req) new ->
  let o := priced_order (db w) req new in
  let k := new_oid (order (db w)) in
  if order_amounts_ok o
  then exists log fl,
         create_order req w
         = (Ok (str_oid k, Order.total o),
            mkWorld (with_auditlog log (with_order (order (db w) ++ [(k, o)]) (db w))) fl)
  else create_order req w = (Raise (Unhandled "ValidationError"), w).
Proof.
  intros Hne HF. cbv zeta. unfold create_order.
  destruct (CreateOrderRequest.items req) as [|it rest] eqn:Hl; [contradiction|].
  rewrite (bind_ok _ _ _ _ _ (price_lines_accepts _ new [] f0 w HF)).
  cbn [app]. cbv beta iota. rewrite bind_find_one. cbn [documents c_settings].
  fold (tax_rate_of (db w) (CreateOrderRequest.cafe_id req)).
  fold (sum_prices new). rewrite bind_validate.
  unfold order_amounts_ok, priced_order. cbn [Order.subtotal Order.tax Order.total].
  match goal with |- if ?b then _ else _ => destruct b end; [|reflexivity].
  rewrite bind_create. cbn [documents replace c_order].
  match goal with
  | |- context [bind (audit ?a ?t ?r ?p ?u ?c) _ ?w0] =>
      destruct (audit_spec a t r p u c w0) as (log & fl & E);
      rewrite (bind_ok _ _ _ _ _ E)
  end.
  exists log, fl. reflexivity.
Qed.

(** [create_order] writes nothing unless it succeeds. *)
Lemma create_order_raise req w e :
  fst (create_order req w) = Raise e -> snd (create_order req w) = w.
Proof.
  intros H. destruct (CreateOrderRequest.items req) as [|it rest] eqn:Hl.
  - unfold create_order. now rewrite Hl.
  - destruct (price_lines (it :: rest) [] f0 w) as [[[new sub]|e'] w1] eqn:Hp.
    + destruct (price_lines_inv _ _ _ _ _ _ Hp) as [-> Hr].
      destruct (Hr _ _ eq_refl) as (new' & HF & -> & ->). rewrite <- Hl in HF.
      assert (Hne : CreateOrderRequest.items req <> []) by (rewrite Hl; discriminate).
      pose proof (create_order_priced req w new' Hne HF) as Hc. cbv zeta in Hc.
      destruct (order_amounts_ok (priced_order (db w) req new')).
      * destruct Hc as (log & fl & Hc). rewrite Hc in H. discriminate.
      * now rewrite Hc.
    + destruct (price_lines_inv _ _ _ _ _ _ Hp) as [-> _].
      unfold create_order. rewrite Hl. unfold bind. now rewrite Hp.
Qed.

(** A successful [create_order] has priced every line and validated the
    amounts, and has appended the order it answers for. *)
Lemma create_order_inv req w r w' :
  create_order req w = (Ok r, w') ->
  exists new,
    CreateOrderRequest.items req <> []
    /\ Forall2 (snapshot (db w)) (CreateOrderRequest.items req) new
    /\ order_amounts_ok (priced_order (db w) req new) = true
    /\ r = (str_oid (new_oid (order (db w))), Order.total (priced_order (db w) req new))
    /\ order (db w')
       = order (db w) ++ [(new_oid (order (db w)), priced_order (db w) req new)]
    /\ data (db w') = data (with_order (order (db w')) (db w)).
Proof.
  intros H. destruct (CreateOrderRequest.items req) as [|it rest] eqn:Hl.
  - unfold create_order in H. rewrite Hl in H. discriminate.
  - destruct (price_lines (it :: rest) [] f0 w) as [[[new sub]|e'] w1] eqn:Hp.
    + destruct (price_lines_inv _ _ _ _ _ _ Hp) as [-> Hr].
      destruct (Hr _ _ eq_refl) as (new' & HF & -> & ->). rewrite <- Hl in HF.
      assert (Hne : CreateOrderRequest.items req <> []) by (rewrite Hl; discriminate).
      pose proof (create_order_priced req w new' Hne HF) as Hc. cbv zeta in Hc.
      exists new'. rewrite Hl in Hne. rewrite <- Hl.
      destruct (order_amounts_ok (priced_order (db w) req new')).
      * destruct Hc as (log & fl & Hc). rewrite Hc in H. injection H as <- <-.
        rewrite Hl in *. repeat split; trivial.
      * rewrite Hc in H. discriminate.
    + unfold create_order in H. rewrite Hl in H. unfold bind in H. rewrite Hp in H.
      discriminate.
Qed.

(** [create_order] answers with an [HTTPException] for an empty list of
    lines and for a line that is answered so, and for nothing else. *)
Lemma create_order_http req w code detail :
  fst (create_order req w) = Raise (HTTPException code detail) ->
  code = 400
  /\ ((CreateOrderRequest.items req = [] /\ detail = "Order must have items")
      \/ exists it, In it (CreateOrderRequest.items req) /\ rejected (db w) it detail).
Proof.
  intros H. destruct (CreateOrderRequest.items req) as [|it rest] eqn:Hl.
  - unfold create_order in H. rewrite Hl in H. simpl in H. injection H as <- <-.
    split; [reflexivity|now left].
  - destruct (price_lines (it :: rest) [] f0 w) as [[[new sub]|e'] w1] eqn:Hp.
    + destruct (price_lines_inv _ _ _ _ _ _ Hp) as [-> Hr].
      destruct (Hr _ _ eq_refl) as (new' & HF & -> & ->). rewrite <- Hl in HF.
      assert (Hne : CreateOrderRequest.items req <> []) by (rewrite Hl; discriminate).
      pose proof (create_order_priced req w new' Hne HF) as Hc. cbv zeta in Hc.
      destruct (order_amounts_ok (priced_order (db w) req new')).
      * destruct Hc as (log & fl & Hc). rewrite Hc in H. discriminate.
      * rewrite Hc in H. discriminate.
    + assert (E : fst (create_order req w) = Raise e').
      { unfold create_order. rewrite Hl. unfold bind. now rewrite Hp. }
      rewrite E in H. injection H as ->.
      assert (Hp' : fst (price_lines (it :: rest) [] f0 w)
                    = Raise (HTTPException code detail)) by now rewrite Hp.
      destruct (price_lines_http _ _ _ _ _ _ Hp') as (x & Hin & -> & Hx).
      split; [reflexivity|]. right. now exists x.
Qed.

Lemma create_order_rejects req w pre it post e :
  CreateOrderRequest.items req = pre ++ it :: post ->
  Forall (goes_through (db w)) pre ->
  line_error (db w) it = Some e ->
  create_order req w = (Raise e, w).
Proof.
  intros Hl Hp Hv. unfold create_order. rewrite Hl.
  destruct (pre ++ it :: post) as [|x l] eqn:E; [now destruct pre|].
  rewrite <- E. apply bind_raise. now apply price_lines_rejects.
Qed.

(** *** Rounding *)

Lemma round_half_even_nearest num den :
  0 < den -> nearest_even num den (round_half_even num den).
Proof.
  intros Hd. unfold nearest_even, round_half_even.
  pose proof (Z.div_mod num den ltac:(lia)) as E.
  pose proof (Z.mod_pos_bound num den Hd) as B.
  set (q := num / den) in *. set (r := num mod den) in *.
  destruct (Z.compare_spec (2 * r) den) as [H|H|H].
  - destruct (Z.even q) eqn:Hq.
    + split; [nia|intros _; exact Hq].
    + split; [nia|]. intros _.
      replace (q + 1) with (Z.succ q) by lia.
      rewrite Z.even_succ, <- Z.negb_even, Hq. reflexivity.
  - split; [nia|]. intros T. exfalso. nia.
  - split; [nia|]. intros T. exfalso. nia.
Qed.

(** The hundredths of [m * 2^e]: exact when that is an integer number of
    hundredths for sure, nearest-even otherwise. *)
Lemma hundredths_half_even m e :
  (0 <= e -> hundredths m e = 100 * Zpos m * 2 ^ e)
  /\ (e < 0 -> nearest_even (100 * Zpos m) (2 ^ (- e)) (hundredths m e)).
Proof.
  split; intros H.
  - destruct e; try reflexivity. lia.
  - destruct e as [|p|p]; try lia. unfold hundredths.
    change (- Zneg p) with (Zpos p).
    apply round_half_even_nearest. apply Z.pow_pos_nonneg; lia.
Qed.

Lemma py_round2_rounds x : rounds_to_cents x (py_round2 x).
Proof.
  destruct x as [s|s| |s m e]; try reflexivity.
  cbn [rounds_to_cents py_round2]. exists (hundredths m e). split; [|reflexivity].
  destruct (e <? 0) eqn:He.
  - apply Z.ltb_lt in He. now apply hundredths_half_even.
  - apply Z.ltb_ge in He. now apply hundredths_half_even.
Qed.

(** *** Signs *)

Lemma binary_round_aux_unsigned m e l :
  unsigned (binary_round_aux prec emax false m e l) = true.
Proof.
  unfold binary_round_aux.
  destruct (shr_fexp prec emax m e l) as [mrs' e'].
  destruct (shr_fexp prec emax _ e' loc_Exact) as [mrs'' e''].
  destruct (shr_m mrs''); [reflexivity| |reflexivity].
  destruct (e'' <=? emax - prec); reflexivity.
Qed.

Lemma shr_1_nonneg r : 0 <= shr_m r -> 0 <= shr_m (shr_1 r).
Proof. destruct r as [[|[p|p|]|p] r s]; simpl; lia. Qed.

Lemma iter_shr_1_nonneg p : forall r, 0 <= shr_m r -> 0 <= shr_m (iter_pos shr_1 p r).
Proof.
  induction p as [p IH|p IH|]; intros r H; simpl.
  - now apply IH, IH, shr_1_nonneg.
  - now apply IH, IH.
  - now apply shr_1_nonneg.
Qed.

Lemma shr_fexp_nonneg m e l : 0 <= m -> 0 <= shr_m (fst (shr_fexp prec emax m e l)).
Proof.
  intros H. unfold shr_fexp, shr.
  assert (H0 : 0 <= shr_m (shr_record_of_loc m l)) by (destruct l as [|[| |]]; exact H).
  destruct (fexp prec emax (Zdigits2 m + e) - e); simpl; trivial.
  now apply iter_shr_1_nonneg.
Qed.

Lemma round_nearest_even_nonneg m l : 0 <= m -> 0 <= round_nearest_even m l.
Proof.
  intros H. destruct l as [|[| |]]; simpl; try lia. destruct (Z.even m); lia.
Qed.

(** Rounding a magnitude with the sign [+] gives no NaN and nothing
    negative. *)
Lemma binary_round_aux_ge0 m e l :
  0 <= m -> ge0 (binary_round_aux prec emax false m e l) = true.
Proof.
  intros H. unfold binary_round_aux.
  pose proof (shr_fexp_nonneg m e l H) as H1.
  destruct (shr_fexp prec emax m e l) as [mrs' e']. simpl in H1.
  pose proof (shr_fexp_nonneg _ e' loc_Exact
                (round_nearest_even_nonneg _ (loc_of_shr_record mrs') H1)) as H2.
  destruct (shr_fexp prec emax _ e' loc_Exact) as [mrs'' e'']. simpl in H2.
  destruct (shr_m mrs''); [reflexivity| |lia].
  destruct (e'' <=? emax - prec); reflexivity.
Qed.

Lemma ge0_cases x :
  ge0 x = true ->
  (exists s, x = S754_zero s) \/ (exists m e, x = S754_finite false m e)
  \/ x = S754_infinity false.
Proof.
  destruct x as [s|[|]| |[|] m e]; try discriminate; eauto.
Qed.

Lemma fadd_unsigned a b : unsigned a = true -> ge0 b = true -> unsigned (fadd a b) = true.
Proof.
  intros Ha Hb.
  destruct (ge0_cases b Hb) as [[s ->]|[(m & e & ->)| ->]];
    destruct a as [[|]|[|]| |[|] ma ea]; try discriminate; try reflexivity;
    try (now destruct s).
  unfold fadd, SFadd. cbn [cond_Zopp Z.add]. unfold binary_normalize, binary_round.
  destruct (shl_align _ _ _) as [mz ez]. apply binary_round_aux_unsigned.
Qed.

Lemma fadd_ge0 a b :
  unsigned a = true -> ge0 a = true -> ge0 b = true -> ge0 (fadd a b) = true.
Proof.
  intros Ha Ha' Hb.
  destruct (ge0_cases b Hb) as [[s ->]|[(m & e & ->)| ->]];
    destruct a as [[|]|[|]| |[|] ma ea]; try discriminate; try reflexivity;
    try (now destruct s).
  unfold fadd, SFadd. cbn [cond_Zopp Z.add]. unfold binary_normalize, binary_round.
  destruct (shl_align _ _ _) as [mz ez]. now apply binary_round_aux_ge0.
Qed.

Lemma sum_unsigned (l : list OrderItem.t) : forall acc,
  unsigned acc = true ->
  forallb item_amounts_ok l = true ->
  unsigned (fold_left fadd (map OrderItem.total_price l) acc) = true.
Proof.
  induction l as [|oi l IH]; intros acc Ha Hl; simpl in *; [assumption|].
  apply andb_true_iff in Hl. destruct Hl as [Hoi Hl].
  apply IH; [|assumption]. apply fadd_unsigned; [assumption|].
  unfold item_amounts_ok in Hoi. apply andb_true_iff in Hoi. tauto.
Qed.

Lemma sum_ge0 (l : list OrderItem.t) : forall acc,
  unsigned acc = true -> ge0 acc = true ->
  forallb item_amounts_ok l = true ->
  ge0 (fold_left fadd (map OrderItem.total_price l) acc) = true.
Proof.
  induction l as [|oi l IH]; intros acc Ha Ha' Hl; simpl in *; [assumption|].
  apply andb_true_iff in Hl. destruct Hl as [Hoi Hl].
  unfold item_amounts_ok in Hoi. apply andb_true_iff in Hoi.
  apply IH; [| |assumption].
  - apply fadd_unsigned; tauto.
  - apply fadd_ge0; tauto.
Qed.

Lemma snapshots_amounts d lines new :
  Forall2 (snapshot d) lines new -> forallb item_amounts_ok new = true.
Proof.
  induction 1 as [|it oi lines new (_ & _ & Ha) _ IH]; simpl; [reflexivity|].
  now rewrite Ha.
Qed.

(** The quotient of two positive integers is no NaN and is not negative. *)
Lemma fdiv_ge0 n d :
  ge0 (fdiv (S754_finite false n 0) (S754_finite false d 0)) = true.
Proof.
  unfold fdiv, SFdiv, SFdiv_core_binary.
  match goal with
  | |- context [Z.div_eucl ?a (Zpos d)] =>
      assert (Ha : 0 <= a);
      [|pose proof (Z.div_pos a (Zpos d) Ha ltac:(lia)) as Hq; unfold Z.div in Hq;
        destruct (Z.div_eucl a (Zpos d)) as [q r]]
  end.
  - match goal with |- 0 <= match ?s with _ => _ end => destruct s end;
      [lia|apply Z.shiftl_nonneg; lia|lia].
  - cbn [xorb]. now apply binary_round_aux_ge0.
Qed.

Lemma py_round2_ge0 m e : ge0 (py_round2 (S754_finite false m e)) = true.
Proof.
  cbn [py_round2]. destruct (hundredths m e); [reflexivity|apply fdiv_ge0|reflexivity].
Qed.

(** With a tax rate of 0.0 and line totals that validate, the amounts of
    the order validate when the subtotal is finite, and then the tax is 0.0
    and the total the rounded subtotal; a subtotal that has overflowed to
    infinity gives a tax that is not a number. *)
Lemma zero_rate_order d req new :
  tax_rate_of d (CreateOrderRequest.cafe_id req) = f0 ->
  forallb item_amounts_ok new = true ->
  let o := priced_order d req new in
  (is_finite (sum_prices new) = true ->
   order_amounts_ok o = true /\ Order.tax o = f0
   /\ Order.total o = py_round2 (sum_prices new))
  /\ (is_finite (sum_prices new) = false -> order_amounts_ok o = false).
Proof.
  intros Hr Ha. cbv zeta. unfold order_amounts_ok, priced_order.
  cbn [Order.subtotal Order.tax Order.total]. rewrite Hr.
  pose proof (sum_unsigned new f0 eq_refl Ha) as Hu.
  pose proof (sum_ge0 new f0 eq_refl eq_refl Ha) as Hg.
  fold (sum_prices new) in Hu, Hg.
  destruct (ge0_cases _ Hg) as [[s E]|[(m & e & E)|E]]; rewrite E in *.
  - destruct s; [discriminate|]. split; [|discriminate]. intros _. now repeat split.
  - split; [|discriminate]. intros _.
    change (fmul (S754_finite false m e) f0) with f0.
    change (py_round2 f0) with f0.
    change (fadd (S754_finite false m e) f0) with (S754_finite false m e).
    rewrite py_round2_ge0. now repeat split.
  - split; [discriminate|]. intros _. reflexivity.
Qed.

(** *** From snapshots to line prices and totals *)

Lemma snapshot_prices_line d it oi : snapshot d it oi -> prices_line d it oi.
Proof.
  intros (_ & Hi & _). unfold line_item in Hi. unfold prices_line.
  destruct (menu_item_of d it) as [[k mi]|]; [|discriminate].
  destruct (quantity it) as [n|e]; [|discriminate].
  destruct (float_of_Z n) as [q|] eqn:Hq; [|discriminate].
  injection Hi as <-. exists k, mi, n, q. now repeat split.
Qed.

(** A snapshot is what prices a line that is valid, with amounts that
    validate. *)
Lemma snapshot_spec d it oi :
  snapshot d it oi
  <-> line_valid d it = true /\ prices_line d it oi /\ item_amounts_ok oi = true.
Proof.
  split.
  - intros H. pose proof (snapshot_prices_line _ _ _ H) as Hp.
    destruct H as (Hv & _ & Ha). now repeat split.
  - intros (Hv & (k & mi & n & q & Hm & Hn & Hq & H1 & H2 & H3 & H4 & H5) & Ha).
    split; [assumption|]. split; [|assumption].
    unfold line_item. rewrite Hm, Hn, Hq. destruct oi as [i nm qt up tp].
    simpl in *. now subst.
Qed.

Lemma snapshots_price_lines d lines new :
  Forall2 (snapshot d) lines new -> Forall2 (prices_line d) lines new.
Proof.
  induction 1; constructor; [now apply snapshot_prices_line|assumption].
Qed.

Lemma priced_order_totals d req new : order_totals d req (priced_order d req new).
Proof. repeat split. Qed.

(** Lines that are all valid stop the loop with nothing but an overflow or
    a refused amount. *)
Lemma price_lines_valid_raise lines : forall items subtotal w e,
  forallb (line_valid (db w)) lines = true ->
  fst (price_lines lines items subtotal w) = Raise e ->
  e = Unhandled "OverflowError" \/ e = Unhandled "ValidationError".
Proof.
  induction lines as [|it rest IH]; intros items subtotal w e Hv H; [discriminate|].
  simpl in Hv. apply andb_true_iff in Hv. destruct Hv as [Hi Hv].
  apply line_valid_error in Hi. rewrite price_lines_head, Hi in H.
  destruct (line_item (db w) it) as [oi|]; [|left; simpl in H; congruence].
  destruct (item_amounts_ok oi); [|right; simpl in H; congruence].
  now apply (IH _ _ _ _ Hv H).
Qed.

Lemma create_order_valid_raise req w e :
  forallb (line_valid (db w)) (CreateOrderRequest.items req) = true ->
  CreateOrderRequest.items req <> [] ->
  fst (create_order req w) = Raise e ->
  e = Unhandled "OverflowError" \/ e = Unhandled "ValidationError".
Proof.
  intros Hv Hne H. destruct (CreateOrderRequest.items req) as [|it rest] eqn:Hl;
    [contradiction|].
  destruct (price_lines (it :: rest) [] f0 w) as [[[new sub]|e'] w1] eqn:Hp.
  - destruct (price_lines_inv _ _ _ _ _ _ Hp) as [-> Hr].
    destruct (Hr _ _ eq_refl) as (new' & HF & -> & ->). rewrite <- Hl in HF.
    assert (Hne' : CreateOrderRequest.items req <> []) by (rewrite Hl; discriminate).
    pose proof (create_order_priced req w new' Hne' HF) as Hc. cbv zeta in Hc.
    destruct (order_amounts_ok (priced_order (db w) req new')).
    + destruct Hc as (log & fl & Hc). rewrite Hc in H. discriminate.
    + rewrite Hc in H. right. simpl in H. congruence.
  - assert (E : fst (create_order req w) = Raise e').
    { unfold create_order. rewrite Hl. unfold bind. now rewrite Hp. }
    rewrite E in H. injection H as ->.
    apply (price_lines_valid_raise (it :: rest) [] f0 w); [assumption|now rewrite Hp].
Qed.

(** *** What the client sends besides [item_id] and [qty] is not read *)

Lemma bare_line_error d a b : bare a = bare b -> line_error d a = line_error d b.
Proof.
  unfold bare. intros E. injection E as E1 E2.
  unfold line_error, quantity. now rewrite E1, E2.
Qed.

Lemma bare_line_item d a b : bare a = bare b -> line_item d a = line_item d b.
Proof.
  unfold bare. intros E. injection E as E1 E2.
  unfold line_item, menu_item_of, quantity. now rewrite E1, E2.
Qed.

Lemma price_lines_bare l1 : forall l2 items subtotal w,
  map bare l1 = map bare l2 ->
  price_lines l1 items subtotal w = price_lines l2 items subtotal w.
Proof.
  induction l1 as [|a l1 IH]; intros [|b l2] items subtotal w E; try discriminate.
  - reflexivity.
  - change (bare a :: map bare l1 = bare b :: map bare l2) in E.
    assert (Eab : bare a = bare b) by congruence.
    assert (El : map bare l1 = map bare l2) by congruence.
    rewrite !price_lines_head.
    rewrite (bare_line_error _ a b Eab), (bare_line_item _ a b Eab).
    destruct (line_error (db w) b); [reflexivity|].
    destruct (line_item (db w) b) as [oi|]; [|reflexivity].
    destruct (item_amounts_ok oi); [|reflexivity].
    now apply IH.
Qed.

Lemma create_order_bare req lines w :
  map bare lines = map bare (CreateOrderRequest.items req) ->
  create_order (with_items lines req) w = create_order req w.
Proof.
  intros E. unfold create_order, with_items.
  cbn [CreateOrderRequest.items CreateOrderRequest.cafe_id CreateOrderRequest.session_id
       CreateOrderRequest.station_id CreateOrderRequest.notes].
  destruct lines as [|a l1], (CreateOrderRequest.items req) as [|b l2]; try discriminate.
  - reflexivity.
  - unfold bind at 1 3. now rewrite (price_lines_bare (a :: l1) (b :: l2) [] f0 w E).
Qed.

(** The first line that is answered with a 400, when every line either
    goes through or is answered so. *)
Lemma first_rejected d (lines : list Line.t) :
  (forall it, In it lines -> goes_through d it \/ exists detail, rejected d it detail) ->
  (exists it detail, In it lines /\ rejected d it detail) ->
  exists pre x post detail,
    lines = pre ++ x :: post /\ Forall (goes_through d) pre /\ rejected d x detail.
Proof.
  induction lines as [|y rest IH]; intros Hall (it & detail & Hin & Hr); [contradiction|].
  destruct (Hall y (or_introl eq_refl)) as [Hy|[dy Hy]].
  - destruct Hin as [->|Hin].
    + exists [], it, rest, detail. now repeat split.
    + destruct IH as (pre & x & post & dx & -> & Hp & Hx).
      * intros z Hz. apply Hall. now right.
      * now exists it, detail.
      * exists (y :: pre), x, post, dx. repeat split; trivial. now constructor.
  - exists [], y, rest, dy. now repeat split.
Qed.

(** The lines that are answered with a 400, and with what. *)
Lemma rejected_cases d it detail :
  rejected d it detail
  <-> ((exists v, Line.item_id it = Some v /\ v <> VNone
                  /\ (forall s, v = VStr s -> ObjectId_of_string s = None)
                  /\ detail = "Invalid ID")
       \/ (Line.item_id it = Some VNone /\ detail = "Invalid menu item: None")
       \/ (exists s k, Line.item_id it = Some (VStr s)
                       /\ ObjectId_of_string s = Some k
                       /\ (find_one (by_id k) (menuitem d) = None
                           \/ exists x, find_one (by_id k) (menuitem d) = Some x
                                        /\ MenuItem.is_active (snd x) = false)
                       /\ detail = ("Invalid menu item: " ++ s)%string)
       \/ (exists s k x q, Line.item_id it = Some (VStr s)
                           /\ ObjectId_of_string s = Some k
                           /\ find_one (by_id k) (menuitem d) = Some x
                           /\ MenuItem.is_active (snd x) = true
                           /\ quantity it = Ok q /\ q <= 0
                           /\ detail = "Invalid quantity")).
Proof.
  unfold rejected, line_error. split.
  - destruct (Line.item_id it) as [v|]; [|discriminate].
    destruct v as [|b|n|x|s| |];
      try (intros H; injection H as <-; left; eexists; repeat split;
           [discriminate|intros ?; discriminate]).
    + intros H. injection H as <-. right. left. now split.
    + destruct (ObjectId_of_string s) as [k|] eqn:Hk.
      * destruct (find_one (by_id k) (menuitem d)) as [[k' mi]|] eqn:Hf.
        -- destruct (MenuItem.is_active mi) eqn:Hact.
           ++ destruct (quantity it) as [q|e] eqn:Hq.
              ** destruct (q <=? 0) eqn:Hle; [|discriminate].
                 intros H. injection H as <-. repeat right.
                 exists s, k, (k', mi), q. apply Z.leb_le in Hle. now repeat split.
              ** intros H. injection H as ->.
                 destruct (int_of_unhandled _ _ Hq). discriminate.
           ++ intros H. injection H as <-. right. right. left.
              exists s, k. repeat split; trivial. right. now exists (k', mi).
        -- intros H. injection H as <-. right. right. left.
           exists s, k. repeat split; trivial. now left.
      * intros H. injection H as <-. left. exists (VStr s).
        repeat split; [discriminate|]. intros s' E. now injection E as <-.
  - intros [(v & -> & Hn & Hs & ->)|[[-> ->]|[(s & k & -> & Hk & Hf & ->)
                                              |(s & k & x & q & -> & Hk & Hf & Ha & Hq & Hle & ->)]]].
    + destruct v as [|b|n|x|s| |]; try reflexivity; [contradiction|].
      now rewrite (Hs s eq_refl).
    + reflexivity.
    + rewrite Hk. destruct Hf as [->|([k' mi] & -> & Ha)]; [reflexivity|].
      simpl in Ha. now rewrite Ha.
    + rewrite Hk, Hf. destruct x as [k' mi]. simpl in Ha. rewrite Ha, Hq.
      apply Z.leb_le in Hle. now rewrite Hle.
Qed.

(** C2 (amended).  On a request with at least one line, all lines
    referencing existing active menu items with a quantity above 0,
    [create_order] succeeds exactly when every quantity converts to a
    float and every amount that is validated (each stored price and line
    total, the subtotal, the tax and the total) is >= 0.  It then appends
    one pending order in which every line is priced from the stored price,
    [total_price = unit_price * qty], the subtotal is the sum of the line
    totals, the tax is [subtotal * tax_rate] and the total [subtotal + tax],
    each rounded to the nearest hundredth of its exact value, ties to even;
    the total it answers with is that of the appended order.  When it does
    not succeed it writes nothing and answers with no 400.  What a line
    carries besides [item_id] and [qty], a price say, changes nothing. *)
Theorem create_order_pricing (req : CreateOrderRequest.t) (w : World) :
  CreateOrderRequest.items req <> [] ->
  forallb (line_valid (db w)) (CreateOrderRequest.items req) = true ->
  ((exists r w', create_order req w = (Ok r, w'))
   <-> exists new,
         Forall2 (snapshot (db w)) (CreateOrderRequest.items req) new
         /\ order_amounts_ok (priced_order (db w) req new) = true)
  /\ (forall it oi,
        snapshot (db w) it oi
        <-> line_valid (db w) it = true /\ prices_line (db w) it oi
            /\ item_amounts_ok oi = true)
  /\ (forall new,
        Forall2 (snapshot (db w)) (CreateOrderRequest.items req) new ->
        order_amounts_ok (priced_order (db w) req new) = true ->
        exists w', create_order req w
                   = (Ok (str_oid (new_oid (order (db w))),
                          Order.total (priced_order (db w) req new)), w')
                   /\ order (db w')
                      = order (db w)
                        ++ [(new_oid (order (db w)), priced_order (db w) req new)])
  /\ (forall r w', create_order req w = (Ok r, w') ->
        exists k o,
          order (db w') = order (db w) ++ [(k, o)]
          /\ r = (str_oid k, Order.total o)
          /\ Order.status o = pending
          /\ Forall2 (prices_line (db w)) (CreateOrderRequest.items req) (Order.items o)
          /\ forallb item_amounts_ok (Order.items o) = true
          /\ order_amounts_ok o = true
          /\ Order.subtotal o = fold_left fadd (map OrderItem.total_price (Order.items o)) f0
          /\ rounds_to_cents
               (fmul (Order.subtotal o) (tax_rate_of (db w) (CreateOrderRequest.cafe_id req)))
               (Order.tax o)
          /\ rounds_to_cents (fadd (Order.subtotal o) (Order.tax o)) (Order.total o)
          /\ order_totals (db w) req o)
  /\ (forall e, fst (create_order req w) = Raise e ->
        snd (create_order req w) = w
        /\ (e = Unhandled "OverflowError" \/ e = Unhandled "ValidationError"))
  /\ (forall lines,
        map bare lines = map bare (CreateOrderRequest.items req) ->
        create_order (with_items lines req) w = create_order req w).
Proof.
  intros Hne Hv. repeat match goal with |- _ /\ _ => split end.
  - split.
    + intros (r & w' & H).
      destruct (create_order_inv req w r w' H) as (new & _ & HF & Ha & _).
      now exists new.
    + intros (new & HF & Ha).
      pose proof (create_order_priced req w new Hne HF) as H. cbv zeta in H.
      rewrite Ha in H. destruct H as (log & fl & H). eauto.
  - intros it oi. apply snapshot_spec.
  - intros new HF Ha.
    pose proof (create_order_priced req w new Hne HF) as H. cbv zeta in H.
    rewrite Ha in H. destruct H as (log & fl & H). eexists. split; [exact H|reflexivity].
  - intros r w' H.
    destruct (create_order_inv req w r w' H) as (new & _ & HF & Ha & -> & Ho & _).
    exists (new_oid (order (db w))), (priced_order (db w) req new).
    split; [exact Ho|]. split; [reflexivity|]. split; [reflexivity|].
    split; [now apply snapshots_price_lines|].
    split; [exact (snapshots_amounts _ _ _ HF)|]. split; [exact Ha|].
    split; [reflexivity|]. split; [apply py_round2_rounds|].
    split; [apply py_round2_rounds|apply priced_order_totals].
  - intros e H. split; [now apply (create_order_raise req w e)|].
    now apply (create_order_valid_raise req w e).
  - intros lines. apply create_order_bare.
Qed.

Lemma ex_order_snapshots :
  Forall2 (snapshot (db ex_world)) (CreateOrderRequest.items ex_order_request) ex_order_items.
Proof. repeat constructor. Qed.

Lemma create_order_pricing_witness :
  exists w' k o,
    create_order ex_order_request ex_world = (Ok (str_oid 2%N, f262_5), w')
    /\ order (db w') = order (db ex_world) ++ [(k, o)]
    /\ Order.total o = f262_5
    /\ Forall2 (prices_line (db ex_world)) (CreateOrderRequest.items ex_order_request)
         (Order.items o)
    /\ rounds_to_cents (fadd (Order.subtotal o) (Order.tax o)) (Order.total o).
Proof.
  destruct (create_order_pricing ex_order_request ex_world
              ltac:(discriminate) eq_refl) as (_ & _ & Hacc & Hinv & _).
  destruct (Hacc ex_order_items ex_order_snapshots eq_refl) as (w' & H & _).
  assert (E : (str_oid (new_oid (order (db ex_world))),
               Order.total (priced_order (db ex_world) ex_order_request ex_order_items))
              = (str_oid 2%N, f262_5)) by (vm_compute; reflexivity).
  rewrite E in H.
  destruct (Hinv _ _ H) as (k & o & Ho & Hr & _ & HF & _ & _ & _ & _ & Hround & _).
  exists w', k, o. repeat split; trivial. congruence.
Defined.

(** C2, as stated, fails: the only line references the active Espresso
    with a quantity above 0, and [create_order] raises [OverflowError]
    where it multiplies the price by the quantity; no order is persisted
    and no total is returned. *)
Lemma create_order_quantity_overflow :
  let req := CreateOrderRequest.mk "cafe1" None None
               [line (str_oid 1%N) (Some (2 ^ 1024)) None] None in
  CreateOrderRequest.items req <> []
  /\ forallb (line_valid (db ex_world)) (CreateOrderRequest.items req) = true
  /\ create_order req ex_world = (Raise (Unhandled "OverflowError"), ex_world).
Proof.
  cbv zeta. split; [discriminate|]. split; vm_compute; reflexivity.
Qed.

(** C5 (amended).  [create_order] answers with an [HTTPException] only with
    400, and only if the list of lines is empty or some line is rejected.
    A line is rejected with "Invalid ID" when its [item_id] is neither
    [None] nor a string that [ObjectId] takes (24 characters that
    [bytes.fromhex] reads); with the [item_id] after "Invalid menu item: "
    when no menu item is stored under it or the item is inactive; with
    "Invalid quantity" when the item is active and the quantity, converted
    by [int], is 0 or less.  Conversely an empty list is answered with 400,
    and so is the first rejected line when the lines before it are priced
    without error, hence some line when every line is either priced
    without error or rejected.  Whenever [create_order] fails, the store is
    left as it was: no order is created. *)
Theorem create_order_rejections (req : CreateOrderRequest.t) (w : World) :
  (forall code detail,
     fst (create_order req w) = Raise (HTTPException code detail) ->
     code = 400
     /\ ((CreateOrderRequest.items req = [] /\ detail = "Order must have items")
         \/ exists it, In it (CreateOrderRequest.items req) /\ rejected (db w) it detail))
  /\ (CreateOrderRequest.items req = [] ->
      create_order req w = (Raise (HTTPException 400 "Order must have items"), w))
  /\ (forall pre it post detail,
        CreateOrderRequest.items req = pre ++ it :: post ->
        Forall (goes_through (db w)) pre ->
        rejected (db w) it detail ->
        create_order req w = (Raise (HTTPException 400 detail), w))
  /\ ((forall it, In it (CreateOrderRequest.items req) ->
         goes_through (db w) it \/ exists detail, rejected (db w) it detail) ->
      (exists it detail, In it (CreateOrderRequest.items req) /\ rejected (db w) it detail) ->
      exists detail, fst (create_order req w) = Raise (HTTPException 400 detail))
  /\ (forall it detail,
        rejected (db w) it detail
        <-> ((exists v, Line.item_id it = Some v /\ v <> VNone
                        /\ (forall s, v = VStr s -> ObjectId_of_string s = None)
                        /\ detail = "Invalid ID")
             \/ (Line.item_id it = Some VNone /\ detail = "Invalid menu item: None")
             \/ (exists s k, Line.item_id it = Some (VStr s)
                             /\ ObjectId_of_string s = Some k
                             /\ (find_one (by_id k) (menuitem (db w)) = None
                                 \/ exists x, find_one (by_id k) (menuitem (db w)) = Some x
                                              /\ MenuItem.is_active (snd x) = false)
                             /\ detail = ("Invalid menu item: " ++ s)%string)
             \/ (exists s k x q, Line.item_id it = Some (VStr s)
                                 /\ ObjectId_of_string s = Some k
                                 /\ find_one (by_id k) (menuitem (db w)) = Some x
                                 /\ MenuItem.is_active (snd x) = true
                                 /\ quantity it = Ok q /\ q <= 0
                                 /\ detail = "Invalid quantity")))
  /\ (forall e, fst (create_order req w) = Raise e ->
        snd (create_order req w) = w /\ order (db (snd (create_order req w))) = order (db w)).
Proof.
  repeat match goal with |- _ /\ _ => split end.
  - intros code detail. apply create_order_http.
  - intros E. unfold create_order. now rewrite E.
  - intros pre it post detail Hl Hp Hr. now apply (create_order_rejects req w pre it post).
  - intros Hall Hex.
    destruct (first_rejected _ _ Hall Hex) as (pre & x & post & detail & Hl & Hp & Hx).
    exists detail. now rewrite (create_order_rejects req w pre x post _ Hl Hp Hx).
  - intros it detail. apply rejected_cases.
  - intros e H. now rewrite (create_order_raise req w e H).
Qed.

Lemma ex_rejected_request_lines it :
  In it (CreateOrderRequest.items ex_rejected_request) ->
  goes_through (db ex_world) it \/ exists detail, rejected (db ex_world) it detail.
Proof.
  intros [<-|[<-|[]]].
  - left. split; [reflexivity|]. eexists. split; reflexivity.
  - right. eexists. reflexivity.
Defined.

Lemma create_order_rejections_witness :
  create_order ex_rejected_request ex_world
  = (Raise (HTTPException 400 "Invalid menu item: 000000000000000000000003"), ex_world)
  /\ (exists detail,
        fst (create_order ex_rejected_request ex_world) = Raise (HTTPException 400 detail))
  /\ create_order (CreateOrderRequest.mk "cafe1" None None [] None) ex_world
     = (Raise (HTTPException 400 "Order must have items"), ex_world).
Proof.
  destruct (create_order_rejections ex_rejected_request ex_world)
    as (_ & _ & Hrej & Hany & _).
  split; [|split].
  - apply (Hrej [line (str_oid 1%N) (Some 1) None] (line (str_oid 3%N) (Some 1) None) []
             "Invalid menu item: 000000000000000000000003" eq_refl).
    + constructor; [|constructor].
      split; [reflexivity|]. eexists. split; reflexivity.
    + reflexivity.
  - apply (Hany ex_rejected_request_lines).
    exists (line (str_oid 3%N) (Some 1) None), "Invalid menu item: 000000000000000000000003".
    split; [right; now left|reflexivity].
  - apply (proj1 (proj2 (create_order_rejections
                           (CreateOrderRequest.mk "cafe1" None None [] None) ex_world))).
    reflexivity.
Defined.

(** C5, as stated, fails twice.  The id ["espresso"] is the id of no menu
    item, and the 400 it is answered with does not name it.  And a line
    with quantity 0 does not make [create_order] fail with 400 when the
    line before it, valid, has a quantity too large for a float: the
    failure is an unhandled [OverflowError]. *)
Lemma create_order_rejection_gaps :
  let unnamed := CreateOrderRequest.mk "cafe1" None None
                   [line "espresso" (Some 1) None] None in
  let masked := CreateOrderRequest.mk "cafe1" None None
                  [line (str_oid 1%N) (Some (2 ^ 1024)) None;
                   line (str_oid 2%N) (Some 0) None] None in
  ((forall d, In d (menuitem (db ex_world)) -> str_oid (fst d) <> "espresso")
   /\ create_order unnamed ex_world = (Raise (HTTPException 400 "Invalid ID"), ex_world))
  /\ ((exists it, In it (CreateOrderRequest.items masked) /\ quantity it = Ok 0)
      /\ create_order masked ex_world = (Raise (Unhandled "OverflowError"), ex_world)
      /\ forall detail,
           fst (create_order masked ex_world) <> Raise (HTTPException 400 detail)).
Proof.
  cbv zeta. split; split.
  - intros d H. simpl in H. destruct H as [<-|[<-|[<-|[]]]]; vm_compute; discriminate.
  - reflexivity.
  - exists (line (str_oid 2%N) (Some 0) None).
    split; [right; left; reflexivity|reflexivity].
  - split; [vm_compute; reflexivity|]. intros detail. vm_compute. discriminate.
Qed.

Lemma ex_walk_in_snapshots :
  Forall2 (snapshot (db ex_world)) (CreateOrderRequest.items ex_walk_in_request)
    ex_order_items.
Proof. repeat constructor. Qed.

(** C8 (amended).  On a cafe without stored settings [create_order] works
    with the tax rate 0.0.  A request with at least one line whose lines
    are all priced without error is accepted when its subtotal is finite:
    the order appended has the tax 0.0 and, as its total and as the total
    answered, the rounded subtotal.  When the subtotal has overflowed to
    infinity the tax is not a number and nothing is written.  Every order
    that is accepted has the tax 0.0 and the rounded subtotal as total.
    The settings that [get_settings] would create for the same cafe carry
    the tax rate 0.05 instead. *)
Theorem create_order_without_settings (req : CreateOrderRequest.t) (w : World) :
  find_one (of_cafe (CreateOrderRequest.cafe_id req)) (settings (db w)) = None ->
  tax_rate_of (db w) (CreateOrderRequest.cafe_id req) = S754_zero false
  /\ (forall new,
        CreateOrderRequest.items req <> [] ->
        Forall2 (snapshot (db w)) (CreateOrderRequest.items req) new ->
        (is_finite (sum_prices new) = true ->
         exists w' o,
           create_order req w
           = (Ok (str_oid (new_oid (order (db w))), py_round2 (sum_prices new)), w')
           /\ order (db w') = order (db w) ++ [(new_oid (order (db w)), o)]
           /\ Order.items o = new
           /\ Order.subtotal o = sum_prices new
           /\ Order.tax o = S754_zero false
           /\ Order.total o = py_round2 (sum_prices new))
        /\ (is_finite (sum_prices new) = false ->
            create_order req w = (Raise (Unhandled "ValidationError"), w)))
  /\ (forall r w', create_order req w = (Ok r, w') ->
        exists k o,
          order (db w') = order (db w) ++ [(k, o)]
          /\ r = (str_oid k, Order.total o)
          /\ order_totals (db w) req o
          /\ Order.tax o = S754_zero false
          /\ Order.total o = py_round2 (Order.subtotal o))
  /\ (forall keeps_id,
        fields_of (fst (get_settings keeps_id (CreateOrderRequest.cafe_id req) w))
        = Some (Settings.mk (CreateOrderRequest.cafe_id req) "INR" (decimal 5 100)
                  (S754_zero false)))
  /\ decimal 5 100 <> S754_zero false.
Proof.
  intros Hs.
  assert (Hrate : tax_rate_of (db w) (CreateOrderRequest.cafe_id req) = S754_zero false)
    by (unfold tax_rate_of; now rewrite Hs).
  repeat match goal with |- _ /\ _ => split end.
  - exact Hrate.
  - intros new Hne HF.
    destruct (zero_rate_order (db w) req new Hrate (snapshots_amounts _ _ _ HF))
      as [Hz Hz'].
    pose proof (create_order_priced req w new Hne HF) as Hc. cbv zeta in Hc.
    split.
    + intros Hfin. destruct (Hz Hfin) as (Ha & Htax & Htot).
      rewrite Ha, Htot in Hc. destruct Hc as (log & fl & Hc).
      eexists. exists (priced_order (db w) req new).
      split; [exact Hc|]. now repeat split.
    + intros Hinf. now rewrite (Hz' Hinf) in Hc.
  - intros r w' H.
    destruct (create_order_inv req w r w' H) as (new & _ & HF & Ha & -> & Ho & _).
    exists (new_oid (order (db w))), (priced_order (db w) req new).
    split; [exact Ho|]. split; [reflexivity|]. split; [apply priced_order_totals|].
    destruct (zero_rate_order (db w) req new Hrate (snapshots_amounts _ _ _ HF))
      as [Hz Hz'].
    destruct (is_finite (sum_prices new)) eqn:Hfin.
    + destruct (Hz eq_refl) as (_ & Htax & Htot). now split.
    + rewrite (Hz' eq_refl) in Ha. discriminate.
  - intros keeps_id. unfold get_settings. rewrite bind_find_one.
    cbn [documents c_settings]. rewrite Hs. rewrite bind_create. reflexivity.
  - discriminate.
Qed.

Lemma create_order_without_settings_witness :
  exists w' o,
    create_order ex_walk_in_request ex_world = (Ok (str_oid 2%N, f250), w')
    /\ order (db w') = order (db ex_world) ++ [(2%N, o)]
    /\ Order.tax o = f0
    /\ Order.total o = f250.
Proof.
  destruct (create_order_without_settings ex_walk_in_request ex_world eq_refl)
    as (_ & Hacc & _).
  destruct (Hacc ex_order_items ltac:(discriminate) ex_walk_in_snapshots) as [Hfin _].
  destruct (Hfin eq_refl) as (w' & o & H & Ho & _ & _ & Htax & Htot).
  exists w', o. repeat split; trivial.
Defined.

(** C8, as stated, fails: the request is valid, its only line referencing
    the active Espresso with a quantity above 0 that converts to a float,
    and the cafe has no settings; the subtotal overflows to infinity, the
    tax computed from it with the rate 0.0 is not a number, not 0, and the
    order is refused by the validation of its amounts. *)
Lemma create_order_infinite_subtotal :
  let req := CreateOrderRequest.mk "cafe2" None None
               [line (str_oid 1%N) (Some (10 ^ 307)) None] None in
  forallb (line_valid (db ex_world)) (CreateOrderRequest.items req) = true
  /\ (exists q, float_of_Z (10 ^ 307) = Some q)
  /\ find_one (of_cafe "cafe2") (settings (db ex_world)) = None
  /\ create_order req ex_world = (Raise (Unhandled "ValidationError"), ex_world)
  /\ py_round2 (fmul (S754_infinity false) f0) = S754_nan
  /\ py_round2 (fmul (S754_infinity false) f0) <> f0.
Proof.
  cbv zeta. split; [vm_compute; reflexivity|]. split; [eexists; vm_compute; reflexivity|].
  split; [reflexivity|]. split; [vm_compute; reflexivity|]. split; [reflexivity|discriminate].
Qed.


(** * Further properties of the handlers *)

(** ** Register and login *)

Lemma find_one_none_weaker {T} (p q : ObjectId * T -> bool) (c : Coll T) :
  find_one p c = None -> (forall d, q d = true -> p d = true) -> find_one q c = None.
Proof.
  induction c as [|x c IH]; simpl; intros Hn Hpq; [reflexivity|].
  destruct (p x) eqn:Hp; [discriminate|].
  destruct (q x) eqn:Hq; [rewrite (Hpq x Hq) in Hp; discriminate|].
  now apply IH.
Qed.

Lemma find_one_app_old {T} (q : ObjectId * T -> bool) (c t : Coll T) d :
  find_one q c = Some d -> find_one q (c ++ t) = Some d.
Proof.
  induction c as [|x c IH]; simpl; [discriminate|].
  destruct (q x); [trivial|exact IH].
Qed.

Lemma find_one_app_none {T} (q : ObjectId * T -> bool) (c t : Coll T) :
  find_one q c = None -> find_one q (c ++ t) = find_one q t.
Proof.
  induction c as [|x c IH]; simpl; [reflexivity|].
  destruct (q x); [discriminate|exact IH].
Qed.

(** A successful [register]: the email was free, and the user is appended
    as given, active, with the password stored as it came. *)
Lemma register_ok req w uid w1 :
  register req w = (Ok uid, w1) ->
  find_one (fun d => String.eqb (User.email (snd d)) (RegisterRequest.email req))
    (user (db w)) = None
  /\ uid = str_oid (new_oid (user (db w)))
  /\ user (db w1)
     = user (db w)
       ++ [(new_oid (user (db w)),
            User.mk (RegisterRequest.email req) (RegisterRequest.password req)
              (RegisterRequest.name req) (RegisterRequest.role req) None true)].
Proof.
  unfold register. rewrite bind_find_one. cbn [documents c_user].
  destruct (find_one _ (user (db w))) as [d|] eqn:Hf; [discriminate|].
  rewrite bind_create. cbn [documents replace c_user].
  match goal with
  | |- context [bind (audit ?a ?t ?r ?p ?u ?c) _ ?w0] =>
      destruct (audit_spec a t r p u c w0) as (log & fl & E);
      rewrite (bind_ok _ _ _ _ _ E)
  end.
  intros H. injection H as <- <-. now repeat split.
Qed.

(** X1.  After a successful [register], [login] with the same email and
    password answers with the id just returned and the name and role
    given; [login] with that email and any other password fails with 401;
    and a second [register] of that email, whatever the rest of the
    request, fails with 400 and writes nothing. *)
Theorem register_then_login
  (req again : RegisterRequest.t) (w w1 : World) (uid : string) :
  register req w = (Ok uid, w1) ->
  login (LoginRequest.mk (RegisterRequest.email req) (RegisterRequest.password req)) w1
  = (Ok (LoginResponse.mk uid (RegisterRequest.name req) (RegisterRequest.role req)), w1)
  /\ (forall password,
        password <> RegisterRequest.password req ->
        login (LoginRequest.mk (RegisterRequest.email req) password) w1
        = (Raise (HTTPException 401 "Invalid credentials"), w1))
  /\ (RegisterRequest.email again = RegisterRequest.email req ->
      register again w1 = (Raise (HTTPException 400 "Email already registered"), w1)).
Proof.
  intros H. destruct (register_ok req w uid w1 H) as (Hf & -> & Hu).
  set (k := new_oid (user (db w))) in *.
  set (u := User.mk _ _ _ _ None true) in *.
  assert (Hold : forall password,
             find_one (credentials (RegisterRequest.email req) password) (user (db w)) = None).
  { intros password. apply (find_one_none_weaker _ _ _ Hf).
    intros d Hd. unfold credentials in Hd.
    apply andb_true_iff in Hd. destruct Hd as [Hd _].
    apply andb_true_iff in Hd. tauto. }
  repeat match goal with |- _ /\ _ => split end.
  - unfold login. rewrite bind_find_one.
    cbn [documents c_user LoginRequest.email LoginRequest.password].
    rewrite Hu, (find_one_app_none _ _ _ (Hold _)). cbn [find_one find].
    unfold credentials, u. cbn [snd User.email User.password_hash User.is_active].
    now rewrite !String.eqb_refl.
  - intros password Hp. unfold login. rewrite bind_find_one.
    cbn [documents c_user LoginRequest.email LoginRequest.password].
    rewrite Hu, (find_one_app_none _ _ _ (Hold _)). cbn [find_one find].
    unfold credentials, u. cbn [snd User.email User.password_hash User.is_active].
    rewrite String.eqb_refl.
    destruct (String.eqb_spec (RegisterRequest.password req) password) as [E|E];
      [congruence|reflexivity].
  - intros He. unfold register. rewrite bind_find_one. cbn [documents c_user].
    rewrite Hu, He, (find_one_app_none _ _ _ Hf). cbn [find_one find snd User.email u].
    unfold u. cbn [User.email]. now rewrite String.eqb_refl.
Qed.

Lemma register_then_login_witness :
  let w1 := snd (register ex_register ex_world) in
  login (LoginRequest.mk "ana@example.com" "s3cret") w1
  = (Ok (LoginResponse.mk (str_oid 1%N) "Ana" cashier), w1)
  /\ login (LoginRequest.mk "ana@example.com" "S3cret") w1
     = (Raise (HTTPException 401 "Invalid credentials"), w1)
  /\ register (RegisterRequest.mk "ana@example.com" "Other" "pw" admin) w1
     = (Raise (HTTPException 400 "Email already registered"), w1).
Proof.
  cbv zeta.
  destruct (register_then_login ex_register
              (RegisterRequest.mk "ana@example.com" "Other" "pw" admin)
              ex_world (snd (register ex_register ex_world)) (str_oid 1%N) eq_refl)
    as (H1 & H2 & H3).
  split; [exact H1|]. split; [|exact (H3 eq_refl)].
  apply (H2 "S3cret"). discriminate.
Defined.

(** X2.  [login] never writes.  It succeeds exactly when some user is
    active and has that email and, compared as it is stored, that
    password; it then answers with the id, name and role of such a user.
    Otherwise, for a deactivated user too, it fails with 401. *)
Theorem login_outcomes (req : LoginRequest.t) (w : World) :
  snd (login req w) = w
  /\ (forall resp, fst (login req w) = Ok resp ->
        exists d, In d (user (db w))
                  /\ User.email (snd d) = LoginRequest.email req
                  /\ User.password_hash (snd d) = LoginRequest.password req
                  /\ User.is_active (snd d) = true
                  /\ resp = LoginResponse.mk (str_oid (fst d)) (User.name (snd d))
                              (User.role (snd d)))
  /\ ((exists d, In d (user (db w))
                 /\ User.email (snd d) = LoginRequest.email req
                 /\ User.password_hash (snd d) = LoginRequest.password req
                 /\ User.is_active (snd d) = true) ->
      exists resp, fst (login req w) = Ok resp)
  /\ (forall e, fst (login req w) = Raise e ->
        e = HTTPException 401 "Invalid credentials").
Proof.
  unfold login. rewrite bind_find_one. cbn [documents c_user].
  assert (Hc : forall d, credentials (LoginRequest.email req) (LoginRequest.password req) d
                         = true
                         <-> User.email (snd d) = LoginRequest.email req
                             /\ User.password_hash (snd d) = LoginRequest.password req
                             /\ User.is_active (snd d) = true).
  { intros d. unfold credentials. rewrite !andb_true_iff, !String.eqb_eq. tauto. }
  destruct (find_one _ (user (db w))) as [[k u]|] eqn:Hf.
  - destruct (find_one_In _ _ _ Hf) as [Hin Hq]. apply Hc in Hq.
    repeat match goal with |- _ /\ _ => split end.
    + reflexivity.
    + intros resp E. injection E as <-. exists (k, u). tauto.
    + intros _. eexists. reflexivity.
    + discriminate.
  - repeat match goal with |- _ /\ _ => split end.
    + reflexivity.
    + discriminate.
    + intros (d & Hin & Hd). exfalso.
      pose proof (find_none _ _ Hf d Hin) as Hq.
      rewrite (proj2 (Hc d) Hd) in Hq. discriminate.
    + intros e E. now injection E as <-.
Qed.

Lemma login_outcomes_witness :
  (exists resp, fst (login (LoginRequest.mk "ana@example.com" "s3cret") ex_world_users)
                = Ok resp)
  /\ fst (login (LoginRequest.mk "bo@example.com" "hunter2") ex_world_users)
     = Raise (HTTPException 401 "Invalid credentials").
Proof.
  split.
  - apply (proj1 (proj2 (proj2
             (login_outcomes (LoginRequest.mk "ana@example.com" "s3cret") ex_world_users)))).
    exists (1%N, User.mk "ana@example.com" "s3cret" "Ana" cashier None true).
    repeat split. now left.
  - destruct (fst (login (LoginRequest.mk "bo@example.com" "hunter2") ex_world_users))
      as [resp|e] eqn:E.
    + discriminate E.
    + f_equal.
      exact (proj2 (proj2 (proj2
               (login_outcomes (LoginRequest.mk "bo@example.com" "hunter2") ex_world_users)))
               e E).
Defined.

(** ** Status updates *)

(** X3.  [update_station_status] fails with 400 on an id that [ObjectId]
    refuses (one that is not a string of 24 characters that
    [bytes.fromhex] reads) and with 404 on one that [ObjectId] takes and
    that no station has, and then writes nothing.  On a stored station it succeeds whatever the old and the new
    status: it sets the status and [updated_at], and leaves
    [current_session_id] and every session as they are, so that a station
    taken out of in-use this way keeps its session, which stays as it was. *)
Theorem update_station_status_outcomes
  (req : UpdateStationStatusRequest.t) (now : string) (w : World) :
  let sid := UpdateStationStatusRequest.station_id req in
  (ObjectId_of_string sid = None ->
   update_station_status req now w = (Raise (HTTPException 400 "Invalid ID"), w))
  /\ (forall k, ObjectId_of_string sid = Some k ->
        find_one (by_id k) (station (db w)) = None ->
        update_station_status req now w
        = (Raise (HTTPException 404 "Station not found"), w))
  /\ (forall k d, ObjectId_of_string sid = Some k ->
        find_one (by_id k) (station (db w)) = Some d ->
        exists w',
          update_station_status req now w = (Ok true, w')
          /\ station (db w')
             = update_one (by_id k)
                 (set_station_status (UpdateStationStatusRequest.status req) now)
                 (station (db w))
          /\ find_one (by_id k) (station (db w'))
             = Some (k, Station.mk (Station.cafe_id (snd d)) (Station.name (snd d))
                          (UpdateStationStatusRequest.status req)
                          (Station.current_session_id (snd d)) (Some now))
          /\ session (db w') = session (db w)).
Proof.
  cbv zeta. repeat match goal with |- _ /\ _ => split end.
  - intros H. unfold update_station_status. apply bind_raise. now apply oid_invalid.
  - intros k Hk Hf. unfold update_station_status.
    rewrite (bind_ok _ _ _ _ _ (oid_valid _ _ w Hk)), bind_find_one.
    cbn [documents c_station]. now rewrite Hf.
  - intros k [k' st] Hk Hf. unfold update_station_status.
    rewrite (bind_ok _ _ _ _ _ (oid_valid _ _ w Hk)), bind_find_one.
    cbn [documents c_station]. rewrite Hf.
    rewrite (bind_ok _ _ _ _ _ (oid_valid _ _ w Hk)).
    unfold bind at 1, db_update_one, modify. cbn [documents replace c_station].
    match goal with
    | |- context [bind (audit ?a ?t ?r ?p ?u ?c) _ ?w0] =>
        destruct (audit_spec a t r p u c w0) as (log & fl & E);
        rewrite (bind_ok _ _ _ _ _ E)
    end.
    eexists. split; [reflexivity|]. cbn [db station session with_auditlog with_station].
    repeat split. now rewrite (find_one_updated _ _ _ _ Hf).
Qed.

Lemma update_station_status_outcomes_witness :
  let w1 := snd (update_station_status
                   (UpdateStationStatusRequest.mk (str_oid 2%N) available) "t" ex_world) in
  find_one (by_id 2%N) (station (db w1))
  = Some (2%N, Station.mk "cafe1" "PS5" available (Some (str_oid 1%N)) (Some "t"))
  /\ session (db w1) = session (db ex_world)
  /\ update_station_status (UpdateStationStatusRequest.mk (str_oid 9%N) offline) "t" ex_world
     = (Raise (HTTPException 404 "Station not found"), ex_world)
  /\ update_station_status (UpdateStationStatusRequest.mk ex_spaced_id offline) "t" ex_world
     = (Raise (HTTPException 404 "Station not found"), ex_world)
  /\ update_station_status (UpdateStationStatusRequest.mk "station-7" offline) "t" ex_world
     = (Raise (HTTPException 400 "Invalid ID"), ex_world).
Proof.
  cbv zeta.
  destruct (update_station_status_outcomes
              (UpdateStationStatusRequest.mk (str_oid 2%N) available) "t" ex_world)
    as (_ & _ & H).
  destruct (H 2%N (2%N, ex_station in_use (Some (str_oid 1%N))) eq_refl eq_refl)
    as (w' & E & _ & Hf & Hs).
  rewrite E. cbn [snd]. split; [exact Hf|]. split; [exact Hs|]. split; [|split].
  - apply (proj1 (proj2 (update_station_status_outcomes
                           (UpdateStationStatusRequest.mk (str_oid 9%N) offline) "t" ex_world))
             9%N); reflexivity.
  - eapply (proj1 (proj2 (update_station_status_outcomes
                            (UpdateStationStatusRequest.mk ex_spaced_id offline) "t"
                            ex_world)));
      reflexivity.
  - apply (proj1 (update_station_status_outcomes
                    (UpdateStationStatusRequest.mk "station-7" offline) "t" ex_world)).
    reflexivity.
Defined.

(** X4.  [update_order_status] enforces no order of the statuses: on a
    stored order it succeeds whatever the old and the new status, a served
    or canceled order going back to pending included, and changes the
    status and [updated_at] only: lines, subtotal, tax and total stay.  It
    fails with 400 on an id that [ObjectId] refuses (one that is not a
    string of 24 characters that [bytes.fromhex] reads) and with 404 on
    one that [ObjectId] takes and that no order has, and then writes
    nothing. *)
Theorem update_order_status_outcomes
  (req : UpdateOrderStatusRequest.t) (now : string) (w : World) :
  let oid_s := UpdateOrderStatusRequest.order_id req in
  (ObjectId_of_string oid_s = None ->
   update_order_status req now w = (Raise (HTTPException 400 "Invalid ID"), w))
  /\ (forall k, ObjectId_of_string oid_s = Some k ->
        find_one (by_id k) (order (db w)) = None ->
        update_order_status req now w
        = (Raise (HTTPException 404 "Order not found"), w))
  /\ (forall k d, ObjectId_of_string oid_s = Some k ->
        find_one (by_id k) (order (db w)) = Some d ->
        exists w' o,
          update_order_status req now w = (Ok true, w')
          /\ find_one (by_id k) (order (db w')) = Some (k, o)
          /\ Order.status o = UpdateOrderStatusRequest.status req
          /\ Order.updated_at o = Some now
          /\ (Order.items o, Order.subtotal o, Order.tax o, Order.total o)
             = (Order.items (snd d), Order.subtotal (snd d), Order.tax (snd d),
                Order.total (snd d))
          /\ order (db w')
             = update_one (by_id k)
                 (set_order_status (UpdateOrderStatusRequest.status req) (Some now))
                 (order (db w))).
Proof.
  cbv zeta. repeat match goal with |- _ /\ _ => split end.
  - intros H. unfold update_order_status. apply bind_raise. now apply oid_invalid.
  - intros k Hk Hf. unfold update_order_status.
    rewrite (bind_ok _ _ _ _ _ (oid_valid _ _ w Hk)), bind_find_one.
    cbn [documents c_order]. now rewrite Hf.
  - intros k [k' o] Hk Hf. unfold update_order_status.
    rewrite (bind_ok _ _ _ _ _ (oid_valid _ _ w Hk)), bind_find_one.
    cbn [documents c_order]. rewrite Hf.
    rewrite (bind_ok _ _ _ _ _ (oid_valid _ _ w Hk)).
    unfold bind at 1, db_update_one, modify. cbn [documents replace c_order].
    match goal with
    | |- context [bind (audit ?a ?t ?r ?p ?u ?c) _ ?w0] =>
        destruct (audit_spec a t r p u c w0) as (log & fl & E);
        rewrite (bind_ok _ _ _ _ _ E)
    end.
    eexists. eexists. split; [reflexivity|]. cbn [db order with_auditlog with_order].
    rewrite (find_one_updated _ _ _ _ Hf). now repeat split.
Qed.

Lemma update_order_status_outcomes_witness :
  let served_order := mkWorld (with_order [(1%N, set_order_status served None ex_order)] ex_db)
                        [] in
  let w1 := snd (update_order_status
                   (UpdateOrderStatusRequest.mk (str_oid 1%N) pending) "t" served_order) in
  (exists o, find_one (by_id 1%N) (order (db w1)) = Some (1%N, o)
             /\ Order.status o = pending /\ Order.total o = f100)
  /\ update_order_status (UpdateOrderStatusRequest.mk (str_oid 9%N) ready) "t" ex_world
     = (Raise (HTTPException 404 "Order not found"), ex_world)
  /\ update_order_status (UpdateOrderStatusRequest.mk ex_spaced_id ready) "t" ex_world
     = (Raise (HTTPException 404 "Order not found"), ex_world)
  /\ update_order_status (UpdateOrderStatusRequest.mk "order-7" ready) "t" ex_world
     = (Raise (HTTPException 400 "Invalid ID"), ex_world).
Proof.
  cbv zeta. split; [|split; [|split]].
  - destruct (update_order_status_outcomes
                (UpdateOrderStatusRequest.mk (str_oid 1%N) pending) "t"
                (mkWorld (with_order [(1%N, set_order_status served None ex_order)] ex_db) []))
      as (_ & _ & H).
    destruct (H 1%N (1%N, set_order_status served None ex_order) eq_refl eq_refl)
      as (w' & o & E & Hf & Hs & _ & Hc & _).
    rewrite E. cbn [snd]. exists o. repeat split; trivial.
    injection Hc as _ _ _ Ht. exact Ht.
  - apply (proj1 (proj2 (update_order_status_outcomes
                           (UpdateOrderStatusRequest.mk (str_oid 9%N) ready) "t" ex_world))
             9%N); reflexivity.
  - eapply (proj1 (proj2 (update_order_status_outcomes
                            (UpdateOrderStatusRequest.mk ex_spaced_id ready) "t" ex_world)));
      reflexivity.
  - apply (proj1 (update_order_status_outcomes
                    (UpdateOrderStatusRequest.mk "order-7" ready) "t" ex_world)).
    reflexivity.
Defined.

(** ** Sessions, one call after another *)

Lemma find_one_fresh {T} (c : Coll T) : find_one (by_id (new_oid c)) c = None.
Proof.
  destruct (find_one (by_id (new_oid c)) c) as [[k x]|] eqn:H; [|reflexivity].
  destruct (find_one_In _ _ _ H) as [Hin _].
  rewrite (find_one_by_id _ _ _ _ H) in Hin. now apply new_oid_fresh in Hin.
Qed.

(** A [start_session] that succeeds found its station, not in use. *)
Lemma start_session_ok req now w sid w1 :
  start_session req now w = (Ok sid, w1) ->
  exists k d,
    ObjectId_of_string (StartSessionRequest.station_id req) = Some k
    /\ find_one (by_id k) (station (db w)) = Some d
    /\ Station.status (snd d) <> in_use.
Proof.
  unfold start_session, bind at 1, oid.
  destruct (ObjectId_of_string (StartSessionRequest.station_id req)) as [k|]; [|discriminate].
  cbn [ret]. rewrite bind_find_one. cbn [documents c_station].
  destruct (find_one (by_id k) (station (db w))) as [[k' st]|] eqn:Hf; [|discriminate].
  destruct (StationStatus_eqb (Station.status st) in_use) eqn:Hs; [discriminate|].
  intros _. exists k, (k', st). split; [reflexivity|]. split; [exact Hf|].
  cbn [snd]. intros E. rewrite E in Hs. discriminate.
Qed.

(** X5.  Once [start_session] has succeeded on a station, a further
    [start_session] on that station, whatever the cafe and the customer,
    fails with Conflict (409) and writes nothing. *)
Theorem start_session_twice
  (req again : StartSessionRequest.t) (now now' : string) (w w1 : World) (sid : string) :
  start_session req now w = (Ok sid, w1) ->
  StartSessionRequest.station_id again = StartSessionRequest.station_id req ->
  start_session again now' w1 = (Raise (HTTPException 409 "Station already in use"), w1).
Proof.
  intros H Hs. destruct (start_session_ok _ _ _ _ _ H) as (k & d & Hk & Hf & Hst).
  destruct (start_session_free req now w k d Hk Hf Hst)
    as (w' & s & E & _ & _ & _ & _ & _ & _ & _ & _ & Hf' & _).
  rewrite E in H. injection H as <- <-.
  unfold start_session. rewrite Hs.
  rewrite (bind_ok _ _ _ _ _ (oid_valid _ _ w' Hk)), bind_find_one.
  cbn [documents c_station]. rewrite Hf'. reflexivity.
Qed.

Lemma start_session_twice_witness :
  let req := StartSessionRequest.mk "cafe1" (str_oid 1%N) None in
  let w1 := snd (start_session req "t1" ex_world) in
  start_session (StartSessionRequest.mk "cafe2" (str_oid 1%N) (Some "Bo")) "t2" w1
  = (Raise (HTTPException 409 "Station already in use"), w1).
Proof.
  cbv zeta.
  apply (start_session_twice (StartSessionRequest.mk "cafe1" (str_oid 1%N) None)
           (StartSessionRequest.mk "cafe2" (str_oid 1%N) (Some "Bo")) "t1" "t2" ex_world
           (snd (start_session (StartSessionRequest.mk "cafe1" (str_oid 1%N) None) "t1"
                   ex_world))
           (str_oid 3%N)); reflexivity.
Defined.

Lemma bind_update {T B} (c : Collection T) q f (k : unit -> M B) w :
  bind (db_update_one c q f) k w
  = k tt (mkWorld (replace c (update_one q f (documents c (db w))) (db w)) (audit_faults w)).
Proof. reflexivity. Qed.

(** An [end_session] that goes all the way. *)
Lemma end_session_ends req now w k d ks :
  ObjectId_of_string (EndSessionRequest.session_id req) = Some k ->
  find_one (by_id k) (session (db w)) = Some d ->
  Session.status (snd d) <> ended ->
  ObjectId_of_string (Session.station_id (snd d)) = Some ks ->
  exists log fl,
    end_session req now w
    = (Ok true,
       mkWorld
         (with_auditlog log
            (with_station
               (update_one (by_id ks) (set_station_session available None) (station (db w)))
               (with_session
                  (update_one (by_id k) (set_session_ended now) (session (db w))) (db w))))
         fl).
Proof.
  intros Hk Hf Hs Hks. destruct d as [k' sess]. cbn [snd] in *.
  assert (Hb : SessionStatus_eqb (Session.status sess) ended = false).
  { destruct (SessionStatus_eqb (Session.status sess) ended) eqn:E; [|reflexivity].
    apply SessionStatus_eqb_eq in E. contradiction. }
  unfold end_session.
  rewrite (bind_ok _ _ _ _ _ (oid_valid _ _ w Hk)), bind_find_one.
  cbn [documents c_session]. rewrite Hf, Hb.
  rewrite (bind_ok _ _ _ _ _ (oid_valid _ _ w Hk)).
  rewrite bind_update. cbn [documents replace c_session].
  match goal with
  | |- context [bind (oid _) _ ?w0] => rewrite (bind_ok _ _ _ _ _ (oid_valid _ _ w0 Hks))
  end.
  rewrite bind_update. cbn [documents replace c_station db].
  match goal with
  | |- context [bind (audit ?a ?t ?r ?p ?u ?c) _ ?w0] =>
      destruct (audit_spec a t r p u c w0) as (log & fl & E);
      rewrite (bind_ok _ _ _ _ _ E)
  end.
  exists log, fl. reflexivity.
Qed.

(** X6.  A session started and then ended with the id that
    [start_session] returned: [end_session] succeeds, the session is
    ended with its end timestamp, and the station is available again with
    [current_session_id] cleared and its other fields as before the
    start.  (The identifier generated has to fit the 12 bytes of an
    [ObjectId].) *)
Theorem start_then_end_session
  (req : StartSessionRequest.t) (now now' : string) (w w1 : World) (sid : string) :
  start_session req now w = (Ok sid, w1) ->
  (new_oid (session (db w)) < 16 ^ 24)%N ->
  exists k st w2 s,
    ObjectId_of_string (StartSessionRequest.station_id req) = Some k
    /\ find_one (by_id k) (station (db w)) = Some (k, st)
    /\ end_session (EndSessionRequest.mk sid) now' w1 = (Ok true, w2)
    /\ find_one (by_id (new_oid (session (db w)))) (session (db w2))
       = Some (new_oid (session (db w)), s)
    /\ Session.status s = ended
    /\ Session.started_at s = Some now
    /\ Session.ended_at s = Some now'
    /\ find_one (by_id k) (station (db w2))
       = Some (k, Station.mk (Station.cafe_id st) (Station.name st) available None
                    (Station.updated_at st)).
Proof.
  intros H Hsmall. destruct (start_session_ok _ _ _ _ _ H) as (k & [k' st] & Hk & Hf & Hst).
  assert (k' = k) by (eapply find_one_by_id; eauto). subst k'.
  destruct (start_session_free req now w k (k, st) Hk Hf Hst)
    as (w' & s & E & Hsess & Hact & Hstart & Hend & Hsid & _ & _ & _ & Hf' & _).
  rewrite E in H. injection H as <- <-.
  set (new := new_oid (session (db w))) in *.
  assert (Hfs : find_one (by_id new) (session (db w')) = Some (new, s)).
  { rewrite Hsess.
    rewrite (find_one_app_none (by_id new) (session (db w)) _
               (find_one_fresh (session (db w)))).
    cbn [find_one find].
    unfold by_id. cbn [fst]. now rewrite N.eqb_refl. }
  assert (Hparse : ObjectId_of_string (EndSessionRequest.session_id
                                         (EndSessionRequest.mk (str_oid new))) = Some new)
    by (now apply ObjectId_of_string_str_oid).
  assert (Hne : Session.status (snd (new, s)) <> ended)
    by (cbn [snd]; rewrite Hact; discriminate).
  assert (Hks : ObjectId_of_string (Session.station_id (snd (new, s))) = Some k)
    by (cbn [snd]; now rewrite Hsid).
  destruct (end_session_ends _ now' w' new (new, s) k Hparse Hfs Hne Hks)
    as (log & fl & E2).
  exists k, st. eexists. exists (set_session_ended now' s).
  split; [exact Hk|]. split; [exact Hf|]. split; [exact E2|].
  cbn [db session station with_auditlog with_station with_session].
  rewrite (find_one_updated _ _ _ _ Hfs), (find_one_updated _ _ _ _ Hf').
  cbn [snd]. now repeat split.
Qed.

Lemma start_then_end_session_witness :
  let req := StartSessionRequest.mk "cafe1" (str_oid 1%N) None in
  let w1 := snd (start_session req "t1" ex_world) in
  exists w2,
    end_session (EndSessionRequest.mk (str_oid 3%N)) "t2" w1 = (Ok true, w2)
    /\ find_one (by_id 1%N) (station (db w2)) = Some (1%N, ex_station available None).
Proof.
  cbv zeta.
  destruct (start_then_end_session (StartSessionRequest.mk "cafe1" (str_oid 1%N) None)
              "t1" "t2" ex_world
              (snd (start_session (StartSessionRequest.mk "cafe1" (str_oid 1%N) None) "t1"
                      ex_world))
              (str_oid 3%N) eq_refl eq_refl)
    as (k & st & w2 & s & Hk & Hf & E & _ & _ & _ & _ & Hst).
  exists w2. split; [exact E|].
  injection Hk as <-. injection Hf as <-. exact Hst.
Defined.

(** ** Checkout, its failures and its retries *)

Lemma bind_ret {A B} (a : A) (k : A -> M B) w : bind (ret a) k w = k a w.
Proof. reflexivity. Qed.

Lemma close_session_raises sid now w e :
  fst (close_session sid now w) = Raise e -> e = HTTPException 400 "Invalid ID".
Proof.
  unfold close_session. destruct sid as [s|]; [|discriminate].
  destruct (truthy s); [|discriminate].
  unfold bind at 1, oid.
  destruct (ObjectId_of_string s) as [k|]; [|intros H; now injection H as <-].
  cbn [ret]. rewrite bind_find_one.
  destruct (find_one _ _) as [[k' sess]|]; [|discriminate].
  destruct (negb _); [|discriminate].
  rewrite bind_ret, bind_update. unfold bind at 1, oid.
  destruct (ObjectId_of_string (Session.station_id sess));
    [|intros H; now injection H as <-].
  cbn [ret]. rewrite bind_update.
  match goal with
  | |- context [audit ?a ?t ?r ?p ?u ?c ?w0] =>
      destruct (audit_spec a t r p u c w0) as (log & fl & E); rewrite E
  end.
  discriminate.
Qed.

Lemma serve_order_raises o w e :
  fst (serve_order o w) = Raise e -> e = HTTPException 400 "Invalid ID".
Proof.
  unfold serve_order. destruct o as [s|]; [|discriminate].
  destruct (truthy s); [|discriminate].
  unfold bind at 1, oid.
  destruct (ObjectId_of_string s) as [k|]; [|intros H; now injection H as <-].
  cbn [ret]. rewrite bind_update.
  match goal with
  | |- context [audit ?a ?t ?r ?p ?u ?c ?w0] =>
      destruct (audit_spec a t r p u c w0) as (log & fl & E); rewrite E
  end.
  discriminate.
Qed.

(** X7.  A checkout that is no replay records its payment before
    anything else: when it then fails, the failure is 400 "Invalid ID",
    raised for an id that is not well-formed, and the payment stays
    recorded with status success.  A retry with the same idempotency key,
    with the ids corrected or not, is therefore taken for a replay: it
    answers success with the id of that payment and touches neither
    session nor order. *)
Theorem checkout_failure_then_retry
  (req retry : CheckoutRequest.t) (now now' : string) (w : World) (e : Exn) :
  find_one (paid_with (CheckoutRequest.idempotency_key req)) (payment (db w)) = None ->
  ge0 (CheckoutRequest.amount req) = true ->
  fst (checkout req now w) = Raise e ->
  CheckoutRequest.idempotency_key retry = CheckoutRequest.idempotency_key req ->
  let w1 := snd (checkout req now w) in
  let pid := new_oid (payment (db w)) in
  e = HTTPException 400 "Invalid ID"
  /\ payment (db w1) = payment (db w) ++ [(pid, payment_of req)]
  /\ checkout retry now' w1 = (Ok (str_oid pid, success), w1).
Proof.
  intros Hf Hv He Hkey. cbv zeta.
  assert (Hp : payment (db (snd (checkout req now w)))
               = payment (db w) ++ [(new_oid (payment (db w)), payment_of req)]).
  { rewrite (checkout_fresh req now w Hf Hv). cbv zeta.
    match goal with
    | |- context [bind ?m ?k ?w0] =>
        assert (P : preserves payment (bind m k)) by frame; now rewrite (P w0)
    end. }
  split; [|split; [exact Hp|]].
  - rewrite (checkout_fresh req now w Hf Hv) in He. cbv zeta in He.
    revert He. unfold bind at 1.
    destruct (close_session _ _ _) as [[u|e1] w2] eqn:E1.
    + unfold bind at 1. destruct (serve_order _ _) as [[u'|e2] w3] eqn:E2.
      * match goal with
        | |- context [bind (audit ?a ?t ?r ?p ?u0 ?c) _ ?w0] =>
            destruct (audit_spec a t r p u0 c w0) as (log & fl & E3);
            rewrite (bind_ok _ _ _ _ _ E3)
        end.
        discriminate.
      * intros H. injection H as <-.
        apply (serve_order_raises (CheckoutRequest.order_id req) w2). now rewrite E2.
    + intros H. injection H as <-.
      eapply close_session_raises. now rewrite E1.
  - apply (checkout_replayed retry now' _ (new_oid (payment (db w)), payment_of req)).
    rewrite Hkey, Hp. apply find_one_app_new; [exact Hf|].
    apply paid_with_spec. now split.
Qed.

Lemma checkout_failure_then_retry_witness :
  let req := CheckoutRequest.mk "cafe1" None (Some "order-1") f100 cash "key-2" in
  let retry := CheckoutRequest.mk "cafe1" None (Some (str_oid 1%N)) f100 cash "key-2" in
  let w1 := snd (checkout req "t1" ex_world) in
  fst (checkout req "t1" ex_world) = Raise (HTTPException 400 "Invalid ID")
  /\ checkout retry "t2" w1 = (Ok (str_oid 2%N, success), w1)
  /\ find_one (by_id 1%N) (order (db (snd (checkout retry "t2" w1)))) = Some (1%N, ex_order).
Proof.
  cbv zeta.
  destruct (checkout_failure_then_retry
              (CheckoutRequest.mk "cafe1" None (Some "order-1") f100 cash "key-2")
              (CheckoutRequest.mk "cafe1" None (Some (str_oid 1%N)) f100 cash "key-2")
              "t1" "t2" ex_world (HTTPException 400 "Invalid ID")
              eq_refl eq_refl eq_refl eq_refl) as (_ & _ & H).
  split; [reflexivity|]. split; [exact H|]. rewrite H. reflexivity.
Defined.

(** X8.  [checkout] never answers 404.  With a session id and an order id
    that are well-formed but that no session and no order has, a checkout
    that is no replay succeeds all the same: it records the payment, which
    keeps the two ids as given, and leaves sessions, stations and orders
    as they are. *)
Theorem checkout_dangling_references
  (req : CheckoutRequest.t) (now : string) (w : World)
  (s o : string) (ks ko : ObjectId) :
  find_one (paid_with (CheckoutRequest.idempotency_key req)) (payment (db w)) = None ->
  ge0 (CheckoutRequest.amount req) = true ->
  CheckoutRequest.session_id req = Some s ->
  ObjectId_of_string s = Some ks ->
  find_one (by_id ks) (session (db w)) = None ->
  CheckoutRequest.order_id req = Some o ->
  ObjectId_of_string o = Some ko ->
  find_one (by_id ko) (order (db w)) = None ->
  exists w1 p,
    checkout req now w = (Ok (str_oid (new_oid (payment (db w))), success), w1)
    /\ payment (db w1) = payment (db w) ++ [(new_oid (payment (db w)), p)]
    /\ Payment.session_id p = Some s
    /\ Payment.order_id p = Some o
    /\ Payment.status p = success
    /\ (session (db w1), station (db w1), order (db w1))
       = (session (db w), station (db w), order (db w)).
Proof.
  intros Hf Hv Hs Hks Hfs Ho Hko Hfo.
  rewrite (checkout_fresh req now w Hf Hv). cbv zeta. rewrite Hs, Ho.
  set (wa := mkWorld _ (audit_faults w)).
  assert (E1 : close_session (Some s) now wa = (Ok tt, wa)).
  { unfold close_session. rewrite (truthy_parsed _ _ Hks).
    rewrite (bind_ok _ _ _ _ _ (oid_valid _ _ wa Hks)), bind_find_one.
    cbn [documents c_session]. unfold wa. cbn [db session with_payment].
    now rewrite Hfs. }
  rewrite (bind_ok _ _ _ _ _ E1).
  destruct (serve_order_serves o ko wa Hko) as (log & fl & E2).
  rewrite (bind_ok _ _ _ _ _ E2).
  match goal with
  | |- context [bind (audit ?a ?t ?r ?p ?u ?c) _ ?w0] =>
      destruct (audit_spec a t r p u c w0) as (log' & fl' & E3);
      rewrite (bind_ok _ _ _ _ _ E3)
  end.
  eexists. exists (payment_of req). split; [reflexivity|].
  unfold wa. cbn [db payment session station order with_auditlog with_order with_payment].
  rewrite (update_one_none _ _ _ Hfo). now repeat split.
Qed.

Lemma checkout_dangling_references_witness :
  exists w1,
    checkout (CheckoutRequest.mk "cafe1" (Some (str_oid 8%N)) (Some (str_oid 9%N)) f100 card
                "key-2") "t" ex_world
    = (Ok (str_oid 2%N, success), w1)
    /\ (session (db w1), station (db w1), order (db w1))
       = (session (db ex_world), station (db ex_world), order (db ex_world)).
Proof.
  destruct (checkout_dangling_references
              (CheckoutRequest.mk "cafe1" (Some (str_oid 8%N)) (Some (str_oid 9%N)) f100 card
                 "key-2") "t" ex_world (str_oid 8%N) (str_oid 9%N) 8%N 9%N
              eq_refl eq_refl eq_refl eq_refl eq_refl eq_refl eq_refl eq_refl)
    as (w1 & p & E & _ & _ & _ & _ & H).
  exists w1. split; [exact E|exact H].
Defined.

(** ** Settings written and read back *)

Lemma find_one_replaced c k x s (l : Coll Settings.t) :
  Settings.cafe_id s = c ->
  find_one (of_cafe c) l = Some (k, x) ->
  find_one (of_cafe c) (update_one (by_id k) (fun _ => s) l) = Some (k, s).
Proof.
  intros Hc. induction l as [|d l IH]; simpl; [discriminate|].
  destruct (by_id k d) eqn:Hk.
  - intros _. simpl. unfold of_cafe at 1. cbn [snd]. rewrite Hc, String.eqb_refl.
    unfold by_id in Hk. apply N.eqb_eq in Hk. now rewrite Hk.
  - destruct (of_cafe c d) eqn:Hd.
    + intros E. injection E as ->. unfold by_id in Hk. cbn [fst] in Hk.
      now rewrite N.eqb_refl in Hk.
    + intros E. simpl. rewrite Hd. now apply IH.
Qed.

(** What [update_settings] leaves in the settings. *)
Lemma update_settings_spec s w :
  exists w1,
    update_settings s w = (Ok true, w1)
    /\ settings (db w1)
       = match find_one (of_cafe (Settings.cafe_id s)) (settings (db w)) with
         | Some (k, _) => update_one (by_id k) (fun _ => s) (settings (db w))
         | None => settings (db w) ++ [(new_oid (settings (db w)), s)]
         end.
Proof.
  unfold update_settings. rewrite bind_find_one. cbn [documents c_settings].
  destruct (find_one (of_cafe (Settings.cafe_id s)) (settings (db w))) as [[k x]|] eqn:Hf.
  - unfold bind at 1. rewrite bind_update. cbn [ret documents replace c_settings].
    match goal with
    | |- context [bind (audit ?a ?t ?r ?p ?u ?c) _ ?w0] =>
        destruct (audit_spec a t r p u c w0) as (log & fl & E);
        rewrite (bind_ok _ _ _ _ _ E)
    end.
    eexists. split; reflexivity.
  - rewrite bind_create. cbn [documents replace c_settings].
    match goal with
    | |- context [bind (audit ?a ?t ?r ?p ?u ?c) _ ?w0] =>
        destruct (audit_spec a t r p u c w0) as (log & fl & E);
        rewrite (bind_ok _ _ _ _ _ E)
    end.
    eexists. split; reflexivity.
Qed.

(** X9.  [update_settings] always succeeds, and what it has written is
    what is read afterwards: [get_settings] for that cafe answers with
    exactly these settings and writes nothing, and [create_order] for that
    cafe works with this tax rate.  A cafe that had settings keeps one
    record, a cafe that had none gets one. *)
Theorem update_settings_round_trip (s : Settings.t) (keeps_id : bool) (w : World) :
  let w1 := snd (update_settings s w) in
  fst (update_settings s w) = Ok true
  /\ fields_of (fst (get_settings keeps_id (Settings.cafe_id s) w1)) = Some s
  /\ snd (get_settings keeps_id (Settings.cafe_id s) w1) = w1
  /\ tax_rate_of (db w1) (Settings.cafe_id s) = Settings.tax_rate s
  /\ List.length (settings (db w1))
     = match find_one (of_cafe (Settings.cafe_id s)) (settings (db w)) with
       | Some _ => List.length (settings (db w))
       | None => S (List.length (settings (db w)))
       end.
Proof.
  cbv zeta. destruct (update_settings_spec s w) as (w1 & E & Hs). rewrite E.
  cbn [fst snd].
  assert (Hf : exists k, find_one (of_cafe (Settings.cafe_id s)) (settings (db w1))
                         = Some (k, s)).
  { rewrite Hs.
    destruct (find_one (of_cafe (Settings.cafe_id s)) (settings (db w))) as [[k x]|] eqn:Hf.
    - exists k. now apply (find_one_replaced _ _ x).
    - eexists. apply find_one_app_new; [exact Hf|]. unfold of_cafe. cbn [snd].
      apply String.eqb_refl. }
  destruct Hf as [k Hf].
  split; [reflexivity|]. split; [|split; [|split]].
  - unfold get_settings. rewrite bind_find_one. cbn [documents c_settings].
    now rewrite Hf.
  - unfold get_settings. rewrite bind_find_one. cbn [documents c_settings].
    now rewrite Hf.
  - unfold tax_rate_of. now rewrite Hf.
  - rewrite Hs.
    destruct (find_one (of_cafe (Settings.cafe_id s)) (settings (db w))) as [[k' x]|].
    + apply update_one_length.
    + rewrite length_app. simpl. lia.
Qed.

(** ** Menu items and orders *)

Lemma menu_item_of_new d mi q client_price log :
  (new_oid (menuitem d) < 16 ^ 24)%N ->
  menu_item_of
    (with_auditlog log (with_menuitem (menuitem d ++ [(new_oid (menuitem d), mi)]) d))
    (line (str_oid (new_oid (menuitem d))) q client_price)
  = Some (new_oid (menuitem d), mi).
Proof.
  intros Hsmall. unfold menu_item_of, line.
  cbn [Line.item_id menuitem with_auditlog with_menuitem].
  rewrite (ObjectId_of_string_str_oid _ Hsmall).
  rewrite (find_one_app_none _ _ _ (find_one_fresh (menuitem d))).
  cbn [find_one find]. unfold by_id. cbn [fst]. now rewrite N.eqb_refl.
Qed.

(** X10.  A menu item created by [create_menu_item] can be ordered at
    once under the id returned: a line with that id and a quantity above 0
    is valid and is priced at the price the item was created with, which
    is 0 or more; the item is stored active.  (The identifier generated has
    to fit the 12 bytes of an [ObjectId].) *)
Theorem create_menu_item_then_order
  (req : CreateMenuItemRequest.t) (w w1 : World) (mid : string)
  (q : Z) (client_price : option float) :
  create_menu_item req w = (Ok mid, w1) ->
  (new_oid (menuitem (db w)) < 16 ^ 24)%N ->
  0 < q ->
  let it := line mid (Some q) client_price in
  let mi := MenuItem.mk (CreateMenuItemRequest.cafe_id req) (CreateMenuItemRequest.name req)
              (CreateMenuItemRequest.category req) (CreateMenuItemRequest.price req)
              (CreateMenuItemRequest.sku req) true in
  ge0 (CreateMenuItemRequest.price req) = true
  /\ menu_item_of (db w1) it = Some (new_oid (menuitem (db w)), mi)
  /\ line_valid (db w1) it = true
  /\ (forall y, float_of_Z q = Some y ->
        line_item (db w1) it
        = Some (OrderItem.mk mid (CreateMenuItemRequest.name req) q
                  (CreateMenuItemRequest.price req)
                  (fmul (CreateMenuItemRequest.price req) y))).
Proof.
  intros H Hsmall Hq. cbv zeta. revert H. unfold create_menu_item.
  rewrite bind_validate.
  destruct (ge0 (CreateMenuItemRequest.price req)) eqn:Hv; [|discriminate].
  rewrite bind_create. cbn [documents replace c_menuitem].
  match goal with
  | |- context [bind (audit ?a ?t ?r ?p ?u ?c) _ ?w0] =>
      destruct (audit_spec a t r p u c w0) as (log & fl & E);
      rewrite (bind_ok _ _ _ _ _ E)
  end.
  intros H. injection H as <- <-. cbn [db].
  pose proof (menu_item_of_new (db w)
                (MenuItem.mk (CreateMenuItemRequest.cafe_id req)
                   (CreateMenuItemRequest.name req) (CreateMenuItemRequest.category req)
                   (CreateMenuItemRequest.price req) (CreateMenuItemRequest.sku req) true)
                (Some q) client_price log Hsmall) as Hm.
  split; [reflexivity|]. split; [exact Hm|]. split.
  - unfold line_valid. rewrite Hm. cbn [MenuItem.is_active andb].
    change (quantity (line (str_oid (new_oid (menuitem (db w)))) (Some q) client_price))
      with (Ok q : Result Z).
    now apply Z.ltb_lt.
  - intros y Hy. unfold line_item. rewrite Hm.
    change (quantity (line (str_oid (new_oid (menuitem (db w)))) (Some q) client_price))
      with (Ok q : Result Z).
    cbv beta iota. now rewrite Hy.
Qed.

Lemma create_menu_item_then_order_witness :
  let req := CreateMenuItemRequest.mk "cafe1" "Latte" f50 None None in
  let w1 := snd (create_menu_item req ex_world) in
  line_valid (db w1) (line (str_oid 4%N) (Some 2) None) = true
  /\ line_item (db w1) (line (str_oid 4%N) (Some 2) None)
     = Some (OrderItem.mk (str_oid 4%N) "Latte" 2 f50 f100).
Proof.
  cbv zeta.
  destruct (create_menu_item_then_order
              (CreateMenuItemRequest.mk "cafe1" "Latte" f50 None None) ex_world
              (snd (create_menu_item (CreateMenuItemRequest.mk "cafe1" "Latte" f50 None None)
                      ex_world))
              (str_oid 4%N) 2 None eq_refl eq_refl eq_refl) as (_ & _ & Hv & Hi).
  split; [exact Hv|]. exact (Hi (decimal 2 1) eq_refl).
Defined.

(** X11.  [create_order] checks neither the session nor the station it is
    given: with any other session id, station id and notes, ids of no
    session or station and ill-formed ones included, it gives the same
    answer, the same order id and total or the same error; the order it
    stores carries the ids as given, and sessions and stations are left
    as they are. *)
Theorem create_order_ignores_references
  (req : CreateOrderRequest.t) (session_id station_id notes : option string) (w : World) :
  let req' := CreateOrderRequest.mk (CreateOrderRequest.cafe_id req) session_id station_id
                (CreateOrderRequest.items req) notes in
  fst (create_order req' w) = fst (create_order req w)
  /\ (forall r w', create_order req' w = (Ok r, w') ->
        exists k o,
          order (db w') = order (db w) ++ [(k, o)]
          /\ Order.session_id o = session_id
          /\ Order.station_id o = station_id
          /\ session (db w') = session (db w)
          /\ station (db w') = station (db w)).
Proof.
  cbv zeta. split.
  - unfold create_order.
    cbn [CreateOrderRequest.items CreateOrderRequest.cafe_id CreateOrderRequest.session_id
         CreateOrderRequest.station_id CreateOrderRequest.notes].
    destruct (CreateOrderRequest.items req) as [|it rest]; [reflexivity|].
    unfold bind at 1 6.
    destruct (price_lines (it :: rest) [] f0 w) as [[[items subtotal]|e] w1]; [|reflexivity].
    rewrite !bind_find_one, !bind_validate.
    match goal with |- fst (if ?b then _ else _) = _ => destruct b end; [|reflexivity].
    rewrite !bind_create.
    repeat match goal with
    | |- context [bind (audit ?a ?t ?r ?p ?u ?c) _ ?w0] =>
        destruct (audit_spec a t r p u c w0) as (? & ? & E);
        rewrite (bind_ok _ _ _ _ _ E); clear E
    end.
    reflexivity.
  - intros r w' H.
    destruct (create_order_inv _ w r w' H) as (new & _ & _ & _ & _ & Ho & Hd).
    eexists. eexists. split; [exact Ho|].
    assert (Hse : session (db w') = session (db w))
      by exact (f_equal (fun t => snd (fst (fst (fst (fst t))))) Hd).
    assert (Hst : station (db w') = station (db w))
      by exact (f_equal (fun t => snd (fst (fst (fst (fst (fst t)))))) Hd).
    now repeat split.
Qed.

Lemma create_order_ignores_references_witness :
  exists w' k o,
    create_order
      (CreateOrderRequest.mk "cafe1" (Some "no such session") (Some (str_oid 9%N))
         (CreateOrderRequest.items ex_order_request) None) ex_world
    = (Ok (str_oid 2%N, f262_5), w')
    /\ order (db w') = order (db ex_world) ++ [(k, o)]
    /\ Order.session_id o = Some "no such session".
Proof.
  destruct (create_order_ignores_references ex_order_request (Some "no such session")
              (Some (str_oid 9%N)) None ex_world) as [Hr Hs].
  cbv zeta in Hr, Hs.
  destruct (create_order _ ex_world) as [r w'] eqn:E in Hr, Hs.
  assert (Hres : r = Ok (str_oid 2%N, f262_5)).
  { cbn [fst] in Hr. rewrite Hr. vm_compute. reflexivity. }
  subst r. destruct (Hs _ _ eq_refl) as (k & o & Ho & Hse & _).
  exists w', k, o. repeat split; trivial.
Defined.

(** ** Lists and the dashboard *)

Lemma listing_app {T} (q : ObjectId * T -> bool) (c t : Coll T) :
  listing q (c ++ t) = listing q c ++ listing q t.
Proof. unfold listing. now rewrite filter_app, map_app. Qed.

Lemma cafe_query_spec {T} (cafe_of : T -> string) (cafe_id : option string) d :
  cafe_query cafe_of cafe_id d = true
  <-> (cafe_id = None \/ cafe_id = Some "" \/ cafe_id = Some (cafe_of (snd d))).
Proof.
  unfold cafe_query, truthy. destruct cafe_id as [c|]; [|tauto].
  destruct (String.eqb_spec c "") as [->|Hc]; cbn [negb].
  - tauto.
  - rewrite String.eqb_eq. split.
    + intros ->. now repeat right.
    + intros [H|[H|H]]; try discriminate; injection H as ->; [contradiction|reflexivity].
Qed.

(** X12.  A station or a menu item just created comes last in the list of
    its cafe and in the list asked without a cafe (or with the empty
    string for one), under the id that was returned; the list of any other
    cafe is what it was.  Listing writes nothing. *)
Theorem created_documents_are_listed (cafe_id : option string) (w : World) :
  (forall st,
     let w1 := snd (create_station st w) in
     let new := str_oid (new_oid (station (db w))) in
     exists old,
       fetch_stations cafe_id w = (Ok old, w)
       /\ fst (create_station st w) = Ok new
       /\ fetch_stations cafe_id w1
          = (Ok (if cafe_query Station.cafe_id cafe_id (new_oid (station (db w)), st)
                 then old ++ [(new, st)] else old), w1))
  /\ (forall req mid w1,
        create_menu_item req w = (Ok mid, w1) ->
        let mi := MenuItem.mk (CreateMenuItemRequest.cafe_id req)
                    (CreateMenuItemRequest.name req) (CreateMenuItemRequest.category req)
                    (CreateMenuItemRequest.price req) (CreateMenuItemRequest.sku req) true in
        exists old,
          fetch_menu cafe_id w = (Ok old, w)
          /\ fetch_menu cafe_id w1
             = (Ok (if cafe_query MenuItem.cafe_id cafe_id (new_oid (menuitem (db w)), mi)
                    then old ++ [(mid, mi)] else old), w1))
  /\ (forall (T : Type) (cafe_of : T -> string) (d : ObjectId * T),
        cafe_query cafe_of cafe_id d = true
        <-> (cafe_id = None \/ cafe_id = Some "" \/ cafe_id = Some (cafe_of (snd d)))).
Proof.
  repeat match goal with |- _ /\ _ => split end.
  - intros st. cbv zeta. eexists. split; [reflexivity|].
    unfold create_station. rewrite bind_create. cbn [documents replace c_station].
    match goal with
    | |- context [bind (audit ?a ?t ?r ?p ?u ?c) _ ?w0] =>
        destruct (audit_spec a t r p u c w0) as (log & fl & E);
        rewrite (bind_ok _ _ _ _ _ E)
    end.
    split; [reflexivity|]. unfold fetch_stations, gets.
    cbn [ret fst snd db station with_auditlog with_station].
    rewrite listing_app. unfold listing at 2. cbn [filter].
    destruct (cafe_query Station.cafe_id cafe_id (new_oid (station (db w)), st));
      [reflexivity|]. cbn [map]. now rewrite app_nil_r.
  - intros req mid w1. unfold create_menu_item. rewrite bind_validate.
    destruct (ge0 (CreateMenuItemRequest.price req)); [|discriminate].
    rewrite bind_create. cbn [documents replace c_menuitem].
    match goal with
    | |- context [bind (audit ?a ?t ?r ?p ?u ?c) _ ?w0] =>
        destruct (audit_spec a t r p u c w0) as (log & fl & E);
        rewrite (bind_ok _ _ _ _ _ E)
    end.
    intros H. injection H as <- <-. cbv zeta. eexists.
    split; [reflexivity|]. unfold fetch_menu, gets.
    cbn [db menuitem with_auditlog with_menuitem].
    rewrite listing_app. unfold listing at 2. cbn [filter].
    match goal with |- context [if ?b then _ else _] => destruct b end;
      [reflexivity|]. cbn [map]. now rewrite app_nil_r.
  - intros T cafe_of d. apply cafe_query_spec.
Qed.

Lemma created_documents_are_listed_witness :
  let req := CreateMenuItemRequest.mk "cafe2" "Latte" f50 None None in
  let w1 := snd (create_menu_item req ex_world) in
  fst (fetch_menu (Some "cafe2") w1)
  = Ok [(str_oid 4%N, MenuItem.mk "cafe2" "Latte" None f50 None true)]
  /\ fst (fetch_menu (Some "cafe1") w1) = fst (fetch_menu (Some "cafe1") ex_world).
Proof.
  cbv zeta.
  destruct (proj1 (proj2 (created_documents_are_listed (Some "cafe2") ex_world))
              (CreateMenuItemRequest.mk "cafe2" "Latte" f50 None None) (str_oid 4%N)
              (snd (create_menu_item (CreateMenuItemRequest.mk "cafe2" "Latte" f50 None None)
                      ex_world))
              eq_refl) as (old2 & Ho2 & H2).
  destruct (proj1 (proj2 (created_documents_are_listed (Some "cafe1") ex_world))
              (CreateMenuItemRequest.mk "cafe2" "Latte" f50 None None) (str_oid 4%N)
              (snd (create_menu_item (CreateMenuItemRequest.mk "cafe2" "Latte" f50 None None)
                      ex_world))
              eq_refl) as (old1 & Ho1 & H1).
  rewrite H2, H1, Ho1. cbn [fst].
  assert (E : old2 = []) by (vm_compute in Ho2; congruence). subst old2.
  split; reflexivity.
Defined.

Lemma filter_update_one {T} (q p : ObjectId * T -> bool) (f : T -> T) (c : Coll T) :
  (forall d, p (fst d, f (snd d)) = p d) ->
  List.length (filter p (update_one q f c)) = List.length (filter p c).
Proof.
  intros H. induction c as [|d c IH]; simpl; [reflexivity|].
  destruct (q d); simpl.
  - rewrite H. now destruct (p d).
  - destruct (p d); simpl; now rewrite IH.
Qed.

Lemma sum_amounts_app ps p :
  sum_amounts (ps ++ [p]) = fadd (sum_amounts ps) (Payment.amount (snd p)).
Proof. unfold sum_amounts. now rewrite map_app, fold_left_app. Qed.

(** * The store over time *)

(** ** Collections that only grow *)

Lemma extends_by_refl {T} (r : T -> T -> Prop) (c : Coll T) :
  (forall x, r x x) -> extends_by r c c.
Proof.
  intros Hr. exists c, []. split; [now rewrite app_nil_r|].
  induction c; constructor; auto.
Qed.

Lemma Forall2_kept_trans {T} (r : T -> T -> Prop) :
  (forall x y z, r x y -> r y z -> r x z) ->
  forall a b c : Coll T,
    Forall2 (fun d d' => fst d' = fst d /\ r (snd d) (snd d')) a b ->
    Forall2 (fun d d' => fst d' = fst d /\ r (snd d) (snd d')) b c ->
    Forall2 (fun d d' => fst d' = fst d /\ r (snd d) (snd d')) a c.
Proof.
  intros Hr a b c Hab. revert c.
  induction Hab as [|x y a b [Hi Hxy] _ IH]; intros c Hbc; inversion Hbc; subst.
  - constructor.
  - match goal with H : _ /\ _ |- _ => destruct H as [Hj Hyz] end.
    constructor; [split; [congruence|eauto]|auto].
Qed.

Lemma extends_by_trans {T} (r : T -> T -> Prop) (a b c : Coll T) :
  (forall x y z, r x y -> r y z -> r x z) ->
  extends_by r a b -> extends_by r b c -> extends_by r a c.
Proof.
  intros Hr (b1 & lb & -> & Hab) (c1 & lc & -> & Hbc).
  apply Forall2_app_inv_l in Hbc. destruct Hbc as (c11 & c12 & H1 & H2 & ->).
  exists c11, (c12 ++ lc). split; [now rewrite app_assoc|].
  now apply (Forall2_kept_trans r Hr a b1 c11).
Qed.

Lemma extends_by_app {T} (r : T -> T -> Prop) (c l : Coll T) :
  (forall x, r x x) -> extends_by r c (c ++ l).
Proof.
  intros Hr. exists c, l. split; [reflexivity|].
  induction c; constructor; auto.
Qed.

Lemma extends_by_update {T} (r : T -> T -> Prop) q (f : T -> T) (c : Coll T) :
  (forall x, r x x) ->
  (forall d, find_one q c = Some d -> r (snd d) (f (snd d))) ->
  extends_by r c (update_one q f c).
Proof.
  intros Hr Hf. exists (update_one q f c), []. split; [now rewrite app_nil_r|].
  induction c as [|d c IH]; simpl; [constructor|].
  unfold find_one in Hf. simpl in Hf. destruct (q d).
  - constructor; [split; [reflexivity|now apply Hf]|].
    clear -Hr. induction c; constructor; auto.
  - constructor; auto.
Qed.

Lemma extends_by_eq {T} (c c' : Coll T) : extends_by eq c c' <-> exists l, c' = c ++ l.
Proof.
  split.
  - intros (c1 & l & -> & H). exists l. f_equal.
    induction H as [|[k x] [k' x'] a b [Hk Hx] _ IH]; [reflexivity|].
    simpl in *. congruence.
  - intros (l & ->). now apply extends_by_app.
Qed.

Lemma extends_by_find {T} (r : T -> T -> Prop) (c c' : Coll T) k d :
  extends_by r c c' ->
  find_one (by_id k) c = Some d ->
  exists x, find_one (by_id k) c' = Some (fst d, x) /\ r (snd d) x.
Proof.
  intros (c1 & l & -> & H) Hf.
  induction H as [|[i x] [i' x'] a b [Hi Hx] _ IH]; [discriminate|].
  unfold find_one in *. simpl in *. subst i'. unfold by_id at 1. unfold by_id at 1 in Hf.
  simpl in *. destruct (N.eqb i k).
  - injection Hf as <-. exists x'. now split.
  - now apply IH.
Qed.

(** ** The history relation *)

Lemma station_kept_refl st : station_kept st st.
Proof. now split. Qed.

Lemma station_kept_trans a b c : station_kept a b -> station_kept b c -> station_kept a c.
Proof. unfold station_kept. intros [] []. split; congruence. Qed.

Lemma session_kept_refl s : session_kept s s.
Proof. now left. Qed.

Lemma session_kept_trans a b c : session_kept a b -> session_kept b c -> session_kept a c.
Proof.
  intros [->|[Ha (t & ->)]] Hbc; [assumption|].
  destruct Hbc as [->|[Hb _]].
  - right. split; [assumption|now exists t].
  - now elim Hb.
Qed.

Lemma order_kept_refl o : order_kept o o.
Proof. exists (Order.status o), (Order.updated_at o). now destruct o. Qed.

Lemma order_kept_trans a b c : order_kept a b -> order_kept b c -> order_kept a c.
Proof. intros (s & u & ->) (s' & u' & ->). now exists s', u'. Qed.

Lemma history_refl d : history d d.
Proof.
  unfold history.
  repeat match goal with |- _ /\ _ => split end; apply extends_by_refl;
    auto using station_kept_refl, session_kept_refl, order_kept_refl.
Qed.

Lemma history_trans a b c : history a b -> history b c -> history a c.
Proof.
  unfold history.
  intros (U & St & Se & Me & Or & Pa & Sg & Au) (U' & St' & Se' & Me' & Or' & Pa' & Sg' & Au').
  repeat match goal with |- _ /\ _ => split end.
  - apply (extends_by_trans eq _ _ _ (@eq_trans _) U U').
  - apply (extends_by_trans _ _ _ _ station_kept_trans St St').
  - apply (extends_by_trans _ _ _ _ session_kept_trans Se Se').
  - apply (extends_by_trans eq _ _ _ (@eq_trans _) Me Me').
  - apply (extends_by_trans _ _ _ _ order_kept_trans Or Or').
  - apply (extends_by_trans eq _ _ _ (@eq_trans _) Pa Pa').
  - apply (extends_by_trans _ _ _ _ (fun _ _ _ _ _ => I) Sg Sg').
  - apply (extends_by_trans eq _ _ _ (@eq_trans _) Au Au').
Qed.

Ltac history_one :=
  unfold history; simpl;
  repeat match goal with |- _ /\ _ => split end;
  try assumption;
  apply extends_by_refl;
  auto using station_kept_refl, session_kept_refl, order_kept_refl.

Lemma history_with_user d x : extends_by eq (user d) x -> history d (with_user x d).
Proof. intros H. destruct d. history_one. Qed.

Lemma history_with_station d x :
  extends_by station_kept (station d) x -> history d (with_station x d).
Proof. intros H. destruct d. history_one. Qed.

Lemma history_with_session d x :
  extends_by session_kept (session d) x -> history d (with_session x d).
Proof. intros H. destruct d. history_one. Qed.

Lemma history_with_menuitem d x :
  extends_by eq (menuitem d) x -> history d (with_menuitem x d).
Proof. intros H. destruct d. history_one. Qed.

Lemma history_with_order d x :
  extends_by order_kept (order d) x -> history d (with_order x d).
Proof. intros H. destruct d. history_one. Qed.

Lemma history_with_payment d x :
  extends_by eq (payment d) x -> history d (with_payment x d).
Proof. intros H. destruct d. history_one. Qed.

Lemma history_with_settings d x :
  extends_by (fun _ _ => True) (settings d) x -> history d (with_settings x d).
Proof. intros H. destruct d. history_one. Qed.

Lemma history_with_auditlog d x :
  extends_by eq (auditlog d) x -> history d (with_auditlog x d).
Proof. intros H. destruct d. history_one. Qed.
(** ** Stepwise relations along a computation *)

Lemma ev_same R {A} (m : M A) w :
  stepwise R -> db (snd (m w)) = db w -> evolves R m w.
Proof. unfold evolves. intros (Hr & _) ->. apply Hr. Qed.

Lemma ev_ret R {A} (a : A) w : stepwise R -> evolves R (ret a) w.
Proof. intros HR. now apply ev_same. Qed.

Lemma ev_raise R {A} e w : stepwise R -> evolves R (@raise A e) w.
Proof. intros HR. now apply ev_same. Qed.

Lemma ev_gets R {A} (f : Db -> A) w : stepwise R -> evolves R (gets f) w.
Proof. intros HR. now apply ev_same. Qed.

Lemma ev_bind R {A B} (m : M A) (k : A -> M B) w :
  stepwise R ->
  evolves R m w ->
  (forall a w', m w = (Ok a, w') -> evolves R (k a) w') ->
  evolves R (bind m k) w.
Proof.
  unfold evolves, bind. intros (_ & Ht & _) Hm Hk.
  destruct (m w) as [[a|e] w1] eqn:E; simpl in *; [|assumption].
  eapply Ht; [exact Hm|]. now apply Hk.
Qed.

Lemma ev_find R {T B} (c : Collection T) q (k : option (ObjectId * T) -> M B) w :
  (forall r, find_one q (documents c (db w)) = r -> evolves R (k r) w) ->
  evolves R (bind (db_find_one c q) k) w.
Proof. intros H. unfold evolves. rewrite bind_find_one. now apply H. Qed.

Lemma ev_oid R {B} s (k : ObjectId -> M B) w :
  stepwise R ->
  (forall x, ObjectId_of_string s = Some x -> evolves R (k x) w) ->
  evolves R (bind (oid s) k) w.
Proof.
  intros (Hr & _) H. unfold evolves, bind, oid.
  destruct (ObjectId_of_string s) as [x|]; simpl; [now apply H|apply Hr].
Qed.

Lemma ev_validate R {B} b (k : unit -> M B) w :
  stepwise R ->
  (b = true -> evolves R (k tt) w) -> evolves R (bind (validate b) k) w.
Proof.
  intros (Hr & _) H. unfold evolves. rewrite bind_validate.
  destruct b; [now apply H|apply Hr].
Qed.

Lemma ev_update R {T B} (c : Collection T) q f (k : unit -> M B) w :
  stepwise R ->
  R (db w) (replace c (update_one q f (documents c (db w))) (db w)) ->
  (forall w', evolves R (k tt) w') ->
  evolves R (bind (db_update_one c q f) k) w.
Proof.
  intros (_ & Ht & _) H Hk. unfold evolves. rewrite bind_update.
  eapply Ht; [exact H|]. exact (Hk (mkWorld _ _)).
Qed.

Lemma ev_create R {T B} (c : Collection T) x (k : string -> M B) w :
  stepwise R ->
  R (db w) (replace c (documents c (db w) ++ [(new_oid (documents c (db w)), x)]) (db w)) ->
  (forall s w', evolves R (k s) w') ->
  evolves R (bind (create_document c x) k) w.
Proof.
  intros (_ & Ht & _) H Hk. unfold evolves. rewrite bind_create.
  eapply Ht; [exact H|]. exact (Hk _ (mkWorld _ _)).
Qed.

Lemma ev_create_end R {T} (c : Collection T) x w :
  R (db w) (replace c (documents c (db w) ++ [(new_oid (documents c (db w)), x)]) (db w)) ->
  evolves R (create_document c x) w.
Proof. trivial. Qed.

Lemma ev_audit_end R a t r p u c w : stepwise R -> evolves R (audit a t r p u c) w.
Proof.
  intros (Hr & _ & Ha).
  unfold evolves, audit, try_except, bind, store_fault, create_document, ret.
  destruct w as [d fl]. simpl.
  destruct fl as [|[|] fl]; simpl; try apply Hr; apply Ha.
Qed.

Lemma ev_audit R {B} a t r p u c (k : unit -> M B) w :
  stepwise R ->
  (forall w', evolves R (k tt) w') -> evolves R (bind (audit a t r p u c) k) w.
Proof.
  intros HR Hk. apply ev_bind; [assumption|now apply ev_audit_end|].
  intros [] w' _. apply Hk.
Qed.

Lemma ev_price_lines R lines items subtotal w :
  stepwise R -> evolves R (price_lines lines items subtotal) w.
Proof.
  intros HR. apply ev_same; [assumption|].
  destruct (price_lines lines items subtotal w) as [r w'] eqn:E.
  now destruct (price_lines_inv _ _ _ _ _ _ E) as [-> _].
Qed.

(** The handlers, unfolded down to their reads and writes. *)
Ltac handlers :=
  unfold register, login, fetch_stations, create_station, update_station_status,
    start_session, end_session, fetch_menu, create_menu_item, create_order,
    update_order_status, checkout, get_settings, update_settings, fetch_dashboard_stats,
    close_session, serve_order.

(** What is left of [evolves R m w] after [evolve HR] are the writes of [m],
    each with what was read and checked before it. *)
Ltac evolve HR :=
  repeat match goal with
    | |- forall _, _ => intro
    | |- evolves _ (match ?x with _ => _ end) _ => destruct x eqn:?
    | |- evolves _ (bind (db_find_one _ _) _) _ => apply ev_find; intros ? ?
    | |- evolves _ (bind (oid _) _) _ => apply (ev_oid _ _ _ _ HR); intros ? ?
    | |- evolves _ (bind (validate _) _) _ => apply (ev_validate _ _ _ _ HR); intros ?
    | |- evolves _ (bind (db_update_one _ _ _) _) _ => apply (ev_update _ _ _ _ _ _ HR)
    | |- evolves _ (bind (create_document _ _) _) _ => apply (ev_create _ _ _ _ _ HR)
    | |- evolves _ (bind (audit _ _ _ _ _ _) _) _ => apply (ev_audit _ _ _ _ _ _ _ _ _ HR)
    | |- evolves _ (bind (price_lines _ _ _) _) _ =>
        apply (ev_bind _ _ _ _ HR); [apply (ev_price_lines _ _ _ _ _ HR)|]
    | |- evolves _ (bind (match _ with _ => _ end) _) _ =>
        apply (ev_bind _ _ _ _ HR); [|intros ? ? _]
    | |- evolves _ (ret _) _ => apply (ev_ret _ _ _ HR)
    | |- evolves _ (raise _) _ => apply (ev_raise _ _ _ HR)
    | |- evolves _ (gets _) _ => apply (ev_gets _ _ _ HR)
    | |- evolves _ (audit _ _ _ _ _ _) _ => apply (ev_audit_end _ _ _ _ _ _ _ _ HR)
    | |- evolves _ (create_document _ _) _ => apply ev_create_end
    end.

(** ** Collections that only grow, along every handler *)

Lemma stepwise_history : stepwise history.
Proof.
  split; [exact history_refl|]. split; [exact history_trans|].
  intros d x. apply history_with_auditlog, extends_by_app. reflexivity.
Qed.

Ltac grow :=
  cbn [replace documents c_user c_station c_session c_menuitem c_order c_payment
       c_settings c_auditlog];
  match goal with
  | |- history _ (with_user _ _) => apply history_with_user
  | |- history _ (with_station _ _) => apply history_with_station
  | |- history _ (with_session _ _) => apply history_with_session
  | |- history _ (with_menuitem _ _) => apply history_with_menuitem
  | |- history _ (with_order _ _) => apply history_with_order
  | |- history _ (with_payment _ _) => apply history_with_payment
  | |- history _ (with_settings _ _) => apply history_with_settings
  | |- history _ (with_auditlog _ _) => apply history_with_auditlog
  end;
  match goal with
  | |- extends_by _ _ (_ ++ _) => apply extends_by_app
  | |- extends_by _ _ (update_one _ _ _) => apply extends_by_update
  end;
  auto using station_kept_refl, session_kept_refl, order_kept_refl;
  try (intros ? ?; first [now split | eexists; eexists; reflexivity | exact I]).

Ltac end_kept :=
  match goal with
  | Hx : ObjectId_of_string ?s = Some ?x, Hx0 : ObjectId_of_string ?s = Some ?x0,
    Hf : find_one (by_id ?x) _ = Some (_, ?t), Hd : find_one (by_id ?x0) _ = Some ?d,
    Hs : SessionStatus_eqb (Session.status ?t) ended = false
    |- session_kept (snd ?d) _ =>
      rewrite Hx in Hx0; injection Hx0 as <-;
      cbn [documents c_session] in Hf; rewrite Hf in Hd; injection Hd as <-;
      cbn [snd]; right; split;
      [ intros E; apply SessionStatus_eqb_eq in E; congruence
      | eexists; reflexivity ]
  end.

Ltac as_evolves R :=
  match goal with
  | w : World |- R (db ?w) (db (snd (?m ?w))) => change (evolves R m w)
  end.

Lemma handle_history c w : history (db w) (db (handle c w)).
Proof.
  pose proof stepwise_history as HR.
  destruct c; cbn [handle]; as_evolves history; handlers; evolve HR; try grow;
    try match goal with H : negb _ = true |- _ => apply negb_true_iff in H end;
    intros; end_kept.
Qed.

Lemma run_history cs : forall w, history (db w) (db (run cs w)).
Proof.
  induction cs as [|c cs IH]; intros w; [apply history_refl|].
  cbn [run fold_left]. eapply history_trans; [apply handle_history|apply IH].
Qed.
(** ** What no sequence of calls undoes *)

Lemma extends_by_ids {T} (r : T -> T -> Prop) (c c' : Coll T) :
  extends_by r c c' -> exists l, map fst c' = map fst c ++ l.
Proof.
  intros (c1 & l & -> & H). exists (map fst l). rewrite map_app. f_equal.
  induction H as [|x y a b [Hi _] _ IH]; simpl; congruence.
Qed.

(** X13.  Whatever calls are made, and in whatever order, no document is
    removed, moved or given another identifier, in any collection; and a
    user, a menu item, a payment or an audit entry, once stored, is never
    changed: these four collections only get longer. *)
Theorem documents_are_never_removed (cs : list Call) (w : World) :
  let d := db w in
  let d' := db (run cs w) in
  (exists l, user d' = user d ++ l)
  /\ (exists l, menuitem d' = menuitem d ++ l)
  /\ (exists l, payment d' = payment d ++ l)
  /\ (exists l, auditlog d' = auditlog d ++ l)
  /\ (exists l, map fst (station d') = map fst (station d) ++ l)
  /\ (exists l, map fst (session d') = map fst (session d) ++ l)
  /\ (exists l, map fst (order d') = map fst (order d) ++ l)
  /\ (exists l, map fst (settings d') = map fst (settings d) ++ l).
Proof.
  cbv zeta. destruct (run_history cs w) as (U & St & Se & Me & Or & Pa & Sg & Au).
  repeat match goal with |- _ /\ _ => split end;
    first [now apply extends_by_eq | eapply extends_by_ids; eassumption].
Qed.

(** X14.  Whatever calls are made, a station found under an id is still
    found under it, with its cafe and its name; a session is still found
    as it was, or, if it was not ended, as it was but for the status ended
    and an end timestamp, so that an ended session never changes again and
    no session ever changes its station, customer, start or amount; and an
    order is still found with its cafe, session, station, lines, subtotal,
    tax, total and notes, whatever became of its status. *)
Theorem documents_keep_their_data (cs : list Call) (w : World) (k : ObjectId) :
  let d := db w in
  let d' := db (run cs w) in
  (forall st, find_one (by_id k) (station d) = Some (k, st) ->
     exists st',
       find_one (by_id k) (station d') = Some (k, st')
       /\ Station.cafe_id st' = Station.cafe_id st
       /\ Station.name st' = Station.name st)
  /\ (forall s, find_one (by_id k) (session d) = Some (k, s) ->
        find_one (by_id k) (session d') = Some (k, s)
        \/ (Session.status s <> ended
            /\ exists t, find_one (by_id k) (session d') = Some (k, set_session_ended t s)))
  /\ (forall o, find_one (by_id k) (order d) = Some (k, o) ->
        exists status updated_at,
          find_one (by_id k) (order d')
          = Some (k, Order.mk (Order.cafe_id o) (Order.session_id o) (Order.station_id o)
                       status (Order.items o) (Order.subtotal o) (Order.tax o)
                       (Order.total o) (Order.notes o) updated_at)).
Proof.
  cbv zeta. destruct (run_history cs w) as (_ & St & Se & _ & Or & _).
  repeat match goal with |- _ /\ _ => split end.
  - intros st H. destruct (extends_by_find _ _ _ _ _ St H) as (st' & H' & Hc & Hn).
    now exists st'.
  - intros s H. destruct (extends_by_find _ _ _ _ _ Se H) as (s' & H' & [->|[Hs (t & ->)]]).
    + now left.
    + right. split; [assumption|now exists t].
  - intros o H. destruct (extends_by_find _ _ _ _ _ Or H) as (o' & H' & (s & u & ->)).
    now exists s, u.
Qed.

Lemma documents_keep_their_data_witness :
  let d' := db (run ex_calls ex_world) in
  (exists st',
     find_one (by_id 2%N) (station d') = Some (2%N, st')
     /\ Station.cafe_id st' = "cafe1" /\ Station.name st' = "PS5")
  /\ (find_one (by_id 2%N) (session d') = Some (2%N, ex_session (str_oid 1%N) ended)
      \/ (Session.status (ex_session (str_oid 1%N) ended) <> ended
          /\ exists t, find_one (by_id 2%N) (session d')
                       = Some (2%N, set_session_ended t (ex_session (str_oid 1%N) ended))))
  /\ (exists status updated_at,
        find_one (by_id 1%N) (order d')
        = Some (1%N, Order.mk "cafe1" None None status
                       [OrderItem.mk (str_oid 1%N) "Espresso" 1 f100 f100] f100 f0 f100 None
                       updated_at)).
Proof.
  cbv zeta. split; [|split].
  - apply (proj1 (documents_keep_their_data ex_calls ex_world 2%N)
             (ex_station in_use (Some (str_oid 1%N)))).
    reflexivity.
  - apply (proj1 (proj2 (documents_keep_their_data ex_calls ex_world 2%N))
             (ex_session (str_oid 1%N) ended)).
    reflexivity.
  - apply (proj2 (proj2 (documents_keep_their_data ex_calls ex_world 1%N)) ex_order).
    reflexivity.
Defined.

Lemma login_found req w resp :
  fst (login req w) = Ok resp ->
  exists d,
    find_one (credentials (LoginRequest.email req) (LoginRequest.password req)) (user (db w))
    = Some d
    /\ resp = LoginResponse.mk (str_oid (fst d)) (User.name (snd d)) (User.role (snd d)).
Proof.
  unfold login. rewrite bind_find_one. cbn [documents c_user].
  destruct (find_one _ (user (db w))) as [[k u]|]; [|discriminate].
  intros H. injection H as <-. now exists (k, u).
Qed.

(** X15.  A login that succeeds keeps succeeding, with the same answer,
    whatever calls are made in between: no call changes a password or a
    role, and none deactivates or removes a user. *)
Theorem login_stays_valid
  (req : LoginRequest.t) (resp : LoginResponse.t) (cs : list Call) (w : World) :
  fst (login req w) = Ok resp ->
  login req (run cs w) = (Ok resp, run cs w).
Proof.
  intros H. destruct (login_found _ _ _ H) as ([k u] & Hf & ->).
  destruct (run_history cs w) as (U & _). apply extends_by_eq in U. destruct U as (l & U).
  unfold login. rewrite bind_find_one. cbn [documents c_user]. rewrite U.
  now rewrite (find_one_app_old _ _ l _ Hf).
Qed.

Lemma login_stays_valid_witness :
  login (LoginRequest.mk "ana@example.com" "s3cret") (run ex_calls ex_world_users)
  = (Ok (LoginResponse.mk (str_oid 1%N) "Ana" cashier), run ex_calls ex_world_users).
Proof. apply login_stays_valid. reflexivity. Defined.

Lemma checkout_paid req now w r :
  fst (checkout req now w) = Ok r ->
  exists d,
    find_one (paid_with (CheckoutRequest.idempotency_key req))
      (payment (db (snd (checkout req now w)))) = Some d
    /\ r = (str_oid (fst d), success).
Proof.
  intros H.
  destruct (find_one (paid_with (CheckoutRequest.idempotency_key req)) (payment (db w)))
    as [d|] eqn:Hf.
  - rewrite (checkout_replayed _ now _ _ Hf) in *. exists d. split; [assumption|].
    simpl in H. congruence.
  - destruct (checkout_fresh_result _ _ _ _ Hf H) as [-> Hp]. rewrite Hp.
    exists (new_oid (payment (db w)), payment_of req). split; [|reflexivity].
    apply find_one_app_new; [assumption|].
    apply paid_with_spec. now split.
Qed.

(** X16.  A checkout that has succeeded under a key is replayed ever after:
    whatever calls are made in between, a later checkout with that key,
    with any amount, method, order and session, answers success with the
    payment id of the first and writes nothing. *)
Theorem checkout_replay_after_any_calls
  (req req' : CheckoutRequest.t) (now now' : string) (cs : list Call) (w : World)
  (pid : string) (status : PaymentStatus) :
  fst (checkout req now w) = Ok (pid, status) ->
  CheckoutRequest.idempotency_key req' = CheckoutRequest.idempotency_key req ->
  let w1 := run cs (snd (checkout req now w)) in
  checkout req' now' w1 = (Ok (pid, success), w1).
Proof.
  intros H Hk. cbv zeta. destruct (checkout_paid _ _ _ _ H) as (d & Hf & E).
  injection E as -> ->.
  destruct (run_history cs (snd (checkout req now w))) as (_ & _ & _ & _ & _ & Pa & _).
  apply extends_by_eq in Pa. destruct Pa as (l & Pa).
  apply checkout_replayed. rewrite Hk, Pa. now apply find_one_app_old.
Qed.

Lemma checkout_replay_after_any_calls_witness :
  let req := CheckoutRequest.mk "cafe1" None None f50 card "key-7" in
  let retry := CheckoutRequest.mk "cafe1" None (Some (str_oid 1%N)) f100 cash "key-7" in
  let w1 := run ex_calls (snd (checkout req "2024-01-01T10:30:00+00:00" ex_world)) in
  checkout retry "2024-01-01T12:00:00+00:00" w1 = (Ok (str_oid 2%N, success), w1).
Proof.
  cbv zeta.
  apply (checkout_replay_after_any_calls
           (CheckoutRequest.mk "cafe1" None None f50 card "key-7")
           (CheckoutRequest.mk "cafe1" None (Some (str_oid 1%N)) f100 cash "key-7")
           "2024-01-01T10:30:00+00:00" "2024-01-01T12:00:00+00:00" ex_calls ex_world
           (str_oid 2%N) success);
    reflexivity.
Defined.

Lemma menu_item_of_kept d d' it x :
  (exists l, menuitem d' = menuitem d ++ l) ->
  menu_item_of d it = Some x -> menu_item_of d' it = Some x.
Proof.
  intros (l & E). unfold menu_item_of. rewrite E.
  destruct (Line.item_id it) as [[|b|n|y|s| |]|]; try discriminate.
  destruct (ObjectId_of_string s); [|discriminate].
  apply find_one_app_old.
Qed.

(** X17.  No call edits, deactivates or removes a menu item: the item a
    line refers to stays what it is whatever calls are made, and a line
    that is priced without error keeps its snapshot, with the name, the
    unit price and the line total. *)
Theorem menu_items_are_final (cs : list Call) (w : World) (it : Line.t) :
  (forall x, menu_item_of (db w) it = Some x -> menu_item_of (db (run cs w)) it = Some x)
  /\ (forall oi, snapshot (db w) it oi -> snapshot (db (run cs w)) it oi).
Proof.
  destruct (run_history cs w) as (_ & _ & _ & Me & _). apply extends_by_eq in Me.
  assert (K : forall x, menu_item_of (db w) it = Some x ->
                        menu_item_of (db (run cs w)) it = Some x)
    by (intros x; now apply menu_item_of_kept).
  split; [exact K|].
  intros oi (Hv & Hi & Ha). unfold snapshot, line_valid, line_item in *.
  destruct (menu_item_of (db w) it) as [[k mi]|] eqn:Hm; [|discriminate].
  rewrite (K _ eq_refl). now repeat split.
Qed.

Lemma menu_items_are_final_witness :
  snapshot (db (run ex_calls ex_world)) (line (str_oid 2%N) (Some 2) None)
    (OrderItem.mk (str_oid 2%N) "Mocha" 2 f50 f100).
Proof.
  apply (proj2 (menu_items_are_final ex_calls ex_world (line (str_oid 2%N) (Some 2) None))).
  repeat split; reflexivity.
Defined.
(** ** The dashboard *)

Lemma cafe_query_snd {T} (cafe_of : T -> string) cafe_id (d d' : ObjectId * T) :
  cafe_of (snd d') = cafe_of (snd d) ->
  cafe_query cafe_of cafe_id d' = cafe_query cafe_of cafe_id d.
Proof. unfold cafe_query. now intros ->. Qed.

Lemma count_extends {T} (r : T -> T -> Prop) (cafe_of : T -> string) cafe_id (c c' : Coll T) :
  (forall x y, r x y -> cafe_of y = cafe_of x) ->
  extends_by r c c' ->
  (List.length (filter (cafe_query cafe_of cafe_id) c)
   <= List.length (filter (cafe_query cafe_of cafe_id) c'))%nat.
Proof.
  intros Hr (c1 & l & -> & H). rewrite filter_app, length_app.
  assert (E : List.length (filter (cafe_query cafe_of cafe_id) c)
              = List.length (filter (cafe_query cafe_of cafe_id) c1)).
  { induction H as [|x y a b [_ Hxy] _ IH]; [reflexivity|]. simpl.
    rewrite (cafe_query_snd cafe_of cafe_id x y (Hr _ _ Hxy)).
    destruct (cafe_query cafe_of cafe_id x); simpl; now rewrite IH. }
  lia.
Qed.

Lemma session_kept_cafe s s' : session_kept s s' -> Session.cafe_id s' = Session.cafe_id s.
Proof. now intros [->|[_ (t & ->)]]. Qed.

Lemma order_kept_cafe o o' : order_kept o o' -> Order.cafe_id o' = Order.cafe_id o.
Proof. now intros (s & u & ->). Qed.

(** X18.  The counts of the dashboard never go down: whatever calls are
    made, the numbers of orders, of sessions and of payments, of one cafe
    or of all, are at least what they were.  No call moves an order, a
    session or a payment to another cafe, and reading the dashboard writes
    nothing. *)
Theorem dashboard_counts_never_decrease
  (cafe_id : option string) (cs : list Call) (w : World) :
  exists s s',
    fetch_dashboard_stats cafe_id w = (Ok s, w)
    /\ fetch_dashboard_stats cafe_id (run cs w) = (Ok s', run cs w)
    /\ (Stats.orders s <= Stats.orders s')%nat
    /\ (Stats.sessions s <= Stats.sessions s')%nat
    /\ (Stats.payments s <= Stats.payments s')%nat.
Proof.
  destruct (run_history cs w) as (_ & _ & Se & _ & Or & Pa & _).
  eexists. eexists. split; [reflexivity|]. split; [reflexivity|].
  cbn [Stats.orders Stats.sessions Stats.payments].
  split; [|split].
  - exact (count_extends _ _ _ _ _ order_kept_cafe Or).
  - exact (count_extends _ _ _ _ _ session_kept_cafe Se).
  - apply (count_extends eq _ _ _ _); [now intros x y ->|exact Pa].
Qed.

Lemma count_update_one {T} (cafe_of : T -> string) cafe_id q (f : T -> T) (c : Coll T) :
  (forall x, cafe_of (f x) = cafe_of x) ->
  List.length (filter (cafe_query cafe_of cafe_id) (update_one q f c))
  = List.length (filter (cafe_query cafe_of cafe_id) c).
Proof.
  intros H. apply filter_update_one. intros d. apply cafe_query_snd. apply H.
Qed.

(** What follows the recording of the payment in [checkout] changes no
    count of the dashboard and no payment. *)
Lemma checkout_rest_counts cafe_id sid now oid_s a t r p u c (x : string * PaymentStatus) :
  preserves
    (fun d =>
       (List.length (filter (cafe_query Order.cafe_id cafe_id) (order d)),
        List.length (filter (cafe_query Session.cafe_id cafe_id) (session d)),
        payment d))
    (bind (close_session sid now)
       (fun _ => bind (serve_order oid_s) (fun _ => bind (audit a t r p u c) (fun _ => ret x)))).
Proof.
  frame;
    match goal with
    | |- preserves _ (db_update_one _ _ _) =>
        intros w; cbn [db_update_one modify snd db]; cbn; f_equal; f_equal;
        apply count_update_one; reflexivity
    end.
Qed.

(** X19.  A checkout that is no replay shows on the dashboard at once, and
    it does so even when it then fails on an id: for the cafe of the
    payment, and for all cafes together, there is one payment more and the
    revenue is the sum of the amounts, the new one added last, rounded to
    2 places; for another cafe nothing changes.  The counts of orders and
    of sessions stay as they are. *)
Theorem dashboard_after_checkout
  (req : CheckoutRequest.t) (now : string) (cafe_id : option string) (w : World) :
  find_one (paid_with (CheckoutRequest.idempotency_key req)) (payment (db w)) = None ->
  ge0 (CheckoutRequest.amount req) = true ->
  let w1 := snd (checkout req now w) in
  let paid := filter (cafe_query Payment.cafe_id cafe_id) (payment (db w)) in
  exists s s1,
    fetch_dashboard_stats cafe_id w = (Ok s, w)
    /\ fetch_dashboard_stats cafe_id w1 = (Ok s1, w1)
    /\ Stats.orders s1 = Stats.orders s
    /\ Stats.sessions s1 = Stats.sessions s
    /\ if cafe_query Payment.cafe_id cafe_id (new_oid (payment (db w)), payment_of req)
       then Stats.payments s1 = S (Stats.payments s)
            /\ Stats.revenue s1
               = py_round2 (fadd (sum_amounts paid) (CheckoutRequest.amount req))
       else Stats.payments s1 = Stats.payments s /\ Stats.revenue s1 = Stats.revenue s.
Proof.
  intros Hf Hv. cbv zeta.
  eexists. eexists. split; [reflexivity|]. split; [reflexivity|].
  cbn [Stats.orders Stats.sessions Stats.payments Stats.revenue].
  rewrite (checkout_fresh req now w Hf Hv). cbv zeta.
  match goal with
  | |- context [bind (close_session ?sid ?n) (fun _ => bind (serve_order ?o)
                  (fun _ => bind (audit ?a ?t ?r ?p ?u ?c) (fun _ => ret ?x))) ?w0] =>
      pose proof (checkout_rest_counts cafe_id sid n o a t r p u c x w0) as P
  end.
  cbn beta in P. injection P as Po Ps Pp. rewrite Po, Ps, Pp. cbn [db order session payment with_payment].
  split; [reflexivity|]. split; [reflexivity|].
  rewrite filter_app. cbn [filter].
  destruct (cafe_query Payment.cafe_id cafe_id (new_oid (payment (db w)), payment_of req)).
  - rewrite length_app, sum_amounts_app. cbn [List.length snd payment_of Payment.amount].
    split; [lia|reflexivity].
  - now rewrite app_nil_r.
Qed.

Lemma dashboard_after_checkout_witness :
  let req := CheckoutRequest.mk "cafe1" (Some "no-session") None f50 card "key-9" in
  let w1 := snd (checkout req "2024-01-01T11:00:00+00:00" ex_world) in
  fst (checkout req "2024-01-01T11:00:00+00:00" ex_world)
  = Raise (HTTPException 400 "Invalid ID")
  /\ fst (fetch_dashboard_stats (Some "cafe1") ex_world)
     = Ok (Stats.mk 1 2 1 f100)
  /\ exists s1,
       fetch_dashboard_stats (Some "cafe1") w1 = (Ok s1, w1)
       /\ Stats.orders s1 = 1%nat /\ Stats.sessions s1 = 2%nat
       /\ Stats.payments s1 = 2%nat
       /\ Stats.revenue s1 = py_round2 (fadd f100 f50).
Proof.
  cbv zeta. split; [reflexivity|]. split; [reflexivity|].
  destruct (dashboard_after_checkout
              (CheckoutRequest.mk "cafe1" (Some "no-session") None f50 card "key-9")
              "2024-01-01T11:00:00+00:00" (Some "cafe1") ex_world eq_refl eq_refl)
    as (s & s1 & Hs & Hs1 & Ho & Hse & Hp).
  exists s1. split; [exact Hs1|].
  assert (E : s = Stats.mk 1 2 1 f100)
    by (unfold fetch_dashboard_stats, gets in Hs; injection Hs as <-; reflexivity).
  subst s. cbn [Stats.orders Stats.sessions Stats.payments Stats.revenue] in *.
  assert (Q : cafe_query Payment.cafe_id (Some "cafe1")
                (new_oid (payment (db ex_world)),
                 payment_of (CheckoutRequest.mk "cafe1" (Some "no-session") None f50 card
                               "key-9")) = true) by reflexivity.
  rewrite Q in Hp. destruct Hp as [Hp Hr].
  repeat match goal with |- _ /\ _ => split end; assumption.
Defined.

(** ** What holds of every store the service gets into *)

Lemma stepwise_invariant (I : Db -> Prop) :
  (forall d x, I d -> I (with_auditlog x d)) -> stepwise (invariant I).
Proof.
  intros Ha. unfold invariant. split; [auto|]. split; [auto|]. intros d x. apply Ha.
Qed.

Lemma reachable_invariant (I : Db -> Prop) :
  I empty_db ->
  (forall c w, invariant I (db w) (db (handle c w))) ->
  forall w, reachable w -> I (db w).
Proof.
  intros H0 Hs w Hw. induction Hw as [fl|c w _ IH]; [exact H0|]. now apply Hs.
Qed.

Lemma reachable_run cs : forall w, reachable w -> reachable (run cs w).
Proof.
  induction cs as [|c cs IH]; intros w Hw; [exact Hw|].
  cbn [run fold_left]. apply IH. now constructor.
Qed.

Lemma NoDup_snoc {A} (l : list A) (a : A) : NoDup l -> ~ In a l -> NoDup (l ++ [a]).
Proof.
  intros Hl Ha. apply NoDup_app; [assumption|repeat constructor; intros []|].
  intros x Hx [<-|[]]. contradiction.
Qed.

Lemma NoDup_map_inj {A B} (f : A -> B) (l : list A) a b :
  NoDup (map f l) -> In a l -> In b l -> f a = f b -> a = b.
Proof.
  induction l as [|x l IH]; simpl; [tauto|].
  intros Hn Ha Hb E. apply NoDup_cons_iff in Hn. destruct Hn as [Hx Hn].
  destruct Ha as [->|Ha], Hb as [->|Hb]; trivial.
  - elim Hx. rewrite E. now apply in_map.
  - elim Hx. rewrite <- E. now apply in_map.
  - now apply IH.
Qed.

Lemma Forall_update_one {T} (P : ObjectId * T -> Prop) q (f : T -> T) (c : Coll T) :
  Forall P c -> (forall x, P x -> P (fst x, f (snd x))) -> Forall P (update_one q f c).
Proof.
  intros H Hf. induction H as [|x c Hx Hc IH]; simpl; [constructor|].
  destruct (q x); constructor; auto.
Qed.

(** A write that the part of the store [I] is about does not see. *)
Ltac untouched :=
  match goal with
  | |- invariant _ _ _ =>
      cbn [replace documents c_user c_station c_session c_menuitem c_order c_payment
           c_settings c_auditlog];
      let H := fresh in intros H; exact H
  end.

Ltac every_call c I HR :=
  destruct c; cbn [handle]; as_evolves (invariant I); handlers; evolve HR; try untouched.

(** *** Users *)

Lemma handle_users_ok c w : invariant users_ok (db w) (db (handle c w)).
Proof.
  pose proof (stepwise_invariant users_ok (fun d x H => H)) as HR.
  every_call c users_ok HR.
  cbn [replace documents c_user] in *. intros [Hn Ha]. split; cbn.
  - rewrite map_app. apply NoDup_snoc; [assumption|]. cbn.
    intros Hin. apply in_map_iff in Hin. destruct Hin as (d & Hd & Hin).
    match goal with
    | Hf : find_one _ _ = None |- _ => pose proof (find_none _ _ Hf d Hin) as Hd'
    end.
    cbn in Hd'. rewrite Hd, String.eqb_refl in Hd'. discriminate.
  - apply Forall_app. split; [assumption|]. now repeat constructor.
Qed.

Lemma login_as req w d :
  find_one (credentials (LoginRequest.email req) (LoginRequest.password req)) (user (db w))
  = Some d ->
  login req w
  = (Ok (LoginResponse.mk (str_oid (fst d)) (User.name (snd d)) (User.role (snd d))), w).
Proof.
  intros H. unfold login. rewrite bind_find_one. cbn [documents c_user]. rewrite H.
  now destruct d.
Qed.

(** X20.  In every store the service gets into from an empty one, no two
    users have the same email and every user is active: a second
    registration of an email is always refused, and nothing deactivates a
    user.  So every stored user can log in with the email and the password
    that were registered, and the answer is that user. *)
Theorem reachable_users (w : World) :
  reachable w ->
  NoDup (map (fun d => User.email (snd d)) (user (db w)))
  /\ (forall d, In d (user (db w)) -> User.is_active (snd d) = true)
  /\ (forall d, In d (user (db w)) ->
        login (LoginRequest.mk (User.email (snd d)) (User.password_hash (snd d))) w
        = (Ok (LoginResponse.mk (str_oid (fst d)) (User.name (snd d)) (User.role (snd d))),
           w)).
Proof.
  intros Hw.
  assert (H : users_ok (db w)).
  { apply (reachable_invariant users_ok); [split; constructor|exact handle_users_ok|exact Hw]. }
  destruct H as [Hn Ha]. split; [exact Hn|].
  assert (Hact : forall d, In d (user (db w)) -> User.is_active (snd d) = true)
    by (now apply Forall_forall).
  split; [exact Hact|]. intros d Hd.
  destruct (find_one (credentials (User.email (snd d)) (User.password_hash (snd d)))
              (user (db w))) as [d'|] eqn:Hf.
  - destruct (find_one_In _ _ _ Hf) as [Hin Hc]. unfold credentials in Hc.
    apply andb_true_iff in Hc. destruct Hc as [Hc _].
    apply andb_true_iff in Hc. destruct Hc as [He _]. apply String.eqb_eq in He.
    rewrite (NoDup_map_inj _ _ d' d Hn Hin Hd He) in Hf.
    exact (login_as (LoginRequest.mk (User.email (snd d)) (User.password_hash (snd d)))
             w d Hf).
  - pose proof (find_none _ _ Hf d Hd) as Hc. unfold credentials in Hc.
    now rewrite !String.eqb_refl, (Hact d Hd) in Hc.
Qed.

Lemma reachable_users_witness :
  let w := run [POST_auth_register ex_register;
                POST_auth_register (RegisterRequest.mk "ana@example.com" "Eve" "guess" admin)]
             (mkWorld empty_db []) in
  user (db w) = [(1%N, User.mk "ana@example.com" "s3cret" "Ana" cashier None true)]
  /\ login (LoginRequest.mk "ana@example.com" "s3cret") w
     = (Ok (LoginResponse.mk (str_oid 1%N) "Ana" cashier), w).
Proof.
  cbv zeta. split; [reflexivity|].
  apply (proj2 (proj2 (reachable_users _ (reachable_run _ _ (reachable_empty []))))
           (1%N, User.mk "ana@example.com" "s3cret" "Ana" cashier None true)).
  left. reflexivity.
Defined.
(** *** Payments *)

Lemma handle_payments_ok c w : invariant payments_ok (db w) (db (handle c w)).
Proof.
  pose proof (stepwise_invariant payments_ok (fun d x H => H)) as HR.
  every_call c payments_ok HR.
  cbn [replace documents c_payment] in *. intros [Hn Ha]. split; cbn.
  - rewrite map_app. apply NoDup_snoc; [assumption|]. cbn.
    intros Hin. apply in_map_iff in Hin. destruct Hin as (d & Hd & Hin).
    match goal with
    | Hf : find_one _ _ = None |- _ => pose proof (find_none _ _ Hf d Hin) as Hd'
    end.
    rewrite Forall_forall in Ha. destruct (Ha d Hin) as (Hs & _).
    assert (Hp : paid_with (CheckoutRequest.idempotency_key req) d = true)
      by (apply paid_with_spec; now split).
    congruence.
  - apply Forall_app. split; [assumption|]. repeat constructor; cbn; congruence.
Qed.

(** X21.  In every store the service gets into from an empty one, every
    payment has the status success, an idempotency key and an amount of 0
    or more, and no two payments have the same key.  So a checkout under
    the key of a stored payment is always a replay, answered with the id of
    that very payment. *)
Theorem reachable_payments (w : World) :
  reachable w ->
  (forall d, In d (payment (db w)) ->
     Payment.status (snd d) = success
     /\ Payment.idempotency_key (snd d) <> None
     /\ ge0 (Payment.amount (snd d)) = true)
  /\ (forall d d', In d (payment (db w)) -> In d' (payment (db w)) ->
        Payment.idempotency_key (snd d) = Payment.idempotency_key (snd d') -> d = d')
  /\ (forall d req now, In d (payment (db w)) ->
        Payment.idempotency_key (snd d) = Some (CheckoutRequest.idempotency_key req) ->
        checkout req now w = (Ok (str_oid (fst d), success), w)).
Proof.
  intros Hw.
  assert (H : payments_ok (db w)).
  { apply (reachable_invariant payments_ok);
      [split; constructor|exact handle_payments_ok|exact Hw]. }
  destruct H as [Hn Ha]. rewrite Forall_forall in Ha.
  assert (Hu : forall d d', In d (payment (db w)) -> In d' (payment (db w)) ->
                 Payment.idempotency_key (snd d) = Payment.idempotency_key (snd d') -> d = d')
    by (intros d d'; apply (NoDup_map_inj _ _ d d' Hn)).
  split; [exact Ha|]. split; [exact Hu|].
  intros d req now Hd Hk.
  destruct (find_one (paid_with (CheckoutRequest.idempotency_key req)) (payment (db w)))
    as [d'|] eqn:Hf.
  - destruct (find_one_In _ _ _ Hf) as [Hin Hp]. apply paid_with_spec in Hp.
    destruct Hp as [Hk' _]. rewrite <- Hk in Hk'.
    rewrite (Hu d' d Hin Hd Hk') in Hf. now apply checkout_replayed.
  - pose proof (find_none _ _ Hf d Hd) as Hp.
    assert (Hp' : paid_with (CheckoutRequest.idempotency_key req) d = true)
      by (apply paid_with_spec; split; [assumption|apply (Ha d Hd)]).
    congruence.
Qed.

Lemma reachable_payments_witness :
  let pay := CheckoutRequest.mk "cafe1" None None f50 card "key-7" in
  let again := CheckoutRequest.mk "cafe1" None None f100 cash "key-7" in
  let w := run [POST_checkout pay "2024-01-01T10:30:00+00:00";
                POST_checkout again "2024-01-01T10:31:00+00:00"] (mkWorld empty_db []) in
  payment (db w) = [(1%N, payment_of pay)]
  /\ checkout again "2024-01-01T10:32:00+00:00" w = (Ok (str_oid 1%N, success), w).
Proof.
  cbv zeta. split; [reflexivity|].
  apply (proj2 (proj2 (reachable_payments _ (reachable_run _ _ (reachable_empty []))))
           (1%N, payment_of (CheckoutRequest.mk "cafe1" None None f50 card "key-7"))).
  - left. reflexivity.
  - reflexivity.
Defined.

(** *** Settings *)

Lemma new_oid_fresh_id {T} (c : Coll T) : ~ In (new_oid c) (map fst c).
Proof.
  intros H. apply in_map_iff in H. destruct H as ([k x] & E & H). simpl in E. subst k.
  now apply new_oid_fresh in H.
Qed.

Lemma update_one_ids {T} q (f : T -> T) (c : Coll T) :
  map fst (update_one q f c) = map fst c.
Proof.
  induction c as [|d c IH]; simpl; [reflexivity|].
  destruct (q d); simpl; [reflexivity|now rewrite IH].
Qed.

Lemma update_one_same {T A} (g : T -> A) k x (f : T -> T) (c : Coll T) :
  NoDup (map fst c) -> In (k, x) c -> g (f x) = g x ->
  map (fun d => g (snd d)) (update_one (by_id k) f c) = map (fun d => g (snd d)) c.
Proof.
  intros Hn Hin Hg. induction c as [|d c IH]; simpl; [reflexivity|].
  simpl in Hn. apply NoDup_cons_iff in Hn. destruct Hn as [Hd Hn].
  destruct (by_id k d) eqn:E.
  - unfold by_id in E. apply N.eqb_eq in E. destruct Hin as [->|Hin].
    + simpl. now rewrite Hg.
    + elim Hd. rewrite E. now apply (in_map fst _ (k, x)).
  - destruct Hin as [->|Hin].
    + unfold by_id in E. simpl in E. now rewrite N.eqb_refl in E.
    + simpl. now rewrite IH.
Qed.

Lemma handle_settings_ok c w : invariant settings_ok (db w) (db (handle c w)).
Proof.
  pose proof (stepwise_invariant settings_ok (fun d x H => H)) as HR.
  every_call c settings_ok HR;
    cbn [replace documents c_settings] in *; intros [Hi Hc]; split; cbn;
    try (rewrite map_app; apply NoDup_snoc; [assumption|]; cbn).
  - apply new_oid_fresh_id.
  - intros Hin. apply in_map_iff in Hin. destruct Hin as (d & Hd & Hin).
    match goal with
    | Hf : find_one _ _ = None |- _ => pose proof (find_none _ _ Hf d Hin) as Hd'
    end.
    unfold of_cafe in Hd'. rewrite Hd, String.eqb_refl in Hd'. discriminate.
  - now rewrite update_one_ids.
  - match goal with
    | Hf : find_one (of_cafe _) _ = Some (?k, ?x) |- _ =>
        destruct (find_one_In _ _ _ Hf) as [Hin Hq];
        rewrite (update_one_same Settings.cafe_id k x (fun _ => s) _ Hi Hin); [assumption|]
    end.
    unfold of_cafe in Hq. apply String.eqb_eq in Hq. cbn in *. congruence.
  - apply new_oid_fresh_id.
  - intros Hin. apply in_map_iff in Hin. destruct Hin as (d & Hd & Hin).
    match goal with
    | Hf : find_one _ _ = None |- _ => pose proof (find_none _ _ Hf d Hin) as Hd'
    end.
    unfold of_cafe in Hd'. rewrite Hd, String.eqb_refl in Hd'. discriminate.
Qed.
Lemma get_settings_found keeps_id cafe_id w d :
  find_one (of_cafe cafe_id) (settings (db w)) = Some d ->
  get_settings keeps_id cafe_id w = (Ok (mkSettingsResponse (str_oid (fst d)) (snd d)), w).
Proof.
  intros H. unfold get_settings. rewrite bind_find_one. cbn [documents c_settings].
  rewrite H. now destruct d.
Qed.

(** X22.  In every store the service gets into from an empty one, a cafe
    has at most one settings record: both [get_settings] and
    [update_settings] look the cafe up before they create one.  So what
    [get_settings] answers for the cafe of a stored record is that record,
    and the tax rate [create_order] works with is the one of that record. *)
Theorem reachable_settings (w : World) :
  reachable w ->
  (forall d d', In d (settings (db w)) -> In d' (settings (db w)) ->
     Settings.cafe_id (snd d) = Settings.cafe_id (snd d') -> d = d')
  /\ (forall d keeps_id, In d (settings (db w)) ->
        get_settings keeps_id (Settings.cafe_id (snd d)) w
        = (Ok (mkSettingsResponse (str_oid (fst d)) (snd d)), w)
        /\ tax_rate_of (db w) (Settings.cafe_id (snd d)) = Settings.tax_rate (snd d)).
Proof.
  intros Hw.
  assert (H : settings_ok (db w)).
  { apply (reachable_invariant settings_ok);
      [split; constructor|exact handle_settings_ok|exact Hw]. }
  destruct H as [_ Hn].
  assert (Hu : forall d d', In d (settings (db w)) -> In d' (settings (db w)) ->
                 Settings.cafe_id (snd d) = Settings.cafe_id (snd d') -> d = d')
    by (intros d d'; apply (NoDup_map_inj _ _ d d' Hn)).
  split; [exact Hu|]. intros d keeps_id Hd.
  assert (Hf : find_one (of_cafe (Settings.cafe_id (snd d))) (settings (db w)) = Some d).
  { destruct (find_one (of_cafe (Settings.cafe_id (snd d))) (settings (db w)))
      as [d'|] eqn:Hf.
    - destruct (find_one_In _ _ _ Hf) as [Hin Hq]. unfold of_cafe in Hq.
      apply String.eqb_eq in Hq. now rewrite (Hu d' d Hin Hd Hq).
    - pose proof (find_none _ _ Hf d Hd) as Hq. unfold of_cafe in Hq.
      now rewrite String.eqb_refl in Hq. }
  split; [now apply get_settings_found|].
  unfold tax_rate_of. rewrite Hf. now destruct d.
Qed.

Lemma reachable_settings_witness :
  let w := run [GET_settings true "cafe1"; POST_settings (Settings.mk "cafe1" "EUR" f0 f0);
                GET_settings false "cafe1"] (mkWorld empty_db []) in
  settings (db w) = [(1%N, Settings.mk "cafe1" "EUR" f0 f0)]
  /\ get_settings true "cafe1" w
     = (Ok (mkSettingsResponse (str_oid 1%N) (Settings.mk "cafe1" "EUR" f0 f0)), w)
  /\ tax_rate_of (db w) "cafe1" = f0.
Proof.
  cbv zeta. split; [reflexivity|].
  apply (proj2 (reachable_settings _ (reachable_run _ _ (reachable_empty [])))
           (1%N, Settings.mk "cafe1" "EUR" f0 f0) true).
  left. reflexivity.
Defined.

(** *** Orders *)

Lemma snapshot_item_ok d it oi : snapshot d it oi -> item_ok oi.
Proof.
  unfold snapshot, line_valid, line_item, item_ok. intros (Hv & Hi & Ha).
  destruct (menu_item_of d it) as [[k mi]|]; [|discriminate].
  destruct (quantity it) as [n|e]; [|discriminate].
  apply andb_true_iff in Hv. destruct Hv as [_ Hq]. apply Z.ltb_lt in Hq.
  destruct (float_of_Z n) as [q|] eqn:Hf; [|discriminate].
  injection Hi as <-. cbn in *. split; [assumption|]. split; [assumption|].
  now exists q.
Qed.

Lemma set_order_status_ok s u o : order_ok o -> order_ok (set_order_status s u o).
Proof. now destruct o. Qed.

Lemma handle_orders_ok c w : invariant orders_ok (db w) (db (handle c w)).
Proof.
  pose proof (stepwise_invariant orders_ok (fun d x H => H)) as HR.
  every_call c orders_ok HR;
    cbn [replace documents c_order] in *; unfold invariant, orders_ok; cbn; intros Ho;
    try (apply Forall_update_one; [assumption|]; intros ?; apply set_order_status_ok).
  apply Forall_app. split; [assumption|]. constructor; [|constructor]. cbn [snd].
  match goal with
  | Hp : price_lines _ _ _ _ = (Ok _, _) |- _ =>
      destruct (price_lines_inv _ _ _ _ _ _ Hp) as [-> Hr];
      destruct (Hr _ _ eq_refl) as (new & HF & Hi & Hs)
  end.
  cbn [app] in Hi. subst.
  unfold order_ok. cbn. repeat match goal with |- _ /\ _ => split end.
  - inversion HF. discriminate.
  - clear -HF. induction HF; constructor; eauto using snapshot_item_ok.
  - reflexivity.
  - reflexivity.
  - assumption.
Qed.

(** X23.  In every store the service gets into from an empty one, every
    order is as [create_order] priced it, whatever has been done to its
    status since: it has at least one line; each line has a quantity above
    0, amounts of 0 or more and [total_price = unit_price * qty]; the
    subtotal is the sum of the line totals in their order; [total =
    round(subtotal + tax, 2)]; and subtotal, tax and total are 0 or more. *)
Theorem reachable_orders (w : World) (d : ObjectId * Order.t) :
  reachable w ->
  In d (order (db w)) ->
  let o := snd d in
  Order.items o <> []
  /\ (forall oi, In oi (Order.items o) ->
        0 < OrderItem.qty oi
        /\ ge0 (OrderItem.unit_price oi) = true
        /\ ge0 (OrderItem.total_price oi) = true
        /\ exists q, float_of_Z (OrderItem.qty oi) = Some q
                     /\ OrderItem.total_price oi = fmul (OrderItem.unit_price oi) q)
  /\ Order.subtotal o = fold_left fadd (map OrderItem.total_price (Order.items o)) f0
  /\ Order.total o = py_round2 (fadd (Order.subtotal o) (Order.tax o))
  /\ ge0 (Order.subtotal o) = true
  /\ ge0 (Order.tax o) = true
  /\ ge0 (Order.total o) = true.
Proof.
  intros Hw Hd. cbv zeta.
  assert (H : orders_ok (db w)).
  { apply (reachable_invariant orders_ok); [constructor|exact handle_orders_ok|exact Hw]. }
  unfold orders_ok in H. rewrite Forall_forall in H.
  destruct (H d Hd) as (Hne & Hit & Hsub & Htot & Ham).
  unfold order_amounts_ok in Ham. apply andb_true_iff in Ham. destruct Ham as [Ham Ht].
  apply andb_true_iff in Ham. destruct Ham as [Hs Hx].
  repeat match goal with |- _ /\ _ => split end; try assumption.
  intros oi Hoi. rewrite Forall_forall in Hit. destruct (Hit oi Hoi) as (Hq & Ha & Hm).
  unfold item_amounts_ok in Ha. apply andb_true_iff in Ha. destruct Ha as [Hu Hp].
  now repeat split.
Qed.
Lemma reachable_orders_witness :
  let w := run [POST_menu (CreateMenuItemRequest.mk "cafe1" "Mocha" f50 None None);
                POST_orders (CreateOrderRequest.mk "cafe1" None None
                               [line (str_oid 1%N) (Some 2) None] None);
                POST_orders_status (UpdateOrderStatusRequest.mk (str_oid 1%N) served)
                  "2024-01-01T12:00:00+00:00"] (mkWorld empty_db []) in
  let o := Order.mk "cafe1" None None served [OrderItem.mk (str_oid 1%N) "Mocha" 2 f50 f100]
             f100 f0 f100 None (Some "2024-01-01T12:00:00+00:00") in
  order (db w) = [(1%N, o)]
  /\ Order.subtotal o = fold_left fadd (map OrderItem.total_price (Order.items o)) f0
  /\ Order.total o = py_round2 (fadd (Order.subtotal o) (Order.tax o)).
Proof.
  cbv zeta. split; [reflexivity|].
  destruct (reachable_orders
              (run [POST_menu (CreateMenuItemRequest.mk "cafe1" "Mocha" f50 None None);
                    POST_orders (CreateOrderRequest.mk "cafe1" None None
                                   [line (str_oid 1%N) (Some 2) None] None);
                    POST_orders_status (UpdateOrderStatusRequest.mk (str_oid 1%N) served)
                      "2024-01-01T12:00:00+00:00"] (mkWorld empty_db []))
              (1%N, Order.mk "cafe1" None None served
                      [OrderItem.mk (str_oid 1%N) "Mocha" 2 f50 f100]
                      f100 f0 f100 None (Some "2024-01-01T12:00:00+00:00"))
              (reachable_run _ _ (reachable_empty []))
              (or_introl eq_refl))
    as (_ & _ & Hs & Ht & _).
  split; [exact Hs|exact Ht].
Defined.

(** *** Sessions *)

Lemma find_one_update_some {T} k q (f : T -> T) (c : Coll T) :
  find_one (by_id k) c <> None -> find_one (by_id k) (update_one q f c) <> None.
Proof.
  induction c as [|d c IH]; simpl; [trivial|].
  destruct (q d); simpl.
  - rewrite by_id_fst. destruct (by_id k d); [discriminate|trivial].
  - destruct (by_id k d); [discriminate|exact IH].
Qed.

Lemma find_one_app_some {T} (q : ObjectId * T -> bool) (c l : Coll T) :
  find_one q c <> None -> find_one q (c ++ l) <> None.
Proof.
  destruct (find_one q c) as [d|] eqn:E; [|now intros []].
  intros _. now rewrite (find_one_app_old _ _ l _ E).
Qed.

Lemma sessions_ok_stations d x :
  (forall k, find_one (by_id k) (station d) <> None -> find_one (by_id k) x <> None) ->
  invariant sessions_ok d (with_station x d).
Proof.
  intros Hx H. unfold sessions_ok in *. cbn. eapply Forall_impl; [|exact H].
  intros s ((k & Hk & Hf) & Hrest). split; [|exact Hrest].
  exists k. split; [assumption|]. now apply Hx.
Qed.

Lemma set_session_ended_ok d now s : session_ok d s -> session_ok d (set_session_ended now s).
Proof.
  unfold session_ok. destruct s. cbn. intros (Hst & Hs & _ & Hrest).
  split; [assumption|]. split; [assumption|]. split; [|assumption].
  right. split; [reflexivity|discriminate].
Qed.

Lemma handle_sessions_ok c w : invariant sessions_ok (db w) (db (handle c w)).
Proof.
  pose proof (stepwise_invariant sessions_ok (fun d x H => H)) as HR.
  every_call c sessions_ok HR;
    cbn [replace documents c_station c_session] in *;
    try (apply sessions_ok_stations; intros ?;
         first [apply find_one_update_some | apply find_one_app_some]);
    try (intros Hs; unfold sessions_ok in *; cbn;
         apply Forall_update_one; [assumption|]; intros ?; apply set_session_ended_ok).
  intros Hs. unfold sessions_ok in *. cbn. apply Forall_app. split; [assumption|].
  constructor; [|constructor]. unfold session_ok. cbn.
  repeat match goal with |- _ /\ _ => split end; try reflexivity; try discriminate.
  - match goal with
    | Hx : ObjectId_of_string _ = Some ?x, Hf : find_one (by_id ?x) _ = Some _ |- _ =>
        exists x; split; [exact Hx|unfold find_one in Hf; rewrite Hf; discriminate]
    end.
  - now left.
Qed.
Lemma reachable_sessions_ok w : reachable w -> sessions_ok (db w).
Proof.
  apply (reachable_invariant sessions_ok); [constructor|exact handle_sessions_ok].
Qed.

(** X24.  In every store the service gets into from an empty one, the
    station id of every session is one that [ObjectId] takes and that of a
    stored station, and a session is active without an end or ended with
    one.  So [end_session] never stops half-way there: it succeeds on
    every stored session, and when it fails it has written nothing, the
    failure being 400 for a session id that [ObjectId] refuses (one that
    is not a string of 24 characters that [bytes.fromhex] reads) and 404
    for one that [ObjectId] takes and that no session has. *)
Theorem end_session_in_reachable_stores
  (req : EndSessionRequest.t) (now : string) (w : World) :
  reachable w ->
  let sid := EndSessionRequest.session_id req in
  (forall d, In d (session (db w)) ->
     (exists k, ObjectId_of_string (Session.station_id (snd d)) = Some k
                /\ find_one (by_id k) (station (db w)) <> None)
     /\ (Session.status (snd d) = active /\ Session.ended_at (snd d) = None
         \/ Session.status (snd d) = ended /\ Session.ended_at (snd d) <> None))
  /\ (forall k d, ObjectId_of_string sid = Some k ->
        find_one (by_id k) (session (db w)) = Some d ->
        fst (end_session req now w) = Ok true)
  /\ (forall e, fst (end_session req now w) = Raise e ->
        snd (end_session req now w) = w
        /\ (e = HTTPException 400 "Invalid ID" /\ ObjectId_of_string sid = None
            \/ e = HTTPException 404 "Session not found"
               /\ exists k, ObjectId_of_string sid = Some k
                            /\ find_one (by_id k) (session (db w)) = None)).
Proof.
  intros Hw. cbv zeta. pose proof (reachable_sessions_ok w Hw) as Hs.
  unfold sessions_ok in Hs. rewrite Forall_forall in Hs.
  assert (Hok : forall k d, ObjectId_of_string (EndSessionRequest.session_id req) = Some k ->
                  find_one (by_id k) (session (db w)) = Some d ->
                  fst (end_session req now w) = Ok true).
  { intros k d Hk Hf. destruct (find_one_In _ _ _ Hf) as [Hin _].
    destruct (Hs d Hin) as ((ks & Hks & _) & _).
    destruct (SessionStatus_eqb (Session.status (snd d)) ended) eqn:E.
    - apply SessionStatus_eqb_eq in E. now rewrite (end_session_ended req now w k d Hk Hf E).
    - assert (Hne : Session.status (snd d) <> ended).
      { intros E'. apply SessionStatus_eqb_eq in E'. congruence. }
      destruct (end_session_ends req now w k d ks Hk Hf Hne Hks) as (log & fl & ->).
      reflexivity. }
  split; [|split; [exact Hok|]].
  - intros d Hd. destruct (Hs d Hd) as (Hst & _ & Hse & _). now split.
  - intros e He.
    destruct (ObjectId_of_string (EndSessionRequest.session_id req)) as [k|] eqn:Hk.
    + destruct (find_one (by_id k) (session (db w))) as [d|] eqn:Hf.
      * rewrite (Hok k d eq_refl Hf) in He. discriminate.
      * revert He. unfold end_session.
        rewrite (bind_ok _ _ _ _ _ (oid_valid _ _ w Hk)), bind_find_one.
        cbn [documents c_session]. rewrite Hf. cbn. intros He. injection He as <-.
        split; [reflexivity|]. right. split; [reflexivity|]. now exists k.
    + revert He. unfold end_session.
      rewrite (bind_raise _ _ _ _ _ (oid_invalid _ w Hk)). cbn.
      intros He. injection He as <-. split; [reflexivity|]. now left.
Qed.

Lemma end_session_in_reachable_stores_witness :
  let w := run [POST_stations (Station.mk "cafe1" "PS5" available None None);
                POST_sessions_start (StartSessionRequest.mk "cafe1" (str_oid 1%N) None)
                  "2024-01-01T10:00:00+00:00"] (mkWorld empty_db []) in
  fst (end_session (EndSessionRequest.mk (str_oid 1%N)) "2024-01-01T11:00:00+00:00" w)
  = Ok true
  /\ snd (end_session (EndSessionRequest.mk ex_spaced_id) "2024-01-01T11:00:00+00:00" w) = w.
Proof.
  cbv zeta. split.
  - apply (proj1 (proj2 (end_session_in_reachable_stores
                           (EndSessionRequest.mk (str_oid 1%N)) "2024-01-01T11:00:00+00:00" _
                           (reachable_run _ _ (reachable_empty []))))
             1%N
             (1%N, Session.mk "cafe1" (str_oid 1%N) None None active
                     (Some "2024-01-01T10:00:00+00:00") None None (Some f0)));
      reflexivity.
  - apply (proj2 (proj2 (end_session_in_reachable_stores
                           (EndSessionRequest.mk ex_spaced_id) "2024-01-01T11:00:00+00:00"
                           (run [POST_stations (Station.mk "cafe1" "PS5" available None None);
                                 POST_sessions_start
                                   (StartSessionRequest.mk "cafe1" (str_oid 1%N) None)
                                   "2024-01-01T10:00:00+00:00"] (mkWorld empty_db []))
                           (reachable_run _ _ (reachable_empty []))))
             (HTTPException 404 "Session not found") eq_refl).
Defined.

Lemma serve_order_ok o w :
  (forall s, o = Some s -> s = "" \/ ObjectId_of_string s <> None) ->
  fst (serve_order o w) = Ok tt.
Proof.
  intros H. unfold serve_order. destruct o as [s|]; [|reflexivity].
  destruct (truthy s) eqn:Ht; [|reflexivity].
  destruct (H s eq_refl) as [->|Hk]; [discriminate|].
  destruct (ObjectId_of_string s) as [k|] eqn:Hs; [|now elim Hk].
  destruct (serve_order_serves s k w Hs) as (log & fl & E).
  unfold serve_order in E. rewrite Ht in E. now rewrite E.
Qed.

Lemma sessions_ok_closable d sid :
  sessions_ok d ->
  (forall s, sid = Some s -> s = "" \/ ObjectId_of_string s <> None) ->
  closable d sid = true.
Proof.
  intros Hs H. unfold closable. destruct sid as [s|]; [|reflexivity].
  destruct (truthy s) eqn:Ht; [|reflexivity].
  destruct (H s eq_refl) as [->|Hk]; [discriminate|].
  destruct (ObjectId_of_string s) as [k|]; [|now elim Hk].
  destruct (find_one (by_id k) (session d)) as [[k' sess]|] eqn:Hf; [|reflexivity].
  destruct (find_one_In _ _ _ Hf) as [Hin _].
  unfold sessions_ok in Hs. rewrite Forall_forall in Hs.
  destruct (Hs _ Hin) as ((ks & Hks & _) & _). cbn in Hks. rewrite Hks.
  apply orb_true_r.
Qed.

(** X25.  In every store the service gets into from an empty one, a
    checkout with an amount of 0 or more succeeds unless the request itself
    carries a session id or an order id that is not empty and not
    well-formed: nothing stored makes it fail. *)
Theorem checkout_in_reachable_stores
  (req : CheckoutRequest.t) (now : string) (w : World) :
  reachable w ->
  ge0 (CheckoutRequest.amount req) = true ->
  (forall s, CheckoutRequest.session_id req = Some s ->
     s = "" \/ ObjectId_of_string s <> None) ->
  (forall o, CheckoutRequest.order_id req = Some o ->
     o = "" \/ ObjectId_of_string o <> None) ->
  exists pid, fst (checkout req now w) = Ok (pid, success).
Proof.
  intros Hw Hv Hs Ho.
  destruct (find_one (paid_with (CheckoutRequest.idempotency_key req)) (payment (db w)))
    as [d|] eqn:Hf.
  - rewrite (checkout_replayed _ now _ _ Hf). now eexists.
  - rewrite (checkout_fresh req now w Hf Hv). cbv zeta.
    set (wa := mkWorld _ (audit_faults w)).
    assert (Hc : closable (db wa) (CheckoutRequest.session_id req) = true).
    { apply sessions_ok_closable; [|exact Hs]. exact (reachable_sessions_ok w Hw). }
    pose proof (close_session_closable _ now wa Hc) as E1.
    destruct (close_session (CheckoutRequest.session_id req) now wa) as [r1 w2] eqn:E.
    cbn in E1. subst r1. rewrite (bind_ok _ _ _ _ _ E).
    pose proof (serve_order_ok _ w2 Ho) as E2.
    destruct (serve_order (CheckoutRequest.order_id req) w2) as [r2 w3] eqn:E'.
    cbn in E2. subst r2. rewrite (bind_ok _ _ _ _ _ E').
    match goal with
    | |- context [bind (audit ?a ?t ?r ?p ?u ?c) _ ?w0] =>
        destruct (audit_spec a t r p u c w0) as (log' & fl' & E3);
        rewrite (bind_ok _ _ _ _ _ E3)
    end.
    now eexists.
Qed.

Lemma checkout_in_reachable_stores_witness :
  let w := run [POST_stations (Station.mk "cafe1" "PS5" available None None);
                POST_sessions_start (StartSessionRequest.mk "cafe1" (str_oid 1%N) None)
                  "2024-01-01T10:00:00+00:00"] (mkWorld empty_db []) in
  exists pid,
    fst (checkout (CheckoutRequest.mk "cafe1" (Some (str_oid 1%N)) (Some "") f50 cash "k")
           "2024-01-01T11:00:00+00:00" w)
    = Ok (pid, success).
Proof.
  cbv zeta.
  apply (checkout_in_reachable_stores
           (CheckoutRequest.mk "cafe1" (Some (str_oid 1%N)) (Some "") f50 cash "k")
           "2024-01-01T11:00:00+00:00" _ (reachable_run _ _ (reachable_empty [])) eq_refl).
  - intros s E. injection E as <-. right. discriminate.
  - intros o E. injection E as <-. now left.
Defined.

(** ** One station, two sessions *)

Lemma update_station_status_found req now w k d :
  ObjectId_of_string (UpdateStationStatusRequest.station_id req) = Some k ->
  find_one (by_id k) (station (db w)) = Some d ->
  exists w',
    update_station_status req now w = (Ok true, w')
    /\ find_one (by_id k) (station (db w'))
       = Some (k, set_station_status (UpdateStationStatusRequest.status req) now (snd d))
    /\ session (db w') = session (db w).
Proof.
  intros Hk Hf. destruct d as [k' st]. unfold update_station_status.
  rewrite (bind_ok _ _ _ _ _ (oid_valid _ _ w Hk)), bind_find_one.
  cbn [documents c_station]. rewrite Hf.
  rewrite (bind_ok _ _ _ _ _ (oid_valid _ _ w Hk)).
  rewrite bind_update. cbn [documents replace c_station].
  match goal with
  | |- context [bind (audit ?a ?t ?r ?p ?u ?c) _ ?w0] =>
      destruct (audit_spec a t r p u c w0) as (log & fl & E);
      rewrite (bind_ok _ _ _ _ _ E)
  end.
  eexists. split; [reflexivity|]. cbn [db station session with_auditlog with_station].
  split; [|reflexivity]. now rewrite (find_one_updated _ _ _ _ Hf).
Qed.

(** X26.  [update_station_status] lets a station be booked twice.  After a
    session has been started on a station, setting the station to
    available, which leaves the session active, makes a second
    [start_session] on it succeed: the two sessions are then both active on
    the one station, which records the second only. *)
Theorem station_double_booking
  (first second : StartSessionRequest.t) (t1 t2 t3 : string) (w : World)
  (k : ObjectId) (st : Station.t) :
  let sid := StartSessionRequest.station_id first in
  StartSessionRequest.station_id second = sid ->
  ObjectId_of_string sid = Some k ->
  find_one (by_id k) (station (db w)) = Some (k, st) ->
  Station.status st <> in_use ->
  let w1 := snd (start_session first t1 w) in
  let w2 := snd (update_station_status (UpdateStationStatusRequest.mk sid available) t2 w1) in
  let w3 := snd (start_session second t3 w2) in
  let k1 := new_oid (session (db w)) in
  let k2 := new_oid (session (db w1)) in
  exists x1 x2,
    fst (start_session first t1 w) = Ok (str_oid k1)
    /\ fst (update_station_status (UpdateStationStatusRequest.mk sid available) t2 w1)
       = Ok true
    /\ fst (start_session second t3 w2) = Ok (str_oid k2)
    /\ session (db w3) = session (db w) ++ [(k1, x1); (k2, x2)]
    /\ k1 <> k2
    /\ Session.status x1 = active /\ Session.station_id x1 = sid
    /\ Session.status x2 = active /\ Session.station_id x2 = sid
    /\ find_one (by_id k) (station (db w3))
       = Some (k, Station.mk (Station.cafe_id st) (Station.name st) in_use
                    (Some (str_oid k2)) (Some t2)).
Proof.
  cbv zeta. intros Hsame Hk Hf Hs.
  destruct (start_session_free first t1 w k (k, st) Hk Hf Hs)
    as (w1 & x1 & E1 & Hse1 & Ha1 & _ & _ & Hsid1 & _ & _ & _ & Hf1 & _).
  rewrite E1. cbn [fst snd].
  destruct (update_station_status_found
              (UpdateStationStatusRequest.mk (StartSessionRequest.station_id first) available)
              t2 w1 k _ Hk Hf1) as (w2 & E2 & Hf2 & Hse2).
  rewrite E2. cbn [fst snd].
  assert (Hk' : ObjectId_of_string (StartSessionRequest.station_id second) = Some k)
    by now rewrite Hsame.
  destruct (start_session_free second t3 w2 k _ Hk' Hf2)
    as (w3 & x2 & E3 & Hse3 & Ha3 & _ & _ & Hsid3 & _ & _ & _ & Hf3 & _);
    [discriminate|].
  rewrite E3. cbn [fst snd]. rewrite Hse2 in *.
  cbn [snd set_station_status Station.cafe_id Station.name Station.status
       Station.current_session_id Station.updated_at UpdateStationStatusRequest.status]
    in Hf3.
  exists x1, x2. rewrite Hse3, Hse1, <- app_assoc. cbn [app].
  repeat match goal with |- _ /\ _ => split end; trivial; try congruence.
  intros E.
  apply (new_oid_fresh (session (db w) ++ [(new_oid (session (db w)), x1)]) x1).
  rewrite <- E. apply in_or_app. right. now left.
Qed.

Lemma station_double_booking_witness :
  let first := StartSessionRequest.mk "cafe1" (str_oid 1%N) (Some "Ana") in
  let second := StartSessionRequest.mk "cafe1" (str_oid 1%N) (Some "Bo") in
  let w1 := snd (start_session first "2024-01-01T10:00:00+00:00" ex_world) in
  let w2 := snd (update_station_status
                   (UpdateStationStatusRequest.mk (str_oid 1%N) available)
                   "2024-01-01T10:05:00+00:00" w1) in
  let w3 := snd (start_session second "2024-01-01T10:10:00+00:00" w2) in
  exists x1 x2,
    session (db w3) = session (db ex_world) ++ [(3%N, x1); (4%N, x2)]
    /\ Session.status x1 = active /\ Session.station_id x1 = str_oid 1%N
    /\ Session.status x2 = active /\ Session.station_id x2 = str_oid 1%N.
Proof.
  cbv zeta.
  destruct (station_double_booking
              (StartSessionRequest.mk "cafe1" (str_oid 1%N) (Some "Ana"))
              (StartSessionRequest.mk "cafe1" (str_oid 1%N) (Some "Bo"))
              "2024-01-01T10:00:00+00:00" "2024-01-01T10:05:00+00:00"
              "2024-01-01T10:10:00+00:00" ex_world 1%N (ex_station available None)
              eq_refl eq_refl eq_refl)
    as (x1 & x2 & _ & _ & _ & Hs & _ & H1 & H2 & H3 & H4 & _); [discriminate|].
  exists x1, x2. now repeat split.
Defined.
(** ** The audit trail *)

Lemma bind_audit_up {B} a t r p u c (k : unit -> M B) w :
  audit_up w ->
  bind (audit a t r p u c) k w
  = k tt (mkWorld
            (with_auditlog
               (auditlog (db w) ++ [(new_oid (auditlog (db w)), AuditLog.mk u c a t r p)])
               (db w))
            (tl (audit_faults w))).
Proof.
  unfold audit_up, bind, audit, try_except, store_fault, create_document, ret.
  destruct w as [d fl]. cbn. destruct fl as [|[|] fl]; [reflexivity|intros []|reflexivity].
Qed.

(** X27.  While the audit store takes writes, every creation that succeeds
    leaves one entry at the end of the audit log: action create, the
    table, the id that was answered, and the record as it was stored, so
    that a registration puts the password, as it came, into the audit log
    as well.  The default settings that [get_settings] creates are not
    logged, and neither is a login. *)
Theorem creations_are_audited (w : World) :
  audit_up w ->
  (forall req uid w1, register req w = (Ok uid, w1) ->
     logged w w1
       (AuditLog.mk None None "create" "user" (Some uid)
          (PUser (User.mk (RegisterRequest.email req) (RegisterRequest.password req)
                    (RegisterRequest.name req) (RegisterRequest.role req) None true))))
  /\ (forall st sid w1, create_station st w = (Ok sid, w1) ->
        logged w w1
          (AuditLog.mk None (Some (Station.cafe_id st)) "create" "station" (Some sid)
             (PStation st)))
  /\ (forall req mid w1, create_menu_item req w = (Ok mid, w1) ->
        logged w w1
          (AuditLog.mk None (Some (CreateMenuItemRequest.cafe_id req)) "create" "menuitem"
             (Some mid)
             (PMenuItem
                (MenuItem.mk (CreateMenuItemRequest.cafe_id req)
                   (CreateMenuItemRequest.name req) (CreateMenuItemRequest.category req)
                   (CreateMenuItemRequest.price req) (CreateMenuItemRequest.sku req) true))))
  /\ (forall req now sid w1, start_session req now w = (Ok sid, w1) ->
        exists s,
          session (db w1) = session (db w) ++ [(new_oid (session (db w)), s)]
          /\ logged w w1
               (AuditLog.mk None (Some (StartSessionRequest.cafe_id req)) "create" "session"
                  (Some sid) (PSession s)))
  /\ (forall req r w1, create_order req w = (Ok r, w1) ->
        exists o,
          order (db w1) = order (db w) ++ [(new_oid (order (db w)), o)]
          /\ logged w w1
               (AuditLog.mk None (Some (CreateOrderRequest.cafe_id req)) "create" "order"
                  (Some (fst r)) (POrder o)))
  /\ (forall keeps_id cafe_id,
        auditlog (db (snd (get_settings keeps_id cafe_id w))) = auditlog (db w))
  /\ (forall req, auditlog (db (snd (login req w))) = auditlog (db w)).
Proof.
  intros Hup. unfold logged. repeat match goal with |- _ /\ _ => split end.
  - intros req uid w1. unfold register. rewrite bind_find_one.
    destruct (find_one _ _); [discriminate|].
    rewrite bind_create, bind_audit_up by exact Hup.
    intros H. injection H as <- <-. reflexivity.
  - intros st sid w1. unfold create_station.
    rewrite bind_create, bind_audit_up by exact Hup.
    intros H. injection H as <- <-. reflexivity.
  - intros req mid w1. unfold create_menu_item. rewrite bind_validate.
    destruct (ge0 _); [|discriminate].
    rewrite bind_create, bind_audit_up by exact Hup.
    intros H. injection H as <- <-. reflexivity.
  - intros req now sid w1. unfold start_session. unfold bind at 1, oid.
    destruct (ObjectId_of_string (StartSessionRequest.station_id req)) as [k|] eqn:Hk;
      [|discriminate].
    cbn [ret]. rewrite bind_find_one.
    destruct (find_one _ _) as [[k' st]|]; [|discriminate].
    destruct (StationStatus_eqb _ _); [discriminate|].
    rewrite bind_create. cbn [documents replace c_session].
    rewrite bind_ret, bind_update, bind_audit_up by exact Hup.
    intros H. injection H as <- <-. eexists. split; reflexivity.
  - intros req r w1 H. destruct (create_order_inv _ _ _ _ H) as (new & Hne & HF & Hok & -> & Ho & _).
    exists (priced_order (db w) req new). split; [exact Ho|].
    revert H. unfold create_order.
    destruct (CreateOrderRequest.items req) as [|it rest] eqn:Hl; [contradiction|].
    rewrite (bind_ok _ _ _ _ _ (price_lines_accepts _ new [] f0 w HF)).
    cbn [app]. cbv beta iota. rewrite bind_find_one. cbn [documents c_settings].
    fold (tax_rate_of (db w) (CreateOrderRequest.cafe_id req)).
    fold (sum_prices new). rewrite bind_validate.
    match goal with |- (if ?b then _ else _) = _ -> _ => destruct b end; [|discriminate].
    rewrite bind_create, bind_audit_up by exact Hup.
    intros H. injection H as <-. reflexivity.
  - intros keeps_id cafe_id. unfold get_settings. rewrite bind_find_one.
    destruct (find_one _ _) as [[k s]|]; reflexivity.
  - intros req. unfold login. rewrite bind_find_one.
    destruct (find_one _ _) as [[k u]|]; reflexivity.
Qed.

Lemma creations_are_audited_witness :
  let w1 := snd (register ex_register ex_world) in
  auditlog (db w1)
  = [(1%N, AuditLog.mk None None "create" "user" (Some (str_oid 1%N))
             (PUser (User.mk "ana@example.com" "s3cret" "Ana" cashier None true)))].
Proof.
  cbv zeta.
  apply (proj1 (creations_are_audited ex_world I) ex_register (str_oid 1%N)).
  reflexivity.
Defined.
(** ** What the pricing of an order reads *)

Lemma price_lines_reads lines : forall items subtotal w w',
  menuitem (db w) = menuitem (db w') ->
  fst (price_lines lines items subtotal w) = fst (price_lines lines items subtotal w').
Proof.
  induction lines as [|it rest IH]; intros items subtotal w w' E; [reflexivity|].
  rewrite !price_lines_head.
  assert (Ee : line_error (db w) it = line_error (db w') it)
    by (unfold line_error; now rewrite E).
  assert (Ei : line_item (db w) it = line_item (db w') it)
    by (unfold line_item, menu_item_of; now rewrite E).
  rewrite Ee, Ei.
  destruct (line_error (db w') it); [reflexivity|].
  destruct (line_item (db w') it) as [oi|]; [|reflexivity].
  destruct (item_amounts_ok oi); [|reflexivity].
  now apply IH.
Qed.

(** The answer of [create_order] and the orders it leaves depend on the
    store through the menu, the orders and the tax rate of the cafe only. *)
Lemma create_order_reads req w w' :
  menuitem (db w) = menuitem (db w') ->
  order (db w) = order (db w') ->
  tax_rate_of (db w) (CreateOrderRequest.cafe_id req)
  = tax_rate_of (db w') (CreateOrderRequest.cafe_id req) ->
  fst (create_order req w) = fst (create_order req w')
  /\ order (db (snd (create_order req w))) = order (db (snd (create_order req w'))).
Proof.
  intros Em Eo Et. unfold create_order.
  destruct (CreateOrderRequest.items req) as [|it rest]; [now split|].
  pose proof (price_lines_reads (it :: rest) [] f0 w w' Em) as Ep.
  destruct (price_lines (it :: rest) [] f0 w) as [r1 w1] eqn:E1.
  destruct (price_lines (it :: rest) [] f0 w') as [r2 w2] eqn:E2.
  destruct (price_lines_inv _ _ _ _ _ _ E1) as [-> _].
  destruct (price_lines_inv _ _ _ _ _ _ E2) as [-> _].
  cbn [fst] in Ep. subst r2. destruct r1 as [[items subtotal]|e];
    [|rewrite (bind_raise _ _ _ _ _ E1), (bind_raise _ _ _ _ _ E2); now split].
  rewrite (bind_ok _ _ _ _ _ E1), (bind_ok _ _ _ _ _ E2). cbv beta iota.
  rewrite !bind_find_one. cbn [documents c_settings].
  fold (tax_rate_of (db w) (CreateOrderRequest.cafe_id req)).
  fold (tax_rate_of (db w') (CreateOrderRequest.cafe_id req)).
  rewrite Et, !bind_validate.
  match goal with |- context [if ?b then _ else _] => destruct b end; [|now split].
  rewrite !bind_create. cbn [documents replace c_order]. rewrite Eo.
  repeat match goal with
  | |- context [bind (audit ?a ?t ?r ?p ?u ?c) ?k ?w0] =>
      let log := fresh "log" in
      let fl := fresh "fl" in
      let E := fresh "E" in
      destruct (audit_spec a t r p u c w0) as (log & fl & E);
      rewrite (bind_ok _ _ _ _ _ E); clear E
  end.
  now split.
Qed.

Lemma tax_rate_of_reads d d' cafe_id :
  Forall2 (fun x y => Settings.cafe_id (snd y) = Settings.cafe_id (snd x)
                      /\ Settings.tax_rate (snd y) = Settings.tax_rate (snd x))
    (settings d) (settings d') ->
  tax_rate_of d cafe_id = tax_rate_of d' cafe_id.
Proof.
  unfold tax_rate_of. generalize (settings d) (settings d'). intros l l' H.
  induction H as [|[k x] [k' y] l l' [Hc Ht] _ IH]; [reflexivity|].
  cbn in *. unfold of_cafe at 1 3. cbn. rewrite Hc.
  destruct (String.eqb (Settings.cafe_id x) cafe_id); [now symmetry|exact IH].
Qed.

Lemma Forall2_same {A} (R : A -> A -> Prop) (l : list A) :
  (forall x, R x x) -> Forall2 R l l.
Proof. intros H. induction l; constructor; auto. Qed.

(** X28.  The currency and the service charge rate of a cafe's settings
    have no effect on its orders: whatever the two are set to, an order is
    answered alike, with the same id and total or with the same error, and
    is stored alike.  No service charge is ever added to a total. *)
Theorem pricing_ignores_service_charge
  (s : Settings.t) (currency : string) (service_charge_rate : float)
  (req : CreateOrderRequest.t) (w : World) :
  let s' := Settings.mk (Settings.cafe_id s) currency (Settings.tax_rate s)
              service_charge_rate in
  let w1 := snd (update_settings s w) in
  let w1' := snd (update_settings s' w) in
  fst (create_order req w1') = fst (create_order req w1)
  /\ order (db (snd (create_order req w1'))) = order (db (snd (create_order req w1))).
Proof.
  cbv zeta.
  set (s' := Settings.mk (Settings.cafe_id s) currency (Settings.tax_rate s)
               service_charge_rate).
  assert (Pm : forall x, preserves menuitem (update_settings x))
    by (intros x; unfold update_settings; frame).
  assert (Po : forall x, preserves order (update_settings x))
    by (intros x; unfold update_settings; frame).
  apply create_order_reads.
  - now rewrite (Pm s' w), (Pm s w).
  - now rewrite (Po s' w), (Po s w).
  - apply tax_rate_of_reads.
    destruct (update_settings_spec s' w) as (w1' & E' & H').
    destruct (update_settings_spec s w) as (w1 & E & H).
    rewrite E', E. cbn [snd]. rewrite H', H. cbn [Settings.cafe_id s'].
    destruct (find_one (of_cafe (Settings.cafe_id s)) (settings (db w))) as [[k x]|].
    + generalize (settings (db w)). intros l.
      induction l as [|d l IH]; cbn; [constructor|].
      destruct (by_id k d); constructor; cbn; auto.
      apply Forall2_same. auto.
    + apply Forall2_app; [apply Forall2_same; auto|].
      constructor; [now split|constructor].
Qed.
(** ** The cafe of a session *)

Lemma start_session_answer req now w :
  fst (start_session req now w)
  = match ObjectId_of_string (StartSessionRequest.station_id req) with
    | None => Raise (HTTPException 400 "Invalid ID")
    | Some k =>
        match find_one (by_id k) (station (db w)) with
        | None => Raise (HTTPException 404 "Station not found")
        | Some (_, st) =>
            if StationStatus_eqb (Station.status st) in_use
            then Raise (HTTPException 409 "Station already in use")
            else Ok (str_oid (new_oid (session (db w))))
        end
    end.
Proof.
  destruct (ObjectId_of_string (StartSessionRequest.station_id req)) as [k|] eqn:Hk.
  - destruct (find_one (by_id k) (station (db w))) as [[k' st]|] eqn:Hf.
    + destruct (StationStatus_eqb (Station.status st) in_use) eqn:Hs.
      * unfold start_session.
        rewrite (bind_ok _ _ _ _ _ (oid_valid _ _ w Hk)), bind_find_one.
        cbn [documents c_station]. now rewrite Hf, Hs.
      * assert (Hne : Station.status (snd (k', st)) <> in_use).
        { cbn. intros E. rewrite E in Hs. discriminate. }
        destruct (start_session_free req now w k (k', st) Hk Hf Hne) as (w1 & s & E & _).
        now rewrite E.
    + unfold start_session.
      rewrite (bind_ok _ _ _ _ _ (oid_valid _ _ w Hk)), bind_find_one.
      cbn [documents c_station]. now rewrite Hf.
  - unfold start_session. now rewrite (bind_raise _ _ _ _ _ (oid_invalid _ w Hk)).
Qed.

(** X29.  [start_session] does not check that the station is one of the
    cafe the request names: with any other cafe and customer it gives the
    same answer, the same session id or the same error, and the session it
    stores carries the cafe of the request, whatever the cafe of the
    station. *)
Theorem start_session_ignores_cafe
  (req : StartSessionRequest.t) (cafe_id : string) (customer_name : option string)
  (now : string) (w : World) :
  let req' := StartSessionRequest.mk cafe_id (StartSessionRequest.station_id req)
                customer_name in
  fst (start_session req' now w) = fst (start_session req now w)
  /\ (forall sid w1, start_session req' now w = (Ok sid, w1) ->
        exists k st s,
          ObjectId_of_string (StartSessionRequest.station_id req) = Some k
          /\ find_one (by_id k) (station (db w)) = Some (k, st)
          /\ session (db w1) = session (db w) ++ [(new_oid (session (db w)), s)]
          /\ Session.cafe_id s = cafe_id
          /\ find_one (by_id k) (station (db w1))
             = Some (k, Station.mk (Station.cafe_id st) (Station.name st) in_use
                          (Some sid) (Station.updated_at st))).
Proof.
  cbv zeta. split; [now rewrite !start_session_answer|].
  intros sid w1 H. destruct (start_session_ok _ _ _ _ _ H) as (k & [k' st] & Hk & Hf & Hs).
  cbn [StartSessionRequest.station_id] in Hk.
  assert (k' = k) by (eapply find_one_by_id; eauto). subst k'.
  destruct (start_session_free
              (StartSessionRequest.mk cafe_id (StartSessionRequest.station_id req)
                 customer_name) now w k (k, st) Hk Hf Hs)
    as (w' & s & E & Hse & _ & _ & _ & _ & Hc & _ & _ & Hst & _).
  rewrite E in H. injection H as <- <-.
  exists k, st, s. now repeat split.
Qed.

Lemma start_session_ignores_cafe_witness :
  let req' := StartSessionRequest.mk "cafe2" (str_oid 1%N) None in
  exists s,
    session (db (snd (start_session req' "2024-01-01T10:00:00+00:00" ex_world)))
    = session (db ex_world) ++ [(3%N, s)]
    /\ Session.cafe_id s = "cafe2"
    /\ option_map (fun d => Station.cafe_id (snd d))
         (find_one (by_id 1%N) (station (db ex_world))) = Some "cafe1".
Proof.
  cbv zeta.
  destruct (proj2 (start_session_ignores_cafe
                     (StartSessionRequest.mk "cafe1" (str_oid 1%N) None) "cafe2" None
                     "2024-01-01T10:00:00+00:00" ex_world)
              (str_oid 3%N)
              (snd (start_session (StartSessionRequest.mk "cafe2" (str_oid 1%N) None)
                      "2024-01-01T10:00:00+00:00" ex_world))
              eq_refl)
    as (k & st & s & _ & _ & Hs & Hc & _).
  exists s. split; [exact Hs|]. split; [exact Hc|reflexivity].
Defined.
